(** * ESCC multi-stage genomic summary: a shallow embedding

    The repository holds two scripts, [excel_3CNV_analysis.py] (one summary
    per stage) and [overall_analysis_excel.py] (one summary over all stages).
    Both walk [BASE_FOLDER/<stage>/<sample>/<file>], read copy-number (CNV)
    and mutation (MAF) files with pandas, accumulate values, and write an
    Excel workbook.

    Python strings are [string]s (one [ascii] per character), Python lists
    are [list]s, insertion-ordered dicts are association lists, [None] is
    [None].  Code that prints, appends to the failure log, writes a sheet or
    may raise runs in the monad [Py]: it threads the console, the log and
    the workbook, and returns either a value or the exception that
    escaped. *)

From Stdlib Require Import List String Ascii Bool Arith NArith ZArith QArith Qround Lia.
From Stdlib Require Import Permutation Sorted.
Import ListNotations.

Local Open Scope string_scope.
Local Open Scope list_scope.

(* ------------------------------------------------------------------ *)
(** ** Python strings *)

Module PyStr.

Definition newline : ascii := "010"%char.
Definition tab : ascii := "009"%char.
Definition NL : string := String newline "".
Definition TAB : string := String tab "".

(** [c.lower()] on one character: 'A'..'Z' move to 'a'..'z'. *)
Definition lower_ascii (c : ascii) : ascii :=
  let n := N_of_ascii c in
  if ((65 <=? n) && (n <=? 90))%N then ascii_of_N (n + 32) else c.

(** [s.lower()] *)
Fixpoint lower (s : string) : string :=
  match s with
  | EmptyString => EmptyString
  | String c s' => String (lower_ascii c) (lower s')
  end.

(** [s in l] for a list of strings *)
Definition str_in (s : string) (l : list string) : bool :=
  existsb (String.eqb s) l.

(** [s.startswith(p)] *)
Definition startswith (p s : string) : bool := String.prefix p s.

(** [s.endswith(p)] *)
Definition endswith (p s : string) : bool :=
  (String.length p <=? String.length s)%nat
  && String.eqb (substring (String.length s - String.length p) (String.length p) s) p.

(** [p in s] for strings: [p] occurs in [s] at some offset. *)
Fixpoint contains (p s : string) : bool :=
  String.prefix p s
  || match s with
     | EmptyString => false
     | String _ s' => contains p s'
     end.

(** [s[:n]] *)
Definition slice_to (n : nat) (s : string) : string := substring 0 n s.

(** [sep.join(l)] *)
Definition join (sep : string) (l : list string) : string := String.concat sep l.

(** Iterating over a text file: the text is cut after every newline, and
    each line keeps its newline; only the last line can lack one. *)
Fixpoint readlines (s : string) : list string :=
  match s with
  | EmptyString => []
  | String c s' =>
      if Ascii.eqb c newline then String c EmptyString :: readlines s'
      else match readlines s' with
           | [] => [String c EmptyString]
           | l :: ls => String c l :: ls
           end
  end.

(** [os.path.join(a, b)] (POSIX): an absolute [b] replaces [a]; otherwise
    the two are joined by one '/', not added when [a] is empty or ends
    with one. *)
Definition os_path_join (a b : string) : string :=
  if startswith "/" b then b
  else if String.eqb a "" || endswith "/" a then a ++ b
  else a ++ "/" ++ b.

End PyStr.
Import PyStr.

(* ------------------------------------------------------------------ *)
(** ** Exceptions *)

(** The exceptions the scripts can meet; every one is a subclass of
    Python's [Exception], so [except Exception] catches each of them. *)
Inductive Exception : Type :=
| OSError (msg : string)             (* missing file, directory, permission *)
| UnicodeDecodeError (msg : string)
| ParserError (msg : string)         (* pandas.errors.ParserError *)
| EmptyDataError (msg : string)      (* pandas.errors.EmptyDataError *)
| KeyError (key : string)
| ValueError (msg : string).

(** [str(e)] *)
Definition str_of_exception (e : Exception) : string :=
  match e with
  | OSError m | UnicodeDecodeError m | ParserError m
  | EmptyDataError m | ValueError m => m
  | KeyError k => "'" ++ k ++ "'"
  end.

(* ------------------------------------------------------------------ *)
(** ** pandas: cells, data frames, [pd.concat] *)

(** One value of a column: a number, a string, or NaN (missing). Numbers
    are exact rationals. *)
Inductive cell : Type :=
| CNum (q : Q)
| CStr (s : string)
| CNaN.

(** Equality of values as pandas groups them. *)
Definition cell_eqb (a b : cell) : bool :=
  match a, b with
  | CNum p, CNum q => Qeq_bool p q
  | CStr s, CStr t => String.eqb s t
  | CNaN, CNaN => true
  | _, _ => false
  end.

Definition is_nan (c : cell) : bool :=
  match c with CNaN => true | _ => false end.

(** [series.dropna()] *)
Definition dropna (l : list cell) : list cell :=
  filter (fun c => negb (is_nan c)) l.

(** A data frame: its column names in order and its rows. A row shorter
    than the header reads as NaN in the columns it lacks. *)
Record DataFrame : Type := mkDataFrame {
  columns : list string;
  rows : list (list cell)
}.

Fixpoint index_of (c : string) (cols : list string) : option nat :=
  match cols with
  | [] => None
  | c' :: cols' =>
      if String.eqb c' c then Some 0%nat
      else match index_of c cols' with
           | Some i => Some (S i)
           | None => None
           end
  end.

Definition column_values (i : nat) (rs : list (list cell)) : list cell :=
  map (fun r => nth i r CNaN) rs.

(** [df[col].tolist()]; [KeyError] when the frame has no such column. The
    frames of [read_csv] have pairwise different column names, so the first
    column of that name is the column. *)
Definition getitem (df : DataFrame) (col : string) : Exception + list cell :=
  match index_of col (columns df) with
  | Some i => inr (column_values i (rows df))
  | None => inl (KeyError col)
  end.

(** [df[key]] where [key] may be [None]: no frame has a column [None]. *)
Definition getitem_key (df : DataFrame) (key : option string)
  : Exception + list cell :=
  match key with
  | Some col => getitem df col
  | None => inl (KeyError "None")
  end.

(** The union of the column names of several frames, each name once, in
    the order of first appearance. *)
Definition add_columns (acc new : list string) : list string :=
  fold_left (fun a c => if str_in c a then a else a ++ [c]) new acc.

Definition union_columns (frames : list DataFrame) : list string :=
  fold_left (fun acc df => add_columns acc (columns df)) frames [].

(** A row of a frame with columns [from], laid out on the columns [to]:
    NaN where [from] has no such column. *)
Definition reindex_row (from to : list string) (r : list cell) : list cell :=
  map (fun c => match index_of c from with
                | Some i => nth i r CNaN
                | None => CNaN
                end) to.

(** [pd.concat(frames, ignore_index=True)]: the rows of all frames, one
    frame after the other, on the union of their columns; [ValueError] for
    an empty list. *)
Definition pd_concat (frames : list DataFrame) : Exception + DataFrame :=
  match frames with
  | [] => inl (ValueError "No objects to concatenate")
  | _ :: _ =>
      let cols := union_columns frames in
      inr (mkDataFrame cols
             (flat_map (fun df => map (reindex_row (columns df) cols) (rows df))
                       frames))
  end.

(* ------------------------------------------------------------------ *)
(** ** pandas: [value_counts], [head], [describe] *)

Section Counting.

Context {A : Type} (eqb : A -> A -> bool).

(** One more occurrence of [k]: its counter goes up, or a new counter is
    opened behind the ones already there. *)
Fixpoint tally (k : A) (acc : list (A * nat)) : list (A * nat) :=
  match acc with
  | [] => [(k, 1%nat)]
  | (k', n) :: acc' =>
      if eqb k' k then (k', S n) :: acc' else (k', n) :: tally k acc'
  end.

(** The distinct values of [l] in the order they are first seen, each with
    its number of occurrences. *)
Definition count_keys (l : list A) : list (A * nat) :=
  fold_left (fun acc k => tally k acc) l [].

(** Sorting by descending count. pandas promises a descending order and
    nothing about values of equal count; here they keep their order. *)
Fixpoint insert_desc (x : A * nat) (l : list (A * nat)) : list (A * nat) :=
  match l with
  | [] => [x]
  | y :: l' => if (snd x <? snd y)%nat then y :: insert_desc x l' else x :: l
  end.

Definition sort_desc (l : list (A * nat)) : list (A * nat) :=
  fold_right insert_desc [] l.

End Counting.

(** [series.value_counts()]: NaN is dropped, the other values are counted,
    the counts are sorted in descending order. *)
Definition value_counts (col : list cell) : list (cell * nat) :=
  sort_desc (count_keys cell_eqb (dropna col)).

(** [series.head(n)] *)
Definition head {A} (n : nat) (l : list A) : list A := firstn n l.

(** The eight numbers of [describe()] on a numeric series. [None] stands
    for NaN. [d_var] is the square of the entry "std": the sample variance
    (denominator n - 1), whose square root need not be rational. The
    numbers are exact rationals, where pandas has binary floating-point
    numbers: the two agree where the floating-point operations are exact,
    as on small integers, and need not agree elsewhere. *)
Record NumericStats : Type := mkNumericStats {
  d_count : nat;
  d_mean : option Q;
  d_var : option Q;
  d_min : option Q;
  d_q25 : option Q;
  d_q50 : option Q;
  d_q75 : option Q;
  d_max : option Q
}.

Definition Qsum (l : list Q) : Q := fold_left Qplus l 0%Q.

Definition Qmean (l : list Q) : Q :=
  Qred (Qsum l / inject_Z (Z.of_nat (List.length l))).

Definition Qvariance (l : list Q) : Q :=
  let m := Qmean l in
  Qred (Qsum (map (fun x => (x - m) * (x - m))%Q l)
        / inject_Z (Z.of_nat (List.length l - 1))).

Fixpoint Qinsert (x : Q) (l : list Q) : list Q :=
  match l with
  | [] => [x]
  | y :: l' => if Qle_bool x y then x :: l else y :: Qinsert x l'
  end.

Definition Qsort (l : list Q) : list Q := fold_right Qinsert [] l.

(** The quantile [p] of a sorted, non-empty list by linear interpolation:
    at position [(n - 1) * p], between the two neighbouring values. *)
Definition quantile (p : Q) (sorted : list Q) : Q :=
  let pos := (inject_Z (Z.of_nat (List.length sorted - 1)) * p)%Q in
  let lo := Qfloor pos in
  let frac := (pos - inject_Z lo)%Q in
  let a := nth (Z.to_nat lo) sorted 0%Q in
  let b := nth (S (Z.to_nat lo)) sorted a in
  Qred (a + (b - a) * frac).

Definition describe_numeric (xs : list Q) : NumericStats :=
  let n := List.length xs in
  let s := Qsort xs in
  let some_if (b : bool) (q : Q) := if b then Some q else None in
  mkNumericStats
    n
    (some_if (0 <? n)%nat (Qmean xs))
    (some_if (1 <? n)%nat (Qvariance xs))
    (some_if (0 <? n)%nat (Qred (nth 0 s 0%Q)))
    (some_if (0 <? n)%nat (quantile (1 # 4) s))
    (some_if (0 <? n)%nat (quantile (1 # 2) s))
    (some_if (0 <? n)%nat (quantile (3 # 4) s))
    (some_if (0 <? n)%nat (Qred (last s 0%Q))).

(** The four entries of [describe()] on a series of dtype object. *)
Record ObjectStats : Type := mkObjectStats {
  o_count : nat;
  o_unique : nat;
  o_top : option cell;
  o_freq : option nat
}.

Definition describe_object (col : list cell) : ObjectStats :=
  let vc := value_counts col in
  mkObjectStats (List.length (dropna col)) (List.length vc)
                (option_map fst (List.hd_error vc))
                (option_map snd (List.hd_error vc)).

Inductive Described : Type :=
| NumericDescribed (st : NumericStats)
| ObjectDescribed (st : ObjectStats).

(** The numbers of a list of values, NaN left out; [None] when one of the
    values is a string, which makes the series of dtype object. *)
Fixpoint numbers (l : list cell) : option (list Q) :=
  match l with
  | [] => Some []
  | CNum q :: l' => option_map (cons q) (numbers l')
  | CNaN :: l' => numbers l'
  | CStr _ :: _ => None
  end.

(** [pd.Series(values).describe()] *)
Definition describe (values : list cell) : Described :=
  match numbers values with
  | Some xs => NumericDescribed (describe_numeric xs)
  | None => ObjectDescribed (describe_object values)
  end.

(** [series.to_frame(name=column)]: what is written to a sheet, an index
    of labels with one column of values under the given name. *)
Inductive Frame : Type :=
| StatsFrame (column : string) (stats : Described)
| CountsFrame (column : string) (counts : list (cell * nat)).

(* ------------------------------------------------------------------ *)
(** ** The monad of effects *)

(** What a run can change outside its own variables: the lines printed so
    far, the text of the file [FAILED_FILES_LOG], and the sheets written
    to the output workbook through the open [pd.ExcelWriter], in the order
    of the [to_excel] calls. *)
Record World : Type := mkWorld {
  console : list string;
  failed_files_log : string;
  workbook : list (string * Frame)
}.

Definition Py (A : Type) : Type := World -> (Exception + A) * World.

Definition ret {A} (a : A) : Py A := fun w => (inr a, w).

Definition bind {A B} (m : Py A) (k : A -> Py B) : Py B :=
  fun w => match m w with
           | (inr a, w') => k a w'
           | (inl e, w') => (inl e, w')
           end.

(** A library call that returns or raises without touching the world. *)
Definition lift {A} (r : Exception + A) : Py A := fun w => (r, w).

(** [try: body except Exception as e: handler(e)] *)
Definition try_except {A} (body : Py A) (handler : Exception -> Py A) : Py A :=
  fun w => match body w with
           | (inr a, w') => (inr a, w')
           | (inl e, w') => handler e w'
           end.

(** [print(line)] *)
Definition print (line : string) : Py unit :=
  fun w => (inr tt, mkWorld (console w ++ [line]) (failed_files_log w) (workbook w)).

(** [with open(FAILED_FILES_LOG, 'a') as log: log.write(text)]. The log is
    taken to be writable: an [OSError] of [open] or [write], which the
    scripts do not catch, is not modelled. *)
Definition append_log (text : string) : Py unit :=
  fun w => (inr tt, mkWorld (console w) (failed_files_log w ++ text) (workbook w)).

(** [with pd.ExcelWriter(path) as writer:] opens a new workbook, without
    sheets. Leaving the block saves the workbook, also when an exception
    leaves it. Saving is not modelled: it depends on the engine, and it can
    raise, for instance on a workbook without a sheet. So [workbook] holds
    the sheets handed to the writer, and the outcome of an exporter is the
    outcome of the statements under the writer only. *)
Definition excel_writer : Py unit :=
  fun w => (inr tt, mkWorld (console w) (failed_files_log w) []).

(** [frame.to_excel(writer, sheet_name=name)] *)
Definition to_excel (frame : Frame) (name : string) : Py unit :=
  fun w => (inr tt, mkWorld (console w) (failed_files_log w)
                            (workbook w ++ [(name, frame)])).

Declare Scope py_scope.
Delimit Scope py_scope with py.
Notation "x <- m ;; k" := (bind m (fun x => k))
  (at level 61, m at next level, right associativity) : py_scope.
Notation "m ;;; k" := (bind m (fun _ => k))
  (at level 61, right associativity) : py_scope.
Local Open Scope py_scope.

(** [for x in l: body], where [s] stands for the objects the body mutates.
    An exception leaves the loop at once. *)
Fixpoint for_each {A S} (l : list A) (body : A -> S -> Py S) (s : S) : Py S :=
  match l with
  | [] => ret s
  | x :: l' => s' <- body x s ;; for_each l' body s'
  end.

(* ------------------------------------------------------------------ *)
(** ** The file system and the two readers *)

(** What the scripts ask of the file system: [os.listdir(path)], in the
    order the system returns the names; [os.path.isdir(path)]; and the text
    of a file, decoded and with its line ends normalised to newlines, or
    the exception that opening or decoding it raises. *)
Record FileSystem : Type := mkFileSystem {
  listdir : string -> Exception + list string;
  isdir : string -> bool;
  read_text : string -> Exception + string
}.

(** Truth value of a value that is a string or [None]. *)
Definition truthy (o : option string) : bool :=
  match o with
  | Some s => negb (String.eqb s "")
  | None => false
  end.

Definition nonempty {A} (l : list A) : bool :=
  match l with [] => false | _ :: _ => true end.

(** The readers and the column resolver have the same text in both
    scripts. [pd_read_csv] is pandas' parser of tab-separated text with a
    header row, [pd.read_csv(buffer, sep='\t')]: it returns a frame or
    raises. *)
Section Readers.

Variable fs : FileSystem.
Variable pd_read_csv : string -> Exception + DataFrame.

(** [pd.read_csv(file_path, sep='\t')]: pandas opens the file itself. *)
Definition pd_read_csv_path (file_path : string) : Exception + DataFrame :=
  match read_text fs file_path with
  | inr text => pd_read_csv text
  | inl e => inl e
  end.

Definition read_cnv_file (file_path : string) : Py (option DataFrame) :=
  try_except
    (cnv_df <- lift (pd_read_csv_path file_path) ;;
     ret (Some cnv_df))
    (fun e =>
       print ("❌ Failed to read CNV file " ++ file_path ++ ": "
              ++ str_of_exception e) ;;;
       ret None).

(** The lines [read_maf_file] keeps. *)
Definition not_comment (line : string) : bool := negb (startswith "#" line).

Definition read_maf_file (file_path : string) : Py (option DataFrame) :=
  try_except
    (f <- lift (read_text fs file_path) ;;
     let lines := filter not_comment (readlines f) in
     df <- lift (pd_read_csv (join NL lines)) ;;
     ret (Some df))
    (fun e =>
       print ("❌ Failed to read MAF file " ++ file_path ++ ": "
              ++ str_of_exception e) ;;;
       ret None).

End Readers.

Definition is_segment_mean_name (col : string) : bool :=
  str_in (lower col) ["segment_mean"; "segmentmean"].

Definition get_segment_mean_column (cnv_df : DataFrame) : option string :=
  find is_segment_mean_name (columns cnv_df).

(** [d[k].extend(v)] on a [defaultdict(list)]: a key not yet there is
    added behind the others with an empty list first. *)
Fixpoint dd_extend {V} (k : string) (v : list V) (d : list (string * list V))
  : list (string * list V) :=
  match d with
  | [] => [(k, v)]
  | (k', vs) :: d' =>
      if String.eqb k' k then (k', vs ++ v) :: d' else (k', vs) :: dd_extend k v d'
  end.

(** [d.get(k)] *)
Fixpoint dict_get {V} (k : string) (d : list (string * V)) : option V :=
  match d with
  | [] => None
  | (k', v) :: d' => if String.eqb k' k then Some v else dict_get k d'
  end.

(** [d[k] = v] on a dict: a key already there keeps its place. *)
Fixpoint dict_set {V} (k : string) (v : V) (d : list (string * V))
  : list (string * V) :=
  match d with
  | [] => [(k, v)]
  | (k', v') :: d' =>
      if String.eqb k' k then (k', v) :: d' else (k', v') :: dict_set k v d'
  end.

(* ------------------------------------------------------------------ *)
(** ** [excel_3CNV_analysis.py]: one summary per stage *)

Module Excel3CNV.

Definition BASE_FOLDER : string := "./grade_generalised".

Record StageData : Type := mkStageData {
  cnv_segment_means : list cell;
  snp_data : list DataFrame
}.

Section Script.

Variable fs : FileSystem.
Variable pd_read_csv : string -> Exception + DataFrame.
(** [datetime.now().strftime('%Y-%m-%d_%H-%M-%S')] at start-up. *)
Variable timestamp : string.

Definition OUTPUT_EXCEL : string :=
  "ESCC_Genomic_Summary_" ++ timestamp ++ ".xlsx".

(** The body of the inner loop of [process_stage], for one [file] of the
    sample directory [sample_path]. *)
Definition process_file (sample_path file : string) (stage_data : StageData)
  : Py StageData :=
  let file_path := os_path_join sample_path file in
  if contains "Copy_Number_Variation" file then
    cnv_df <- read_cnv_file fs pd_read_csv file_path ;;
    match cnv_df with
    | Some cnv_df =>
        let segment_col := get_segment_mean_column cnv_df in
        if truthy segment_col then
          values <- lift (getitem_key cnv_df segment_col) ;;
          ret (mkStageData (cnv_segment_means stage_data ++ values)
                           (snp_data stage_data))
        else ret stage_data
    | None => ret stage_data
    end
  else if contains "Simple_Nucleotide_Variation" file || endswith ".maf" file then
    snp_df <- read_maf_file fs pd_read_csv file_path ;;
    match snp_df with
    | Some snp_df =>
        ret (mkStageData (cnv_segment_means stage_data)
                         (snp_data stage_data ++ [snp_df]))
    | None => ret stage_data
    end
  else ret stage_data.

(** The body of the outer loop, for one entry of the stage directory. *)
Definition process_sample (stage_folder sample_folder : string)
  (stage_data : StageData) : Py StageData :=
  let sample_path := os_path_join stage_folder sample_folder in
  if negb (isdir fs sample_path) then ret stage_data
  else
    files <- lift (listdir fs sample_path) ;;
    for_each files (process_file sample_path) stage_data.

Definition process_stage (stage stage_folder : string) : Py StageData :=
  let stage_data := mkStageData [] [] in
  samples <- lift (listdir fs stage_folder) ;;
  for_each samples (process_sample stage_folder) stage_data.

(** Raising or returning, without effects. *)
Definition create_stage_summary (stage : string) (stage_data : StageData)
  : Exception + list (string * Frame) :=
  let summary := [] in
  let summary :=
    if nonempty (cnv_segment_means stage_data) then
      let cnv_stats := describe (cnv_segment_means stage_data) in
      dict_set "CNV_Segment_Stats" (StatsFrame "Value" cnv_stats) summary
    else summary in
  if nonempty (snp_data stage_data) then
    match pd_concat (snp_data stage_data) with
    | inl e => inl e
    | inr combined_snp_data =>
        match getitem combined_snp_data "Hugo_Symbol" with
        | inl e => inl e
        | inr genes =>
            let top_genes := head 10 (value_counts genes) in
            let summary :=
              dict_set "Top_Mutated_Genes"
                       (CountsFrame "Mutation_Count" top_genes) summary in
            match getitem combined_snp_data "Variant_Classification" with
            | inl e => inl e
            | inr classes =>
                let mutation_classification := value_counts classes in
                inr (dict_set "Mutation_Classification"
                              (CountsFrame "Count" mutation_classification)
                              summary)
            end
        end
    end
  else inr summary.

(** The title of the sheet for the table [sheet_name] of [stage]. *)
Definition sheet_title (stage sheet_name : string) : string :=
  let sheet_title := (stage ++ "_" ++ sheet_name)%string in
  if (31 <? String.length sheet_title)%nat
  then slice_to 28 sheet_title ++ "..."
  else sheet_title.

Definition save_stage (stage : string) (summaries : list (string * Frame))
  (u : unit) : Py unit :=
  for_each summaries
    (fun '(sheet_name, df) _ => to_excel df (sheet_title stage sheet_name)) u.

Definition save_summaries_to_excel
  (stage_summaries : list (string * list (string * Frame))) : Py unit :=
  excel_writer ;;;
  for_each stage_summaries (fun '(stage, summaries) => save_stage stage summaries) tt ;;;
  print ("✅ All stage summaries saved to '" ++ OUTPUT_EXCEL ++ "'").

(** The body of the loop of [main], for one entry of [BASE_FOLDER]. *)
Definition main_stage (stage : string)
  (stage_summaries : list (string * list (string * Frame)))
  : Py (list (string * list (string * Frame))) :=
  let stage_folder := os_path_join BASE_FOLDER stage in
  if negb (isdir fs stage_folder) then ret stage_summaries
  else
    print ("📊 Processing Stage: " ++ stage) ;;;
    stage_data <- process_stage stage stage_folder ;;
    stage_summary <- lift (create_stage_summary stage stage_data) ;;
    ret (dict_set stage stage_summary stage_summaries).

Definition main : Py unit :=
  print ("🔎 Starting analysis across all stages in: " ++ BASE_FOLDER) ;;;
  stages <- lift (listdir fs BASE_FOLDER) ;;
  stage_summaries <- for_each stages main_stage [] ;;
  save_summaries_to_excel stage_summaries.

End Script.

End Excel3CNV.

(* ------------------------------------------------------------------ *)
(** ** [overall_analysis_excel.py]: one summary over all stages *)

Module OverallAnalysis.

Definition BASE_FOLDER : string := "./grade_generalised".
Definition OUTPUT_EXCEL_FILE : string :=
  "ESCC_Overall_Genomic_Summary_2025-02-28.xlsx".
Definition FAILED_FILES_LOG : string := "failed_files.log".

Record StageData : Type := mkStageData {
  cnv_segment_means : list cell;
  snp_data : list DataFrame;
  cnv_segment_means_by_sample : list (string * list cell);
  snp_data_by_sample : list (string * list DataFrame)
}.

Definition log_failed_file (file_path reason : string) : Py unit :=
  append_log (file_path ++ TAB ++ reason ++ NL).

(** [if os.path.exists(FAILED_FILES_LOG): os.remove(FAILED_FILES_LOG)];
    a log that is not there reads as the empty text. *)
Definition remove_failed_files_log : Py unit :=
  fun w => (inr tt, mkWorld (console w) "" (workbook w)).

Section Script.

Variable fs : FileSystem.
Variable pd_read_csv : string -> Exception + DataFrame.

(** The body of the inner loop of [process_stage], for one [file] of the
    sample directory [sample_path] of the sample [sample_folder]. *)
Definition process_file (sample_folder sample_path file : string)
  (stage_data : StageData) : Py StageData :=
  let file_path := os_path_join sample_path file in
  if contains "Copy_Number_Variation" file then
    cnv_df <- read_cnv_file fs pd_read_csv file_path ;;
    match cnv_df with
    | Some cnv_df =>
        let segment_col := get_segment_mean_column cnv_df in
        if truthy segment_col then
          segment_means <- lift (getitem_key cnv_df segment_col) ;;
          ret (mkStageData
                 (cnv_segment_means stage_data ++ segment_means)
                 (snp_data stage_data)
                 (dd_extend sample_folder segment_means
                            (cnv_segment_means_by_sample stage_data))
                 (snp_data_by_sample stage_data))
        else
          print ("⚠️ Warning: No Segment Mean column found in "
                 ++ file_path ++ ".") ;;;
          log_failed_file file_path "Missing Segment Mean column" ;;;
          ret stage_data
    | None => ret stage_data
    end
  else if contains "Simple_Nucleotide_Variation" file || endswith ".maf" file then
    snp_df <- read_maf_file fs pd_read_csv file_path ;;
    match snp_df with
    | Some snp_df =>
        ret (mkStageData
               (cnv_segment_means stage_data)
               (snp_data stage_data ++ [snp_df])
               (cnv_segment_means_by_sample stage_data)
               (dd_extend sample_folder [snp_df] (snp_data_by_sample stage_data)))
    | None => ret stage_data
    end
  else ret stage_data.

(** The body of the outer loop, for one entry of the stage directory. *)
Definition process_sample (stage_folder sample_folder : string)
  (stage_data : StageData) : Py StageData :=
  let sample_path := os_path_join stage_folder sample_folder in
  if negb (isdir fs sample_path) then ret stage_data
  else
    print ("📂 Processing sample: " ++ sample_folder) ;;;
    files <- lift (listdir fs sample_path) ;;
    for_each files (process_file sample_folder sample_path) stage_data.

Definition process_stage (stage stage_folder : string) : Py StageData :=
  let stage_data := mkStageData [] [] [] [] in
  samples <- lift (listdir fs stage_folder) ;;
  for_each samples (process_sample stage_folder) stage_data.

Definition save_summary_to_excel (cnv_segment_means : list cell)
  (snp_data_by_sample : list (string * list DataFrame)) : Py unit :=
  excel_writer ;;;
  (if nonempty cnv_segment_means then
     let cnv_stats := describe cnv_segment_means in
     to_excel (StatsFrame "CNV Segment Mean Statistics" cnv_stats)
              "CNV_Segment_Stats"
   else ret tt) ;;;
  (if nonempty snp_data_by_sample then
     combined_snp_df <- lift (pd_concat (flat_map snd snp_data_by_sample)) ;;
     genes <- lift (getitem combined_snp_df "Hugo_Symbol") ;;
     let top_genes := head 10 (value_counts genes) in
     to_excel (CountsFrame "Mutation_Count" top_genes) "Top_Mutated_Genes" ;;;
     classes <- lift (getitem combined_snp_df "Variant_Classification") ;;
     let mutation_class_counts := value_counts classes in
     to_excel (CountsFrame "Count" mutation_class_counts)
              "Mutation_Classification"
   else ret tt) ;;;
  print ("✅ Summary saved to '" ++ OUTPUT_EXCEL_FILE ++ "'").

(** The body of the loop of [main], for one entry of [BASE_FOLDER]; the
    state is [(all_cnv_segment_means, all_snp_data_by_sample)]. *)
Definition main_stage (stage : string)
  (acc : list cell * list (string * list DataFrame))
  : Py (list cell * list (string * list DataFrame)) :=
  let stage_folder := os_path_join BASE_FOLDER stage in
  if negb (isdir fs stage_folder) then ret acc
  else
    print (NL ++ "🧬 Processing Stage: " ++ stage) ;;;
    stage_data <- process_stage stage stage_folder ;;
    ret (fst acc ++ cnv_segment_means stage_data,
         fold_left (fun all '(sample, snp_dfs) => dd_extend sample snp_dfs all)
                   (snp_data_by_sample stage_data) (snd acc)).

Definition main : Py unit :=
  print ("🔎 Starting analysis across all stages in: " ++ BASE_FOLDER) ;;;
  remove_failed_files_log ;;;
  stages <- lift (listdir fs BASE_FOLDER) ;;
  all <- for_each stages main_stage ([], []) ;;
  save_summary_to_excel (fst all) (snd all) ;;;
  print (NL ++ "✅ Analysis complete. Check '" ++ OUTPUT_EXCEL_FILE
         ++ "' for results.") ;;;
  print ("⚠️ Check '" ++ FAILED_FILES_LOG ++ "' for any problematic files.").

End Script.

End OverallAnalysis.

(* ------------------------------------------------------------------ *)
(** ** Fixtures to run the scripts on

    The results below hold for every file system and every parser. To run
    the scripts on concrete files, this module has a plain reader of
    tab-separated text (blank lines skipped, first line the header, empty
    fields NaN, a column numeric when all its fields are decimal numbers)
    and file systems given by tables of directories and files. *)

Module Fixture.

Fixpoint split_on (sep : ascii) (s : string) : list string :=
  match s with
  | EmptyString => [EmptyString]
  | String c s' =>
      if Ascii.eqb c sep then EmptyString :: split_on sep s'
      else match split_on sep s' with
           | [] => [String c EmptyString]
           | f :: fields => String c f :: fields
           end
  end.

Definition digit_of (c : ascii) : option Z :=
  let n := N_of_ascii c in
  if ((48 <=? n) && (n <=? 57))%N then Some (Z.of_N (n - 48)) else None.

Fixpoint digits (s : string) (acc : Z) (dot : bool) (den : positive)
  (any : bool) : option Q :=
  match s with
  | EmptyString => if any then Some (Qred (acc # den)) else None
  | String c s' =>
      if Ascii.eqb c "."%char then
        if dot then None else digits s' acc true den any
      else match digit_of c with
           | Some d =>
               digits s' (10 * acc + d)%Z dot
                      (if dot then (10 * den)%positive else den) true
           | None => None
           end
  end.

Definition parse_number (s : string) : option Q :=
  match s with
  | String "-"%char s' => option_map Qopp (digits s' 0%Z false 1%positive false)
  | _ => digits s 0%Z false 1%positive false
  end.

Definition is_some {A} (o : option A) : bool :=
  match o with Some _ => true | None => false end.

Definition to_cell (numeric : bool) (field : string) : cell :=
  if String.eqb field "" then CNaN
  else if numeric then
    match parse_number field with Some q => CNum q | None => CStr field end
  else CStr field.

Definition not_blank (l : string) : bool := negb (String.eqb l "").

Definition table_of_lines (lines : list string) : Exception + DataFrame :=
  match lines with
  | [] => inl (EmptyDataError "No columns to parse from file")
  | header :: body =>
      let cols := split_on tab header in
      let raw := map (split_on tab) body in
      if existsb (fun r => (List.length cols <? List.length r)%nat) raw
      then inl (ParserError "Error tokenizing data")
      else
        let numeric i :=
          forallb (fun r => let f := nth i r "" in
                            String.eqb f "" || is_some (parse_number f)) raw in
        inr (mkDataFrame cols
               (map (fun r => map (fun i => to_cell (numeric i) (nth i r ""))
                                  (seq 0 (List.length cols))) raw))
  end.

Definition read_csv (text : string) : Exception + DataFrame :=
  table_of_lines (filter not_blank (split_on newline text)).

(** The file system with the given directories (path and names listed, in
    listing order) and files (path and text). *)
Definition file_system (dirs : list (string * list string))
  (files : list (string * string)) : FileSystem :=
  mkFileSystem
    (fun p => match dict_get p dirs with
              | Some names => inr names
              | None => inl (OSError ("No such directory: " ++ p))
              end)
    (fun p => is_some (dict_get p dirs))
    (fun p => match dict_get p files with
              | Some text => inr text
              | None => inl (OSError ("No such file: " ++ p))
              end).

(** Nothing printed, no log, no sheet. *)
Definition fresh : World := mkWorld [] "" [].

(** Lines of tab-separated fields as the text of a file. *)
Definition tsv (lines : list (list string)) : string :=
  String.concat "" (map (fun fields => String.concat TAB fields ++ NL)%string lines).

(** A stage [I] with two samples: [S1] has a CNV file with a segment-mean
    column of three values, a CNV file without such a column, and a MAF
    file with two comment lines; [S2] has a CNV file with two values and a
    file that is not there any more when it is read. *)
Definition cnv_a : string :=
  tsv [["Chromosome"; "Segment_Mean"]; ["1"; "0.1"]; ["1"; "-0.2"]; ["2"; "0.3"]].
Definition cnv_b : string :=
  tsv [["Chromosome"; "Num_Probes"]; ["1"; "12"]].
Definition cnv_c : string :=
  tsv [["SEGMENTMEAN"; "Chromosome"]; ["1.5"; "X"]; ["2"; "Y"]].
Definition maf_a : string :=
  ("#version 2.4" ++ NL
   ++ tsv [["Hugo_Symbol"; "Variant_Classification"]; ["A"; "Missense"]]
   ++ "#a comment between the rows" ++ NL
   ++ tsv [["B"; "Silent"]])%string.

Definition stage_I_files : list (string * string) :=
  [ ("stage/S1/a.Copy_Number_Variation.tsv", cnv_a);
    ("stage/S1/b.Copy_Number_Variation.tsv", cnv_b);
    ("stage/S1/a.Simple_Nucleotide_Variation.maf", maf_a);
    ("stage/S2/c.Copy_Number_Variation.tsv", cnv_c) ].

Definition stage_I : FileSystem :=
  file_system
    [ ("stage", ["S1"; "notes.txt"; "S2"]);
      ("stage/S1", ["a.Copy_Number_Variation.tsv";
                    "b.Copy_Number_Variation.tsv";
                    "a.Simple_Nucleotide_Variation.maf"]);
      ("stage/S2", ["c.Copy_Number_Variation.tsv";
                    "gone.Copy_Number_Variation.tsv"]) ]
    stage_I_files.

(** The same files, listed in another order. *)
Definition stage_I_reordered : FileSystem :=
  file_system
    [ ("stage", ["S2"; "S1"; "notes.txt"]);
      ("stage/S1", ["a.Simple_Nucleotide_Variation.maf";
                    "b.Copy_Number_Variation.tsv";
                    "a.Copy_Number_Variation.tsv"]);
      ("stage/S2", ["gone.Copy_Number_Variation.tsv";
                    "c.Copy_Number_Variation.tsv"]) ]
    stage_I_files.

(** A sample directory whose only file has a name that fits both the CNV
    rule and the two mutation rules. *)
Definition both_names : string :=
  "TCGA.Copy_Number_Variation.Simple_Nucleotide_Variation.maf".

Definition stage_both : FileSystem :=
  file_system
    [ ("stage", ["S1"]); ("stage/S1", [both_names]) ]
    [ (os_path_join "stage/S1" both_names, maf_a) ].

(** Mutation rows of two samples: TP53 five times, KRAS and EGFR three
    times each, KRAS seen first. *)
Definition gene_rows (genes : list string) : DataFrame :=
  mkDataFrame ["Hugo_Symbol"; "Variant_Classification"]
              (map (fun g => [CStr g; CStr "Missense_Mutation"]) genes).

Definition tp53_tables : list DataFrame :=
  [ gene_rows ["KRAS"; "TP53"; "EGFR"; "TP53"; "KRAS"];
    gene_rows ["EGFR"; "TP53"; "KRAS"; "TP53"; "EGFR"; "TP53"] ].

End Fixture.

(* ------------------------------------------------------------------ *)
(** ** Vocabulary of the statements *)

(** A column name that the resolver accepts. *)
Definition segment_mean_name (col : string) : Prop :=
  lower col = "segment_mean" \/ lower col = "segmentmean".

(** The sheets the per-stage exporter writes for one stage. *)
Definition titled (stage : string) (summaries : list (string * Frame))
  : list (string * Frame) :=
  map (fun '(sheet_name, df) => (Excel3CNV.sheet_title stage sheet_name, df))
      summaries.

(** What the [try] block of each reader computes: a frame, or the
    exception raised on the way. *)
Definition cnv_attempt (fs : FileSystem)
  (pd_read_csv : string -> Exception + DataFrame) (file_path : string)
  : Exception + DataFrame :=
  pd_read_csv_path fs pd_read_csv file_path.

Definition maf_attempt (fs : FileSystem)
  (pd_read_csv : string -> Exception + DataFrame) (file_path : string)
  : Exception + DataFrame :=
  match read_text fs file_path with
  | inr f => pd_read_csv (join NL (filter not_comment (readlines f)))
  | inl e => inl e
  end.

(** The text of a file without its lines that begin with '#'. *)
Definition remove_comment_lines (text : string) : string :=
  String.concat "" (filter not_comment (readlines text)).

(** A file system that differs from [fs] in the text of one file. *)
Definition with_text (fs : FileSystem) (file_path text : string) : FileSystem :=
  mkFileSystem (listdir fs) (isdir fs)
    (fun p => if String.eqb p file_path then inr text else read_text fs p).

Fixpoint no_newline (s : string) : Prop :=
  match s with
  | EmptyString => True
  | String c s' => c <> newline /\ no_newline s'
  end.

(** The lines of a text: each ends with its newline and has no other,
    except that the last one may have none at all. *)
Inductive lines_wf : list string -> Prop :=
| lines_wf_nil : lines_wf []
| lines_wf_last c l : no_newline (String c l) -> lines_wf [String c l]
| lines_wf_cons l ls :
    no_newline l -> lines_wf ls -> lines_wf ((l ++ NL)%string :: ls).


(** The values a CNV file gives to the accumulators: those of its
    segment-mean column, when the file is read and has one. *)
Definition resolved_column (fs : FileSystem)
  (pd_read_csv : string -> Exception + DataFrame) (file_path : string)
  : option (list cell) :=
  match cnv_attempt fs pd_read_csv file_path with
  | inr cnv_df =>
      match get_segment_mean_column cnv_df with
      | Some col =>
          match getitem cnv_df col with
          | inr values => Some values
          | inl _ => None
          end
      | None => None
      end
  | inl _ => None
  end.

(** The names [os.listdir] returns, none when it raises. *)
Definition files_in (fs : FileSystem) (dir : string) : list string :=
  match listdir fs dir with
  | inr names => names
  | inl _ => []
  end.

(** The resolved segment-mean columns of the successfully read CNV files
    of a stage directory, one list per file, in the order of the walk. *)
Definition cnv_columns_of_file (fs : FileSystem)
  (pd_read_csv : string -> Exception + DataFrame) (sample_path file : string)
  : list (list cell) :=
  if contains "Copy_Number_Variation" file then
    match resolved_column fs pd_read_csv (os_path_join sample_path file) with
    | Some values => [values]
    | None => []
    end
  else [].

Definition cnv_columns_of_sample (fs : FileSystem)
  (pd_read_csv : string -> Exception + DataFrame)
  (stage_folder sample_folder : string) : list (list cell) :=
  let sample_path := os_path_join stage_folder sample_folder in
  if isdir fs sample_path
  then flat_map (cnv_columns_of_file fs pd_read_csv sample_path)
                (files_in fs sample_path)
  else [].

Definition cnv_columns (fs : FileSystem)
  (pd_read_csv : string -> Exception + DataFrame) (stage_folder : string)
  : list (list cell) :=
  flat_map (cnv_columns_of_sample fs pd_read_csv stage_folder)
           (files_in fs stage_folder).

Definition is_inr {A B} (r : A + B) : bool :=
  match r with inr _ => true | inl _ => false end.

(** An entry of the stage directory that is no directory, or one that can
    be listed. *)
Definition sample_listable (fs : FileSystem) (stage_folder sample_folder : string)
  : bool :=
  let sample_path := os_path_join stage_folder sample_folder in
  negb (isdir fs sample_path) || is_inr (listdir fs sample_path).

(** The stage directory and its sample directories can be listed. *)
Definition listable (fs : FileSystem) (stage_folder : string) : bool :=
  match listdir fs stage_folder with
  | inr samples => forallb (sample_listable fs stage_folder) samples
  | inl _ => false
  end.

(** [fs'] has the files and directories of [fs]; its listings may give
    the names in another order. *)
Definition reordered (fs fs' : FileSystem) : Prop :=
  (forall p, isdir fs' p = isdir fs p)
  /\ (forall p, read_text fs' p = read_text fs p)
  /\ (forall p, match listdir fs p, listdir fs' p with
                | inr names, inr names' => Permutation names names'
                | inl _, inl _ => True
                | _, _ => False
                end).

(** The line the overall script adds to the failure log. *)
Definition failure_record (file_path reason : string) : string :=
  (file_path ++ TAB ++ reason ++ NL)%string.


(** The number of values of [l] equal to [k]. *)
Definition occurrences {A} (eqb : A -> A -> bool) (k : A) (l : list A) : nat :=
  List.length (filter (eqb k) l).

(** Keys that are pairwise different. *)
Fixpoint distinct {A} (eqb : A -> A -> bool) (ks : list A) : Prop :=
  match ks with
  | [] => True
  | k :: ks' => (forall k', In k' ks' -> eqb k k' = false) /\ distinct eqb ks'
  end.

(** The counter kept for [k], 0 when there is none. *)
Fixpoint counter {A} (eqb : A -> A -> bool) (k : A) (acc : list (A * nat)) : nat :=
  match acc with
  | [] => 0%nat
  | (k', n) :: acc' => if eqb k' k then n else counter eqb k acc'
  end.

(** Entries in descending order of their counts. *)
Definition descending {A} (l : list (A * nat)) : Prop :=
  forall i j e1 e2,
    (i < j)%nat -> nth_error l i = Some e1 -> nth_error l j = Some e2 ->
    (snd e2 <= snd e1)%nat.


(** What holds of the counters after the values of [l]: different keys,
    each a value of [l], and a key for every value of [l]. *)
Definition keys_of {A} (eqb : A -> A -> bool) (l : list A) (acc : list (A * nat))
  : Prop :=
  distinct eqb (map fst acc)
  /\ (forall k, In k (map fst acc) -> In k l)
  /\ (forall x, In x l -> exists k, In k (map fst acc) /\ eqb k x = true).

(** The order of the sorted counts. *)
Definition ge_count {A} (a b : A * nat) : Prop := (snd b <= snd a)%nat.

(** Some frame of the list has a column of that name. *)
Definition has_column (name : string) (frames : list DataFrame) : bool :=
  existsb (fun df => str_in name (columns df)) frames.

(** The values of the column [name] over the rows of all frames, one frame
    after the other; NaN for the rows of a frame without that column. *)
Definition column_over (name : string) (frames : list DataFrame) : list cell :=
  flat_map (fun df => match getitem df name with
                      | inr values => values
                      | inl _ => map (fun _ => CNaN) (rows df)
                      end) frames.


(** The sheets the overall script is to write: the statistics when there
    are segment means, the two mutation sheets as far as the columns they
    are computed from exist. *)
Definition cnv_sheet (cnv_segment_means : list cell) : list (string * Frame) :=
  if nonempty cnv_segment_means
  then [("CNV_Segment_Stats",
         StatsFrame "CNV Segment Mean Statistics" (describe cnv_segment_means))]
  else [].

Definition top_genes_of (tables : list DataFrame) : list (cell * nat) :=
  head 10 (value_counts (column_over "Hugo_Symbol" tables)).

Definition mutation_sheets (snp_data_by_sample : list (string * list DataFrame))
  : list (string * Frame) :=
  let tables := flat_map snd snp_data_by_sample in
  if nonempty snp_data_by_sample && has_column "Hugo_Symbol" tables then
    ("Top_Mutated_Genes", CountsFrame "Mutation_Count" (top_genes_of tables))
    :: (if has_column "Variant_Classification" tables
        then [("Mutation_Classification",
               CountsFrame "Count"
                 (value_counts (column_over "Variant_Classification" tables)))]
        else [])
  else [].


(* ------------------------------------------------------------------ *)
(** ** Vocabulary of the further properties *)

(** The CNV entry of a stage summary. *)
Definition stats_entry (cnv_segment_means : list cell) : list (string * Frame) :=
  if nonempty cnv_segment_means
  then [("CNV_Segment_Stats", StatsFrame "Value" (describe cnv_segment_means))]
  else [].

(** The two mutation entries of a stage summary. *)
Definition mutation_entries (tables : list DataFrame) : list (string * Frame) :=
  [("Top_Mutated_Genes", CountsFrame "Mutation_Count" (top_genes_of tables));
   ("Mutation_Classification",
    CountsFrame "Count"
      (value_counts (column_over "Variant_Classification" tables)))].


(** A computation whose outcome, printed lines and logged text are the
    same in every world: the lines are added behind the console, the text
    behind the failure log. *)
Definition appends {A} (m : Py A) (r : Exception + A) (dc : list string)
  (dl : string) : Prop :=
  forall w,
    fst (m w) = r
    /\ console (snd (m w)) = console w ++ dc
    /\ failed_files_log (snd (m w)) = (failed_files_log w ++ dl)%string.

Definition steady {A} (m : Py A) : Prop :=
  exists r dc dl, appends m r dc dl.

(** A computation that leaves the workbook, or the failure log, alone. *)
Definition keeps_workbook {A} (m : Py A) : Prop :=
  forall w, workbook (snd (m w)) = workbook w.

Definition keeps_log {A} (m : Py A) : Prop :=
  forall w, failed_files_log (snd (m w)) = failed_files_log w.


(** More file systems to run the scripts on. *)
Module Cases.

(** The stage of [Fixture.stage_I], where the sample directory [S2] is a
    directory that cannot be listed. *)
Definition stage_locked : FileSystem :=
  mkFileSystem
    (fun p => if String.eqb p "stage/S2"
              then inl (OSError "Permission denied: stage/S2")
              else listdir Fixture.stage_I p)
    (isdir Fixture.stage_I)
    (read_text Fixture.stage_I).

(** A base folder with the stage [I] and a stray file; the stage has the
    sample [S1] with a CNV file of three segment means and a mutation file
    of two rows. *)
Definition base_files : list (string * string) :=
  [ ("./grade_generalised/I/S1/a.Copy_Number_Variation.tsv", Fixture.cnv_a);
    ("./grade_generalised/I/S1/a.Simple_Nucleotide_Variation.maf", Fixture.maf_a) ].

Definition base : FileSystem :=
  Fixture.file_system
    [ ("./grade_generalised", ["I"; "README.txt"]);
      ("./grade_generalised/I", ["S1"]);
      ("./grade_generalised/I/S1", ["a.Copy_Number_Variation.tsv";
                                    "a.Simple_Nucleotide_Variation.maf"]) ]
    base_files.



(** A world in which something was printed, logged and written before. *)
Definition used : World :=
  mkWorld ["an earlier line"] (failure_record "old/path" "an old reason")
          [("Old_Sheet", CountsFrame "Count" [])].

End Cases.


(** The mutation tables a file gives: the frame of a file that is named as
    a mutation file, is not named as a CNV file, and is read. *)
Definition snp_tables_of_file (fs : FileSystem)
  (pd_read_csv : string -> Exception + DataFrame) (sample_path file : string)
  : list DataFrame :=
  if contains "Copy_Number_Variation" file then []
  else if contains "Simple_Nucleotide_Variation" file || endswith ".maf" file then
    match maf_attempt fs pd_read_csv (os_path_join sample_path file) with
    | inr snp_df => [snp_df]
    | inl _ => []
    end
  else [].

Definition snp_tables_of_sample (fs : FileSystem)
  (pd_read_csv : string -> Exception + DataFrame)
  (stage_folder sample_folder : string) : list DataFrame :=
  let sample_path := os_path_join stage_folder sample_folder in
  if isdir fs sample_path
  then flat_map (snp_tables_of_file fs pd_read_csv sample_path)
                (files_in fs sample_path)
  else [].

Definition snp_tables (fs : FileSystem)
  (pd_read_csv : string -> Exception + DataFrame) (stage_folder : string)
  : list DataFrame :=
  flat_map (snp_tables_of_sample fs pd_read_csv stage_folder)
           (files_in fs stage_folder).

(** The paths of the CNV files that are read and have no segment-mean
    column, in the order of the walk. *)
Definition unresolved_of_file (fs : FileSystem)
  (pd_read_csv : string -> Exception + DataFrame) (sample_path file : string)
  : list string :=
  if contains "Copy_Number_Variation" file then
    match cnv_attempt fs pd_read_csv (os_path_join sample_path file) with
    | inr cnv_df =>
        match get_segment_mean_column cnv_df with
        | Some _ => []
        | None => [os_path_join sample_path file]
        end
    | inl _ => []
    end
  else [].

Definition unresolved_of_sample (fs : FileSystem)
  (pd_read_csv : string -> Exception + DataFrame)
  (stage_folder sample_folder : string) : list string :=
  let sample_path := os_path_join stage_folder sample_folder in
  if isdir fs sample_path
  then flat_map (unresolved_of_file fs pd_read_csv sample_path)
                (files_in fs sample_path)
  else [].

Definition unresolved_files (fs : FileSystem)
  (pd_read_csv : string -> Exception + DataFrame) (stage_folder : string)
  : list string :=
  flat_map (unresolved_of_sample fs pd_read_csv stage_folder)
           (files_in fs stage_folder).

(** The records of the failure log for these paths. *)
Definition missing_column_records (paths : list string) : list string :=
  map (fun file_path => failure_record file_path "Missing Segment Mean column")
      paths.



(** The text of the failure log for these paths. *)
Definition logged_text (paths : list string) : string :=
  String.concat "" (missing_column_records paths).

(** Calls of [log_failed_file], one after the other. *)
Definition log_all (records : list (string * string)) : Py unit :=
  for_each records
    (fun '(file_path, reason) _ => OverallAnalysis.log_failed_file file_path reason)
    tt.


(** A list with [sep] put between its elements. *)
Fixpoint intersperse {A} (sep : A) (l : list A) : list A :=
  match l with
  | [] => []
  | [x] => [x]
  | x :: rest => x :: sep :: intersperse sep rest
  end.

(** A line that is not just a newline. *)
Definition not_blank_line (line : string) : bool := negb (String.eqb line NL).



(** The carriage return. A file read in text mode gives it back as a line
    end, as it does the line feed. *)
Definition carriage_return : ascii := "013"%char.

(** A string without line feed and without carriage return: written to a
    file in text mode and read back it is still one line, and the same
    text. *)
Fixpoint no_line_break (s : string) : Prop :=
  match s with
  | EmptyString => True
  | String c s' => c <> newline /\ c <> carriage_return /\ no_line_break s'
  end.

(* ================================================================== *)
(** * Properties *)

(** ** Strings *)

Lemma length_append (s t : string) :
  String.length (s ++ t) = (String.length s + String.length t)%nat.
Proof.
  induction s as [|c s IH]; simpl; [reflexivity | now rewrite IH].
Qed.

Lemma length_slice_to (n : nat) (s : string) :
  (n <= String.length s)%nat -> String.length (slice_to n s) = n.
Proof.
  unfold slice_to. revert s.
  induction n as [|n IH]; intros s Hn.
  - destruct s; reflexivity.
  - destruct s as [|c s]; simpl in *; [lia|].
    rewrite IH; [reflexivity | lia].
Qed.

Lemma prefix_iff (p s : string) :
  String.prefix p s = true <-> exists rest, s = (p ++ rest)%string.
Proof.
  revert s. induction p as [|c p IH]; intros s; simpl.
  - split; [intros _; now exists s | intros _; now destruct s].
  - destruct s as [|d s]; simpl.
    + split; [discriminate | intros [rest H]; discriminate].
    + destruct (Ascii.ascii_dec c d) as [->|Hne].
      * rewrite IH. split; intros [rest H]; exists rest; congruence.
      * split; [discriminate | intros [rest H]; congruence].
Qed.

(** [p in s] holds exactly when [s] is some text, then [p], then some
    text. *)
Lemma contains_iff (p s : string) :
  contains p s = true <-> exists before after, s = (before ++ p ++ after)%string.
Proof.
  induction s as [|c s IH];
    [change (contains p "") with (String.prefix p "" || false)
    |change (contains p (String c s))
       with (String.prefix p (String c s) || contains p s)];
    rewrite orb_true_iff, prefix_iff.
  - split.
    + intros [[rest H] | H]; [|discriminate]. now exists EmptyString, rest.
    + intros ([|d b] & a & H); [left; now exists a | discriminate].
  - rewrite IH. split.
    + intros [[rest H] | (b & a & H)].
      * now exists EmptyString, rest.
      * exists (String c b), a. simpl. now rewrite H.
    + intros ([|d b] & a & H).
      * left. now exists a.
      * right. exists b, a. simpl in H. congruence.
Qed.

Lemma str_in_iff (s : string) (l : list string) :
  str_in s l = true <-> In s l.
Proof.
  unfold str_in. rewrite existsb_exists. split.
  - intros (x & Hx & Heq). apply String.eqb_eq in Heq. now subst.
  - intros H. exists s. split; [assumption | apply String.eqb_refl].
Qed.

Lemma is_segment_mean_name_iff (col : string) :
  is_segment_mean_name col = true <->
  lower col = "segment_mean" \/ lower col = "segmentmean".
Proof.
  unfold is_segment_mean_name. rewrite str_in_iff. simpl.
  intuition congruence.
Qed.

Lemma segment_mean_name_not_empty (col : string) :
  is_segment_mean_name col = true -> col <> "".
Proof.
  intros H ->. vm_compute in H. discriminate.
Qed.

(** ** The column resolver *)

Lemma find_first {A} (p : A -> bool) (l : list A) (x : A) :
  find p l = Some x <->
  exists before after,
    l = before ++ x :: after /\ p x = true /\
    Forall (fun y => p y = false) before.
Proof.
  induction l as [|a l IH]; simpl.
  - split; [discriminate|]. intros (b & t & H & _). now destruct b.
  - destruct (p a) eqn:Ha.
    + split.
      * intros [= ->]. exists [], l. repeat split; auto.
      * intros ([|b bs] & t & H & Hx & Hb).
        -- now injection H as -> _.
        -- injection H as -> _. inversion Hb; subst. congruence.
    + rewrite IH. split.
      * intros (b & t & -> & Hx & Hb). exists (a :: b), t.
        repeat split; auto.
      * intros ([|b bs] & t & H & Hx & Hb).
        -- injection H as -> _. congruence.
        -- injection H as -> ->. inversion Hb; subst.
           exists bs, t. repeat split; auto.
Qed.

Lemma find_none_iff {A} (p : A -> bool) (l : list A) :
  find p l = None <-> forall y, In y l -> p y = false.
Proof.
  split.
  - intros H y Hy. now apply (find_none p l H).
  - induction l as [|a l IH]; simpl; intros H; [reflexivity|].
    rewrite (H a (or_introl eq_refl)). apply IH. intros y Hy. apply H. now right.
Qed.

(** C2. [get_segment_mean_column] returns the first column, in the order
    of the table's columns, whose lower-cased name is "segment_mean" or
    "segmentmean": it returns [col] exactly when [col] has such a name and
    no column before it has; and it returns [None] exactly when no column
    has such a name. *)
Theorem get_segment_mean_column_first_match (cnv_df : DataFrame) :
  (forall col,
      get_segment_mean_column cnv_df = Some col <->
      exists before after,
        columns cnv_df = before ++ col :: after /\
        segment_mean_name col /\
        forall c, In c before -> ~ segment_mean_name c)
  /\ (get_segment_mean_column cnv_df = None <->
      forall c, In c (columns cnv_df) -> ~ segment_mean_name c).
Proof.
  unfold get_segment_mean_column, segment_mean_name. split.
  - intros col. rewrite find_first. split.
    + intros (b & t & Hl & Hx & Hb). exists b, t. repeat split; auto.
      * now apply is_segment_mean_name_iff.
      * intros c Hc Hm. rewrite Forall_forall in Hb.
        apply is_segment_mean_name_iff in Hm. rewrite (Hb c Hc) in Hm.
        discriminate.
    + intros (b & t & Hl & Hx & Hb). exists b, t. repeat split; auto.
      * now apply is_segment_mean_name_iff.
      * apply Forall_forall. intros c Hc.
        destruct (is_segment_mean_name c) eqn:E; [|reflexivity].
        apply is_segment_mean_name_iff in E. now destruct (Hb c Hc).
  - rewrite find_none_iff. split; intros H c Hc.
    + intros Hm. apply is_segment_mean_name_iff in Hm.
      rewrite (H c Hc) in Hm. discriminate.
    + destruct (is_segment_mean_name c) eqn:E; [|reflexivity].
      apply is_segment_mean_name_iff in E. now destruct (H c Hc).
Qed.

(** The names of the specification's test tables are found, whatever
    their case, and a table without such a column yields [None]. *)
Example get_segment_mean_column_cases :
  get_segment_mean_column (mkDataFrame ["Chromosome"; "Segment_Mean"] []) = Some "Segment_Mean"
  /\ get_segment_mean_column (mkDataFrame ["SegmentMean"; "segment_mean"] []) = Some "SegmentMean"
  /\ get_segment_mean_column (mkDataFrame ["Start"; "End"; "SEGMENTMEAN"] []) = Some "SEGMENTMEAN"
  /\ get_segment_mean_column (mkDataFrame ["Start"; "Segment Mean"; "Mean"] []) = None.
Proof. repeat split; reflexivity. Qed.

(** ** The exporter of the per-stage script *)

Lemma bind_ret_l {A B} (a : A) (k : A -> Py B) (w : World) :
  bind (ret a) k w = k a w.
Proof. reflexivity. Qed.

Lemma for_each_app {A S} (l1 l2 : list A) (body : A -> S -> Py S) (s : S) (w : World) :
  for_each (l1 ++ l2) body s w =
  bind (for_each l1 body s) (for_each l2 body) w.
Proof.
  revert s w. induction l1 as [|x l1 IH]; intros s w; simpl.
  - reflexivity.
  - unfold bind in *.
    destruct (body x s w) as [[e|s'] w']; [reflexivity|].
    apply IH.
Qed.

Lemma save_stage_writes (stage : string) (summaries : list (string * Frame))
  (w : World) :
  Excel3CNV.save_stage stage summaries tt w =
  (inr tt, mkWorld (console w) (failed_files_log w)
                   (workbook w ++ titled stage summaries)).
Proof.
  unfold Excel3CNV.save_stage. revert w.
  induction summaries as [|[n df] l IH]; intros w; simpl.
  - rewrite app_nil_r. now destruct w.
  - unfold bind, to_excel. simpl. rewrite IH. simpl.
    now rewrite <- app_assoc.
Qed.

Lemma save_stages_write (stage_summaries : list (string * list (string * Frame)))
  (w : World) :
  for_each stage_summaries
    (fun '(stage, summaries) => Excel3CNV.save_stage stage summaries) tt w =
  (inr tt, mkWorld (console w) (failed_files_log w)
                   (workbook w
                    ++ flat_map (fun '(stage, summaries) => titled stage summaries)
                                stage_summaries)).
Proof.
  revert w. induction stage_summaries as [|[stage l] rest IH]; intros w; simpl.
  - rewrite app_nil_r. now destruct w.
  - unfold bind. rewrite save_stage_writes, IH. simpl.
    now rewrite <- app_assoc.
Qed.

(** C3. The title of a sheet is [stage ++ "_" ++ name] when that has at
    most 31 characters; when it has more, the title is its first 28
    characters followed by "...", 31 characters in all. The exporter
    writes every table of every stage under the title so formed, in the
    order of the stages and of their tables. *)
Theorem sheet_title_truncation (stage name : string) :
  let full := (stage ++ "_" ++ name)%string in
  ((String.length full <= 31)%nat -> Excel3CNV.sheet_title stage name = full)
  /\ ((31 < String.length full)%nat ->
      Excel3CNV.sheet_title stage name = (substring 0 28 full ++ "...")%string
      /\ String.length (Excel3CNV.sheet_title stage name) = 31%nat)
  /\ (forall timestamp stage_summaries w,
        workbook (snd (Excel3CNV.save_summaries_to_excel timestamp stage_summaries w))
        = flat_map (fun '(stage, summaries) =>
                      map (fun '(sheet_name, df) =>
                             (Excel3CNV.sheet_title stage sheet_name, df))
                          summaries)
                   stage_summaries).
Proof.
  intros full. unfold Excel3CNV.sheet_title. fold full.
  split; [|split].
  - intros H. apply Nat.ltb_ge in H. now rewrite H.
  - intros H. pose proof H as H'. apply Nat.ltb_lt in H'. rewrite H'.
    split; [reflexivity|].
    rewrite length_append, length_slice_to by lia. reflexivity.
  - intros timestamp stage_summaries w.
    unfold Excel3CNV.save_summaries_to_excel, bind, excel_writer.
    rewrite save_stages_write. reflexivity.
Qed.

(** A title of 35 characters is cut to 31, one of 31 is kept. *)
Lemma sheet_title_truncation_witness :
  (Excel3CNV.sheet_title "Stage_IIIA_sample" "CNV_Segment_Stats"
   = "Stage_IIIA_sample_CNV_Segmen..."%string
   /\ String.length (Excel3CNV.sheet_title "Stage_IIIA_sample" "CNV_Segment_Stats")
      = 31%nat)
  /\ Excel3CNV.sheet_title "Stage_IIIA_sa" "CNV_Segment_Stats"
     = "Stage_IIIA_sa_CNV_Segment_Stats"%string.
Proof.
  split.
  - apply (proj1 (proj2 (sheet_title_truncation "Stage_IIIA_sample" "CNV_Segment_Stats"))).
    simpl. lia.
  - apply (proj1 (sheet_title_truncation "Stage_IIIA_sa" "CNV_Segment_Stats")).
    simpl. lia.
Defined.

(** ** The readers *)

Lemma readlines_no_newline (c : ascii) (l : string) :
  no_newline (String c l) -> readlines (String c l) = [String c l].
Proof.
  revert c. induction l as [|d l IH]; intros c [Hc Hl].
  - simpl. apply Ascii.eqb_neq in Hc. now rewrite Hc.
  - assert (E : readlines (String d l) = [String d l]) by now apply IH.
    change (readlines (String c (String d l)))
      with (if Ascii.eqb c newline
            then String c EmptyString :: readlines (String d l)
            else match readlines (String d l) with
                 | [] => [String c EmptyString]
                 | x :: xs => String c x :: xs
                 end).
    apply Ascii.eqb_neq in Hc. now rewrite Hc, E.
Qed.

Lemma readlines_line (l rest : string) :
  no_newline l -> readlines (l ++ NL ++ rest) = (l ++ NL)%string :: readlines rest.
Proof.
  induction l as [|c l IH]; intros H.
  - simpl. reflexivity.
  - destruct H as [Hc Hl]. simpl.
    apply Ascii.eqb_neq in Hc. rewrite Hc.
    simpl in IH. now rewrite IH.
Qed.

Lemma readlines_wf (text : string) : lines_wf (readlines text).
Proof.
  induction text as [|c t IH]; simpl.
  - constructor.
  - destruct (Ascii.eqb c newline) eqn:E.
    + apply Ascii.eqb_eq in E. subst c.
      apply (lines_wf_cons EmptyString); [exact I | assumption].
    + apply Ascii.eqb_neq in E.
      destruct (readlines t) as [|l ls].
      * apply lines_wf_last. now split.
      * inversion IH as [| d l' Hl | l' ls' Hl Hls]; subst.
        -- apply lines_wf_last. now split.
        -- apply (lines_wf_cons (String c l')); [now split | assumption].
Qed.

Lemma lines_wf_filter (p : string -> bool) (ls : list string) :
  lines_wf ls -> lines_wf (filter p ls).
Proof.
  induction 1 as [| c l H | l ls H Hls IH]; simpl.
  - constructor.
  - destruct (p (String c l)); now constructor.
  - destruct (p (l ++ NL)%string); [now constructor | assumption].
Qed.

Lemma string_app_nil_r (s : string) : (s ++ "")%string = s.
Proof. induction s; simpl; congruence. Qed.

Lemma string_app_assoc (a b c : string) :
  ((a ++ b) ++ c)%string = (a ++ b ++ c)%string.
Proof. induction a; simpl; congruence. Qed.

Lemma string_concat_cons (x : string) (xs : list string) :
  String.concat "" (x :: xs) = (x ++ String.concat "" xs)%string.
Proof.
  destruct xs; simpl; [now rewrite string_app_nil_r | reflexivity].
Qed.

Lemma readlines_concat (ls : list string) :
  lines_wf ls -> readlines (String.concat "" ls) = ls.
Proof.
  induction 1 as [| c l H | l ls H Hls IH].
  - reflexivity.
  - simpl String.concat. now apply readlines_no_newline.
  - rewrite string_concat_cons, string_app_assoc, readlines_line by assumption.
    now rewrite IH.
Qed.

(** Cutting a text into lines loses nothing. *)
Lemma concat_readlines (text : string) :
  String.concat "" (readlines text) = text.
Proof.
  induction text as [|c t IH]; [reflexivity|].
  simpl readlines. destruct (Ascii.eqb c newline).
  - rewrite string_concat_cons, IH. reflexivity.
  - destruct (readlines t) as [|l ls] eqn:E.
    + simpl in *. now subst.
    + rewrite string_concat_cons in *. simpl. now rewrite IH.
Qed.

Lemma readlines_remove_comment_lines (text : string) :
  readlines (remove_comment_lines text) = filter not_comment (readlines text).
Proof.
  unfold remove_comment_lines.
  apply readlines_concat, lines_wf_filter, readlines_wf.
Qed.

Lemma read_cnv_file_eq fs pd_read_csv file_path w :
  read_cnv_file fs pd_read_csv file_path w =
  match cnv_attempt fs pd_read_csv file_path with
  | inr df => (inr (Some df), w)
  | inl e =>
      (inr None,
       mkWorld (console w
                ++ [("❌ Failed to read CNV file " ++ file_path ++ ": "
                     ++ str_of_exception e)%string])
               (failed_files_log w) (workbook w))
  end.
Proof.
  unfold read_cnv_file, cnv_attempt, try_except, bind, lift, ret, print.
  destruct (pd_read_csv_path fs pd_read_csv file_path); reflexivity.
Qed.

Lemma read_maf_file_eq fs pd_read_csv file_path w :
  read_maf_file fs pd_read_csv file_path w =
  match maf_attempt fs pd_read_csv file_path with
  | inr df => (inr (Some df), w)
  | inl e =>
      (inr None,
       mkWorld (console w
                ++ [("❌ Failed to read MAF file " ++ file_path ++ ": "
                     ++ str_of_exception e)%string])
               (failed_files_log w) (workbook w))
  end.
Proof.
  unfold read_maf_file, maf_attempt, try_except, bind, lift, ret, print.
  destruct (read_text fs file_path) as [e|f]; [reflexivity|].
  destruct (pd_read_csv _); reflexivity.
Qed.


(** C7. Neither reader lets an exception reach its caller: for every path
    each returns a value, which is [None] exactly when reading or parsing
    failed and the parsed frame exactly when both succeeded. *)
Theorem readers_never_raise (fs : FileSystem)
  (pd_read_csv : string -> Exception + DataFrame) (file_path : string)
  (w : World) :
  (exists r w',
      read_cnv_file fs pd_read_csv file_path w = (inr r, w')
      /\ (r = None <-> exists e, cnv_attempt fs pd_read_csv file_path = inl e)
      /\ (forall df, r = Some df <-> cnv_attempt fs pd_read_csv file_path = inr df))
  /\ (exists r w',
      read_maf_file fs pd_read_csv file_path w = (inr r, w')
      /\ (r = None <-> exists e, maf_attempt fs pd_read_csv file_path = inl e)
      /\ (forall df, r = Some df <-> maf_attempt fs pd_read_csv file_path = inr df)).
Proof.
  split.
  - rewrite read_cnv_file_eq.
    destruct (cnv_attempt fs pd_read_csv file_path) as [e|df];
      eexists; eexists; (split; [reflexivity|]); split.
    + split; [intros _; now exists e | reflexivity].
    + intros df; split; discriminate.
    + split; [discriminate | intros [e He]; discriminate].
    + intros df'; split; congruence.
  - rewrite read_maf_file_eq.
    destruct (maf_attempt fs pd_read_csv file_path) as [e|df];
      eexists; eexists; (split; [reflexivity|]); split.
    + split; [intros _; now exists e | reflexivity].
    + intros df; split; discriminate.
    + split; [discriminate | intros [e He]; discriminate].
    + intros df'; split; congruence.
Qed.

(** A file that is missing and a file that parses, read by both readers. *)
Example readers_on_missing_and_present_files :
  fst (read_cnv_file Fixture.stage_I Fixture.read_csv
         "stage/S2/gone.Copy_Number_Variation.tsv" Fixture.fresh) = inr None
  /\ fst (read_maf_file Fixture.stage_I Fixture.read_csv
            "stage/S1/missing.maf" Fixture.fresh) = inr None
  /\ fst (read_cnv_file Fixture.stage_I Fixture.read_csv
            "stage/S1/b.Copy_Number_Variation.tsv" Fixture.fresh)
     = inr (Some (mkDataFrame ["Chromosome"; "Num_Probes"] [[CNum 1; CNum 12]])).
Proof. repeat split; vm_compute; reflexivity. Qed.

Lemma filter_idem {A} (p : A -> bool) (l : list A) :
  filter p (filter p l) = filter p l.
Proof.
  induction l as [|x l IH]; simpl; [reflexivity|].
  destruct (p x) eqn:E; simpl; [rewrite E, IH; reflexivity | assumption].
Qed.

Lemma maf_attempt_with_text fs pd_read_csv file_path text :
  maf_attempt (with_text fs file_path text) pd_read_csv file_path
  = pd_read_csv (join NL (filter not_comment (readlines text))).
Proof.
  unfold maf_attempt, with_text. simpl. now rewrite String.eqb_refl.
Qed.

(** C5. [read_maf_file] hands to the parser the lines of the file whose
    first character is not '#', in their order, and nothing of the other
    lines: two files with the same such lines give the same result, and so
    does the file with its '#' lines deleted. *)
Theorem read_maf_file_skips_comment_lines (fs : FileSystem)
  (pd_read_csv : string -> Exception + DataFrame) (file_path f : string)
  (w : World) :
  read_text fs file_path = inr f ->
  let kept := filter not_comment (readlines f) in
  (forall line,
      In line kept <-> In line (readlines f) /\ startswith "#" line = false)
  /\ fst (read_maf_file fs pd_read_csv file_path w)
     = inr (match pd_read_csv (join NL kept) with
            | inr df => Some df
            | inl _ => None
            end)
  /\ (forall fs' file_path' f' w',
        read_text fs' file_path' = inr f' ->
        filter not_comment (readlines f') = kept ->
        fst (read_maf_file fs' pd_read_csv file_path' w')
        = fst (read_maf_file fs pd_read_csv file_path w))
  /\ readlines (remove_comment_lines f) = kept
  /\ fst (read_maf_file (with_text fs file_path (remove_comment_lines f))
                        pd_read_csv file_path w)
     = fst (read_maf_file fs pd_read_csv file_path w).
Proof.
  intros Hf kept.
  assert (Hhere : fst (read_maf_file fs pd_read_csv file_path w)
                  = inr (match pd_read_csv (join NL kept) with
                         | inr df => Some df
                         | inl _ => None
                         end)).
  { rewrite read_maf_file_eq. unfold maf_attempt. rewrite Hf. fold kept.
    destruct (pd_read_csv (join NL kept)); reflexivity. }
  split; [|split; [|split; [|split]]].
  - intros line. unfold kept. rewrite filter_In. unfold not_comment.
    rewrite negb_true_iff. reflexivity.
  - exact Hhere.
  - intros fs' file_path' f' w' Hf' Hkept.
    rewrite Hhere, read_maf_file_eq. unfold maf_attempt.
    rewrite Hf', Hkept.
    destruct (pd_read_csv (join NL kept)); reflexivity.
  - apply readlines_remove_comment_lines.
  - rewrite Hhere, read_maf_file_eq, maf_attempt_with_text.
    rewrite readlines_remove_comment_lines.
    rewrite filter_idem. fold kept.
    destruct (pd_read_csv (join NL kept)); reflexivity.
Qed.

(** The MAF file of sample S1 has two lines that begin with '#'; its two
    rows are read. *)
Lemma read_maf_file_skips_comment_lines_witness :
  fst (read_maf_file Fixture.stage_I Fixture.read_csv
         "stage/S1/a.Simple_Nucleotide_Variation.maf" Fixture.fresh)
  = inr (Some (mkDataFrame ["Hugo_Symbol"; "Variant_Classification"]
                 [[CStr "A"; CStr "Missense"]; [CStr "B"; CStr "Silent"]])).
Proof.
  exact (proj1 (proj2 (read_maf_file_skips_comment_lines
                         Fixture.stage_I Fixture.read_csv
                         "stage/S1/a.Simple_Nucleotide_Variation.maf"
                         Fixture.maf_a Fixture.fresh eq_refl))).
Defined.


(** ** One file of a sample directory *)

Lemma index_of_In (c : string) (cols : list string) :
  In c cols -> exists i, index_of c cols = Some i.
Proof.
  induction cols as [|c' cols IH]; simpl; [contradiction|].
  intros H. destruct (String.eqb c' c) eqn:E; [now exists 0%nat|].
  destruct H as [-> | H]; [now rewrite String.eqb_refl in E|].
  destruct (IH H) as [i ->]. now exists (S i).
Qed.

Lemma index_of_Some_In (c : string) (cols : list string) (i : nat) :
  index_of c cols = Some i -> In c cols.
Proof.
  revert i. induction cols as [|c' cols IH]; simpl; intros i; [discriminate|].
  destruct (String.eqb c' c) eqn:E.
  - apply String.eqb_eq in E. now left.
  - destruct (index_of c cols); [|discriminate]. intros _. right. now apply (IH n).
Qed.

(** The column the resolver returns is a true value and a column of the
    frame, so that [cnv_df[segment_col]] does not raise. *)
Lemma resolved_column_is_there (cnv_df : DataFrame) (col : string) :
  get_segment_mean_column cnv_df = Some col ->
  truthy (Some col) = true
  /\ exists values, getitem cnv_df col = inr values
                    /\ List.length values = List.length (rows cnv_df).
Proof.
  intros H. unfold get_segment_mean_column in H.
  pose proof (find_some _ _ H) as [Hin Hname]. split.
  - simpl. apply negb_true_iff, String.eqb_neq.
    now apply segment_mean_name_not_empty.
  - unfold getitem. destruct (index_of_In col _ Hin) as [i ->].
    eexists. split; [reflexivity|]. unfold column_values. apply length_map.
Qed.

Lemma truthy_resolved (cnv_df : DataFrame) :
  truthy (get_segment_mean_column cnv_df) = false <->
  get_segment_mean_column cnv_df = None.
Proof.
  destruct (get_segment_mean_column cnv_df) as [col|] eqn:E.
  - destruct (resolved_column_is_there _ _ E) as [Ht _]. rewrite Ht.
    split; discriminate.
  - split; reflexivity.
Qed.

Ltac run_reader :=
  unfold bind; rewrite ?read_cnv_file_eq, ?read_maf_file_eq.

Lemma per_stage_process_file_cnv fs pd_read_csv sample_path file sd w :
  contains "Copy_Number_Variation" file = true ->
  exists w',
    Excel3CNV.process_file fs pd_read_csv sample_path file sd w
    = (inr (Excel3CNV.mkStageData
              (Excel3CNV.cnv_segment_means sd
               ++ List.concat (cnv_columns_of_file fs pd_read_csv sample_path file))
              (Excel3CNV.snp_data sd)), w').
Proof.
  intros Hc. unfold Excel3CNV.process_file, cnv_columns_of_file, resolved_column.
  rewrite Hc. run_reader.
  destruct (cnv_attempt fs pd_read_csv (os_path_join sample_path file)) as [e|df].
  - eexists. unfold ret. simpl. rewrite app_nil_r. now destruct sd.
  - destruct (get_segment_mean_column df) as [col|] eqn:E.
    + destruct (resolved_column_is_there _ _ E) as (Ht & values & Hv & _).
      rewrite Ht. unfold lift, ret. simpl. rewrite Hv. simpl.
      rewrite app_nil_r. now eexists.
    + simpl. unfold ret. rewrite app_nil_r. eexists. now destruct sd.
Qed.

Lemma per_stage_process_file_other fs pd_read_csv sample_path file sd w :
  contains "Copy_Number_Variation" file = false ->
  exists sd' w',
    Excel3CNV.process_file fs pd_read_csv sample_path file sd w = (inr sd', w')
    /\ Excel3CNV.cnv_segment_means sd' = Excel3CNV.cnv_segment_means sd.
Proof.
  intros Hc. unfold Excel3CNV.process_file. rewrite Hc.
  destruct (_ || _).
  - run_reader. destruct (maf_attempt _ _ _); eexists; eexists; split; reflexivity.
  - eexists; eexists; split; reflexivity.
Qed.

Lemma overall_process_file_cnv fs pd_read_csv sample_folder sample_path file sd w :
  contains "Copy_Number_Variation" file = true ->
  exists sd' w',
    OverallAnalysis.process_file fs pd_read_csv sample_folder sample_path file sd w
    = (inr sd', w')
    /\ OverallAnalysis.cnv_segment_means sd'
       = OverallAnalysis.cnv_segment_means sd
         ++ List.concat (cnv_columns_of_file fs pd_read_csv sample_path file)
    /\ OverallAnalysis.snp_data sd' = OverallAnalysis.snp_data sd
    /\ OverallAnalysis.snp_data_by_sample sd' = OverallAnalysis.snp_data_by_sample sd.
Proof.
  intros Hc. unfold OverallAnalysis.process_file, cnv_columns_of_file, resolved_column.
  rewrite Hc. run_reader.
  destruct (cnv_attempt fs pd_read_csv (os_path_join sample_path file)) as [e|df].
  - eexists; eexists. unfold ret. simpl. rewrite app_nil_r. now repeat split.
  - destruct (get_segment_mean_column df) as [col|] eqn:E.
    + destruct (resolved_column_is_there _ _ E) as (Ht & values & Hv & _).
      rewrite Ht. unfold lift, ret. simpl. rewrite Hv. simpl.
      rewrite app_nil_r. eexists; eexists. now repeat split.
    + simpl. unfold ret, print, OverallAnalysis.log_failed_file, append_log. simpl.
      rewrite app_nil_r. eexists; eexists. now repeat split.
Qed.

Lemma overall_process_file_other fs pd_read_csv sample_folder sample_path file sd w :
  contains "Copy_Number_Variation" file = false ->
  exists sd' w',
    OverallAnalysis.process_file fs pd_read_csv sample_folder sample_path file sd w
    = (inr sd', w')
    /\ OverallAnalysis.cnv_segment_means sd' = OverallAnalysis.cnv_segment_means sd.
Proof.
  intros Hc. unfold OverallAnalysis.process_file. rewrite Hc.
  destruct (_ || _).
  - run_reader. destruct (maf_attempt _ _ _); eexists; eexists; split; reflexivity.
  - eexists; eexists; split; reflexivity.
Qed.

(** C10. A file whose name contains "Copy_Number_Variation" goes through
    the CNV branch only, whatever else its name contains or ends with: in
    both scripts the step for that file returns, adds to the segment means
    what the file gives as a CNV file, and leaves the sequences of
    mutation tables as they were. *)
Theorem cnv_named_file_adds_no_mutation_table (fs : FileSystem)
  (pd_read_csv : string -> Exception + DataFrame)
  (sample_folder sample_path file : string) :
  contains "Copy_Number_Variation" file = true ->
  (forall sd w, exists sd' w',
      Excel3CNV.process_file fs pd_read_csv sample_path file sd w = (inr sd', w')
      /\ Excel3CNV.cnv_segment_means sd'
         = Excel3CNV.cnv_segment_means sd
           ++ List.concat (cnv_columns_of_file fs pd_read_csv sample_path file)
      /\ Excel3CNV.snp_data sd' = Excel3CNV.snp_data sd)
  /\ (forall sd w, exists sd' w',
      OverallAnalysis.process_file fs pd_read_csv sample_folder sample_path file sd w
      = (inr sd', w')
      /\ OverallAnalysis.cnv_segment_means sd'
         = OverallAnalysis.cnv_segment_means sd
           ++ List.concat (cnv_columns_of_file fs pd_read_csv sample_path file)
      /\ OverallAnalysis.snp_data sd' = OverallAnalysis.snp_data sd
      /\ OverallAnalysis.snp_data_by_sample sd'
         = OverallAnalysis.snp_data_by_sample sd).
Proof.
  intros Hc. split; intros sd w.
  - destruct (per_stage_process_file_cnv fs pd_read_csv sample_path file sd w Hc)
      as [w' H].
    eexists; eexists. split; [exact H | split; reflexivity].
  - destruct (overall_process_file_cnv fs pd_read_csv sample_folder sample_path
                file sd w Hc) as (sd' & w' & H & H0 & H1 & H2).
    exists sd', w'. now repeat split.
Qed.

(** A name with all three marks; the file holds a well-formed mutation
    table, which is read as a CNV table and gives no mutation table. *)
Lemma cnv_named_file_adds_no_mutation_table_witness :
  contains "Simple_Nucleotide_Variation" Fixture.both_names = true
  /\ endswith ".maf" Fixture.both_names = true
  /\ exists sd' w',
      Excel3CNV.process_file Fixture.stage_both Fixture.read_csv
        "stage/S1" Fixture.both_names (Excel3CNV.mkStageData [] []) Fixture.fresh
      = (inr sd', w')
      /\ Excel3CNV.cnv_segment_means sd' = []
      /\ Excel3CNV.snp_data sd' = [].
Proof.
  split; [reflexivity|]. split; [reflexivity|].
  exact (proj1 (cnv_named_file_adds_no_mutation_table
                  Fixture.stage_both Fixture.read_csv
                  "S1" "stage/S1" Fixture.both_names eq_refl)
               (Excel3CNV.mkStageData [] []) Fixture.fresh).
Defined.

(** C6. A CNV file that is read but has no segment-mean column: the
    overall script prints a warning and appends the record of the file
    path and "Missing Segment Mean column" to the failure log; the
    per-stage script prints and records nothing. Both leave every
    accumulator as it was and go on with the next file of the sample. *)
Theorem missing_segment_mean_column (fs : FileSystem)
  (pd_read_csv : string -> Exception + DataFrame)
  (sample_folder sample_path file : string) (cnv_df : DataFrame) :
  contains "Copy_Number_Variation" file = true ->
  cnv_attempt fs pd_read_csv (os_path_join sample_path file) = inr cnv_df ->
  get_segment_mean_column cnv_df = None ->
  let file_path := os_path_join sample_path file in
  let logged (w : World) :=
    mkWorld
      (console w ++ [("⚠️ Warning: No Segment Mean column found in "
                      ++ file_path ++ ".")%string])
      (failed_files_log w ++ failure_record file_path "Missing Segment Mean column")
      (workbook w) in
  (forall sd w,
      OverallAnalysis.process_file fs pd_read_csv sample_folder sample_path file sd w
      = (inr sd, logged w))
  /\ (forall sd w,
      Excel3CNV.process_file fs pd_read_csv sample_path file sd w = (inr sd, w))
  /\ (forall rest sd w,
      for_each (file :: rest)
        (OverallAnalysis.process_file fs pd_read_csv sample_folder sample_path) sd w
      = for_each rest
          (OverallAnalysis.process_file fs pd_read_csv sample_folder sample_path)
          sd (logged w))
  /\ (forall rest sd w,
      for_each (file :: rest) (Excel3CNV.process_file fs pd_read_csv sample_path) sd w
      = for_each rest (Excel3CNV.process_file fs pd_read_csv sample_path) sd w).
Proof.
  intros Hc Hread Hcol file_path logged.
  assert (Ho : forall sd w,
             OverallAnalysis.process_file fs pd_read_csv sample_folder
               sample_path file sd w = (inr sd, logged w)).
  { intros sd w. unfold OverallAnalysis.process_file. rewrite Hc. run_reader.
    rewrite Hread, Hcol. reflexivity. }
  assert (Hp : forall sd w,
             Excel3CNV.process_file fs pd_read_csv sample_path file sd w
             = (inr sd, w)).
  { intros sd w. unfold Excel3CNV.process_file. rewrite Hc. run_reader.
    rewrite Hread, Hcol. reflexivity. }
  repeat split; auto.
  - intros rest sd w. simpl. unfold bind. now rewrite Ho.
  - intros rest sd w. simpl. unfold bind. now rewrite Hp.
Qed.

(** The second CNV file of sample S1 has the columns "Chromosome" and
    "Num_Probes" only. *)
Lemma missing_segment_mean_column_witness :
  OverallAnalysis.process_file Fixture.stage_I Fixture.read_csv
    "S1" "stage/S1" "b.Copy_Number_Variation.tsv"
    (OverallAnalysis.mkStageData [CNum 1] [] [("S0", [CNum 1])] []) Fixture.fresh
  = (inr (OverallAnalysis.mkStageData [CNum 1] [] [("S0", [CNum 1])] []),
     mkWorld
       ["⚠️ Warning: No Segment Mean column found in stage/S1/b.Copy_Number_Variation.tsv."%string]
       (failure_record "stage/S1/b.Copy_Number_Variation.tsv"
                       "Missing Segment Mean column")
       [])
  /\ Excel3CNV.process_file Fixture.stage_I Fixture.read_csv
       "stage/S1" "b.Copy_Number_Variation.tsv"
       (Excel3CNV.mkStageData [CNum 1] []) Fixture.fresh
     = (inr (Excel3CNV.mkStageData [CNum 1] []), Fixture.fresh).
Proof.
  pose proof (missing_segment_mean_column Fixture.stage_I Fixture.read_csv
                "S1" "stage/S1" "b.Copy_Number_Variation.tsv"
                (mkDataFrame ["Chromosome"; "Num_Probes"] [[CNum 1; CNum 12]])
                eq_refl eq_refl eq_refl) as (Ho & Hp & _).
  split.
  - exact (Ho _ Fixture.fresh).
  - exact (Hp _ Fixture.fresh).
Defined.

(** ** The walk over a stage directory *)

Lemma for_each_accumulates {A S B} (proj : S -> list B) (contrib : A -> list B)
  (body : A -> S -> Py S) (l : list A) :
  (forall x, In x l -> forall s w, exists s' w',
        body x s w = (inr s', w') /\ proj s' = proj s ++ contrib x) ->
  forall s w, exists s' w',
      for_each l body s w = (inr s', w')
      /\ proj s' = proj s ++ flat_map contrib l.
Proof.
  induction l as [|x l IH]; intros Hbody s w; simpl.
  - exists s, w. now rewrite app_nil_r.
  - destruct (Hbody x (or_introl eq_refl) s w) as (s1 & w1 & Hx & Hp).
    destruct (IH (fun y Hy => Hbody y (or_intror Hy)) s1 w1)
      as (s2 & w2 & Hl & Hp2).
    exists s2, w2. unfold bind. rewrite Hx. split; [assumption|].
    now rewrite Hp2, Hp, app_assoc.
Qed.

Lemma concat_flat_map {A B} (f : A -> list (list B)) (l : list A) :
  flat_map (fun x => List.concat (f x)) l = List.concat (flat_map f l).
Proof.
  induction l as [|x l IH]; simpl; [reflexivity|].
  now rewrite List.concat_app, IH.
Qed.

Lemma flat_map_perm_ext {A B} (f g : A -> list B) (l : list A) :
  (forall x, In x l -> Permutation (f x) (g x)) ->
  Permutation (flat_map f l) (flat_map g l).
Proof.
  induction l as [|x l IH]; intros H; simpl; [constructor|].
  apply Permutation_app; [apply H; now left | apply IH; intros y Hy; apply H; now right].
Qed.

Lemma concat_perm {A} (l l' : list (list A)) :
  Permutation l l' -> Permutation (List.concat l) (List.concat l').
Proof.
  induction 1 as [| x l l' _ IH | x y l | l l' l'' _ IH1 _ IH2]; simpl.
  - constructor.
  - now apply Permutation_app_head.
  - rewrite !app_assoc. apply Permutation_app_tail, Permutation_app_comm.
  - now transitivity (List.concat l').
Qed.

Section Walk.

Variable fs : FileSystem.
Variable pd_read_csv : string -> Exception + DataFrame.

Lemma per_stage_process_file_values sample_path file sd w :
  exists sd' w',
    Excel3CNV.process_file fs pd_read_csv sample_path file sd w = (inr sd', w')
    /\ Excel3CNV.cnv_segment_means sd'
       = Excel3CNV.cnv_segment_means sd
         ++ List.concat (cnv_columns_of_file fs pd_read_csv sample_path file).
Proof.
  destruct (contains "Copy_Number_Variation" file) eqn:Hc.
  - destruct (per_stage_process_file_cnv fs pd_read_csv sample_path file sd w Hc)
      as [w' H].
    eexists; eexists. split; [exact H | reflexivity].
  - destruct (per_stage_process_file_other fs pd_read_csv sample_path file sd w Hc)
      as (sd' & w' & H & Hv).
    exists sd', w'. split; [assumption|].
    unfold cnv_columns_of_file. rewrite Hc. simpl. now rewrite app_nil_r.
Qed.

Lemma overall_process_file_values sample_folder sample_path file sd w :
  exists sd' w',
    OverallAnalysis.process_file fs pd_read_csv sample_folder sample_path file sd w
    = (inr sd', w')
    /\ OverallAnalysis.cnv_segment_means sd'
       = OverallAnalysis.cnv_segment_means sd
         ++ List.concat (cnv_columns_of_file fs pd_read_csv sample_path file).
Proof.
  destruct (contains "Copy_Number_Variation" file) eqn:Hc.
  - destruct (overall_process_file_cnv fs pd_read_csv sample_folder sample_path
                file sd w Hc) as (sd' & w' & H & Hv & _).
    now exists sd', w'.
  - destruct (overall_process_file_other fs pd_read_csv sample_folder sample_path
                file sd w Hc) as (sd' & w' & H & Hv).
    exists sd', w'. split; [assumption|].
    unfold cnv_columns_of_file. rewrite Hc. simpl. now rewrite app_nil_r.
Qed.

Lemma per_stage_process_sample_values stage_folder sample_folder sd w :
  sample_listable fs stage_folder sample_folder = true ->
  exists sd' w',
    Excel3CNV.process_sample fs pd_read_csv stage_folder sample_folder sd w
    = (inr sd', w')
    /\ Excel3CNV.cnv_segment_means sd'
       = Excel3CNV.cnv_segment_means sd
         ++ List.concat (cnv_columns_of_sample fs pd_read_csv stage_folder sample_folder).
Proof.
  unfold sample_listable, Excel3CNV.process_sample, cnv_columns_of_sample, files_in.
  intros H. destruct (isdir fs (os_path_join stage_folder sample_folder)); simpl in *.
  - destruct (listdir fs (os_path_join stage_folder sample_folder)) as [e|files];
      [discriminate|].
    unfold bind, lift. rewrite <- concat_flat_map.
    apply for_each_accumulates. intros file _ s w1.
    apply per_stage_process_file_values.
  - exists sd, w. now rewrite app_nil_r.
Qed.

Lemma overall_process_sample_values stage_folder sample_folder sd w :
  sample_listable fs stage_folder sample_folder = true ->
  exists sd' w',
    OverallAnalysis.process_sample fs pd_read_csv stage_folder sample_folder sd w
    = (inr sd', w')
    /\ OverallAnalysis.cnv_segment_means sd'
       = OverallAnalysis.cnv_segment_means sd
         ++ List.concat (cnv_columns_of_sample fs pd_read_csv stage_folder sample_folder).
Proof.
  unfold sample_listable, OverallAnalysis.process_sample, cnv_columns_of_sample, files_in.
  intros H. destruct (isdir fs (os_path_join stage_folder sample_folder)); simpl in *.
  - destruct (listdir fs (os_path_join stage_folder sample_folder)) as [e|files];
      [discriminate|].
    unfold bind, lift, print. simpl. rewrite <- concat_flat_map.
    apply for_each_accumulates. intros file _ s w1.
    apply overall_process_file_values.
  - exists sd, w. now rewrite app_nil_r.
Qed.

Lemma per_stage_process_stage_values stage stage_folder w :
  listable fs stage_folder = true ->
  exists sd w',
    Excel3CNV.process_stage fs pd_read_csv stage stage_folder w = (inr sd, w')
    /\ Excel3CNV.cnv_segment_means sd
       = List.concat (cnv_columns fs pd_read_csv stage_folder).
Proof.
  unfold listable, Excel3CNV.process_stage, cnv_columns, files_in.
  destruct (listdir fs stage_folder) as [e|samples]; [discriminate|].
  intros H. rewrite forallb_forall in H.
  unfold bind, lift. rewrite <- concat_flat_map.
  apply (for_each_accumulates Excel3CNV.cnv_segment_means
           (fun s => List.concat (cnv_columns_of_sample fs pd_read_csv stage_folder s))).
  intros s Hs sd w1. apply per_stage_process_sample_values. now apply H.
Qed.

Lemma overall_process_stage_values stage stage_folder w :
  listable fs stage_folder = true ->
  exists sd w',
    OverallAnalysis.process_stage fs pd_read_csv stage stage_folder w = (inr sd, w')
    /\ OverallAnalysis.cnv_segment_means sd
       = List.concat (cnv_columns fs pd_read_csv stage_folder).
Proof.
  unfold listable, OverallAnalysis.process_stage, cnv_columns, files_in.
  destruct (listdir fs stage_folder) as [e|samples]; [discriminate|].
  intros H. rewrite forallb_forall in H.
  unfold bind, lift. rewrite <- concat_flat_map.
  apply (for_each_accumulates OverallAnalysis.cnv_segment_means
           (fun s => List.concat (cnv_columns_of_sample fs pd_read_csv stage_folder s))).
  intros s Hs sd w1. apply overall_process_sample_values. now apply H.
Qed.

End Walk.

Lemma reordered_listing fs fs' dir :
  reordered fs fs' -> Permutation (files_in fs dir) (files_in fs' dir).
Proof.
  intros (_ & _ & H). specialize (H dir). unfold files_in.
  destruct (listdir fs dir), (listdir fs' dir); (assumption || constructor || contradiction).
Qed.

Lemma reordered_columns_of_file fs fs' pd_read_csv sample_path file :
  reordered fs fs' ->
  cnv_columns_of_file fs' pd_read_csv sample_path file
  = cnv_columns_of_file fs pd_read_csv sample_path file.
Proof.
  intros (_ & Hr & _).
  unfold cnv_columns_of_file, resolved_column, cnv_attempt, pd_read_csv_path.
  now rewrite Hr.
Qed.

Lemma reordered_columns fs fs' pd_read_csv stage_folder :
  reordered fs fs' ->
  Permutation (cnv_columns fs pd_read_csv stage_folder)
              (cnv_columns fs' pd_read_csv stage_folder).
Proof.
  intros H. unfold cnv_columns.
  transitivity (flat_map (cnv_columns_of_sample fs pd_read_csv stage_folder)
                         (files_in fs' stage_folder)).
  - apply Permutation_flat_map, reordered_listing, H.
  - apply flat_map_perm_ext. intros s _. unfold cnv_columns_of_sample.
    destruct H as (Hd & Hr & Hl). rewrite Hd.
    destruct (isdir fs (os_path_join stage_folder s)); [|constructor].
    transitivity (flat_map (cnv_columns_of_file fs pd_read_csv (os_path_join stage_folder s))
                           (files_in fs' (os_path_join stage_folder s))).
    + apply Permutation_flat_map, reordered_listing. now repeat split.
    + apply flat_map_perm_ext. intros f _.
      rewrite (reordered_columns_of_file fs fs'); [reflexivity | now repeat split].
Qed.

Lemma reordered_listable fs fs' stage_folder :
  reordered fs fs' ->
  listable fs stage_folder = true -> listable fs' stage_folder = true.
Proof.
  intros (Hd & Hr & Hl). unfold listable.
  pose proof (Hl stage_folder) as Hs.
  destruct (listdir fs stage_folder) as [e|samples]; [discriminate|].
  destruct (listdir fs' stage_folder) as [e|samples']; [contradiction|].
  rewrite !forallb_forall. intros H s Hs'.
  apply Permutation_sym in Hs.
  specialize (H s (Permutation_in _ Hs Hs')).
  unfold sample_listable in *. rewrite Hd. specialize (Hl (os_path_join stage_folder s)).
  destruct (isdir fs (os_path_join stage_folder s)); [|reflexivity].
  simpl in *.
  destruct (listdir fs (os_path_join stage_folder s)); [discriminate|].
  now destruct (listdir fs' (os_path_join stage_folder s)).
Qed.

(** C4. When the stage directory and its sample directories can be listed,
    [process_stage] returns in both scripts, and its stage-wide sequence of
    segment means is the concatenation of the resolved columns of the
    successfully read CNV files: with N such columns of k1..kN values it
    has k1+...+kN values. Under any other order of the listings it returns
    a permutation of the same values (and walks a permutation of the same
    columns). *)
Theorem segment_means_length_and_order (fs fs' : FileSystem)
  (pd_read_csv : string -> Exception + DataFrame)
  (stage stage_folder : string) (w w0 : World) :
  listable fs stage_folder = true ->
  reordered fs fs' ->
  let cols := cnv_columns fs pd_read_csv stage_folder in
  Permutation cols (cnv_columns fs' pd_read_csv stage_folder)
  /\ (exists sd sd' w1 w1',
        Excel3CNV.process_stage fs pd_read_csv stage stage_folder w = (inr sd, w1)
        /\ Excel3CNV.process_stage fs' pd_read_csv stage stage_folder w0 = (inr sd', w1')
        /\ Excel3CNV.cnv_segment_means sd = List.concat cols
        /\ List.length (Excel3CNV.cnv_segment_means sd)
           = list_sum (map (@List.length cell) cols)
        /\ Permutation (Excel3CNV.cnv_segment_means sd)
                       (Excel3CNV.cnv_segment_means sd'))
  /\ (exists sd sd' w1 w1',
        OverallAnalysis.process_stage fs pd_read_csv stage stage_folder w = (inr sd, w1)
        /\ OverallAnalysis.process_stage fs' pd_read_csv stage stage_folder w0
           = (inr sd', w1')
        /\ OverallAnalysis.cnv_segment_means sd = List.concat cols
        /\ List.length (OverallAnalysis.cnv_segment_means sd)
           = list_sum (map (@List.length cell) cols)
        /\ Permutation (OverallAnalysis.cnv_segment_means sd)
                       (OverallAnalysis.cnv_segment_means sd')).
Proof.
  intros Hl Hr cols.
  pose proof (reordered_columns fs fs' pd_read_csv stage_folder Hr) as Hperm.
  pose proof (reordered_listable fs fs' stage_folder Hr Hl) as Hl'.
  split; [exact Hperm|]. split.
  - destruct (per_stage_process_stage_values fs pd_read_csv stage stage_folder w Hl)
      as (sd & w1 & H & Hv).
    destruct (per_stage_process_stage_values fs' pd_read_csv stage stage_folder w0 Hl')
      as (sd' & w1' & H' & Hv').
    exists sd, sd', w1, w1'. repeat split; try assumption.
    + rewrite Hv. apply length_concat.
    + rewrite Hv, Hv'. now apply concat_perm.
  - destruct (overall_process_stage_values fs pd_read_csv stage stage_folder w Hl)
      as (sd & w1 & H & Hv).
    destruct (overall_process_stage_values fs' pd_read_csv stage stage_folder w0 Hl')
      as (sd' & w1' & H' & Hv').
    exists sd, sd', w1, w1'. repeat split; try assumption.
    + rewrite Hv. apply length_concat.
    + rewrite Hv, Hv'. now apply concat_perm.
Qed.


Lemma stage_I_listings_reordered :
  reordered Fixture.stage_I Fixture.stage_I_reordered.
Proof.
  unfold reordered, Fixture.stage_I, Fixture.stage_I_reordered, Fixture.file_system.
  cbn -[String.eqb]. repeat split; intros p.
  - destruct (String.eqb "stage" p); [reflexivity|].
    destruct (String.eqb "stage/S1" p); [reflexivity|].
    destruct (String.eqb "stage/S2" p); reflexivity.
  - destruct (String.eqb "stage" p).
    { apply Permutation_sym.
      apply (Permutation_cons_app ["S1"; "notes.txt"] []). reflexivity. }
    destruct (String.eqb "stage/S1" p).
    { apply (Permutation_cons_app
               ["a.Simple_Nucleotide_Variation.maf"; "b.Copy_Number_Variation.tsv"] []).
      apply perm_swap. }
    destruct (String.eqb "stage/S2" p); [apply perm_swap | exact I].
Qed.

(** The stage of the fixtures under two listing orders: five values, from
    columns of three and two values. *)
Lemma segment_means_length_and_order_witness :
  exists sd sd' w1 w1',
    Excel3CNV.process_stage Fixture.stage_I Fixture.read_csv "I" "stage" Fixture.fresh
    = (inr sd, w1)
    /\ Excel3CNV.process_stage Fixture.stage_I_reordered Fixture.read_csv "I" "stage"
         Fixture.fresh = (inr sd', w1')
    /\ Excel3CNV.cnv_segment_means sd
       = [CNum (1 # 10); CNum (-1 # 5); CNum (3 # 10)] ++ [CNum (3 # 2); CNum 2]
    /\ List.length (Excel3CNV.cnv_segment_means sd) = (3 + (2 + 0))%nat
    /\ Permutation (Excel3CNV.cnv_segment_means sd)
                   (Excel3CNV.cnv_segment_means sd').
Proof.
  exact (proj1 (proj2 (segment_means_length_and_order
                         Fixture.stage_I Fixture.stage_I_reordered Fixture.read_csv
                         "I" "stage" Fixture.fresh Fixture.fresh
                         eq_refl stage_I_listings_reordered))).
Defined.


(** ** Counting values *)

Lemma in_firstn {A} (n : nat) (l : list A) (x : A) :
  In x (firstn n l) -> In x l.
Proof.
  revert n. induction l as [|a l IH]; intros [|n]; simpl; try contradiction.
  intros [-> | H]; [now left | right; now apply (IH n)].
Qed.

Section CountingFacts.

Context {A : Type} (eqb : A -> A -> bool).
Hypothesis eqb_refl : forall a, eqb a a = true.
Hypothesis eqb_sym : forall a b, eqb a b = eqb b a.
Hypothesis eqb_trans : forall a b c, eqb a b = true -> eqb b c = true -> eqb a c = true.

Lemma occurrences_snoc (k x : A) (l : list A) :
  occurrences eqb k (l ++ [x])
  = (occurrences eqb k l + if eqb k x then 1 else 0)%nat.
Proof.
  unfold occurrences. rewrite filter_app, length_app. simpl.
  now destruct (eqb k x).
Qed.

Lemma counter_tally (k x : A) (acc : list (A * nat)) :
  counter eqb k (tally eqb x acc)
  = (counter eqb k acc + if eqb k x then 1 else 0)%nat.
Proof.
  induction acc as [|[k' n] acc IH]; simpl.
  - rewrite (eqb_sym x k). now destruct (eqb k x).
  - destruct (eqb k' x) eqn:Ex; simpl.
    + destruct (eqb k' k) eqn:Ek.
      * assert (eqb k x = true) as ->; [|lia].
        apply (eqb_trans k k' x); [now rewrite eqb_sym | assumption].
      * assert (eqb k x = false) as ->; [|lia].
        destruct (eqb k x) eqn:E; [|reflexivity].
        rewrite <- Ek. symmetry. apply (eqb_trans k' x k); [assumption|].
        now rewrite eqb_sym.
    + destruct (eqb k' k) eqn:Ek; [|apply IH].
      assert (eqb k x = false) as ->; [|lia].
      destruct (eqb k x) eqn:E; [|reflexivity].
      rewrite <- Ex. symmetry. now apply (eqb_trans k' k x).
Qed.

Lemma fold_tally_counter (k : A) (l : list A) (acc : list (A * nat)) :
  counter eqb k (fold_left (fun acc k => tally eqb k acc) l acc)
  = (counter eqb k acc + occurrences eqb k l)%nat.
Proof.
  revert acc. induction l as [|x l IH]; intros acc; simpl.
  - unfold occurrences. simpl. lia.
  - rewrite IH, counter_tally. unfold occurrences. simpl.
    destruct (eqb k x); simpl; lia.
Qed.

Lemma counter_count_keys (k : A) (l : list A) :
  counter eqb k (count_keys eqb l) = occurrences eqb k l.
Proof. unfold count_keys. now rewrite fold_tally_counter. Qed.

Lemma tally_keys (x : A) (acc : list (A * nat)) :
  map fst (tally eqb x acc)
  = if existsb (fun k' => eqb k' x) (map fst acc)
    then map fst acc else map fst acc ++ [x].
Proof.
  induction acc as [|[k' n] acc IH]; simpl; [reflexivity|].
  destruct (eqb k' x); simpl; [reflexivity|].
  rewrite IH. now destruct (existsb _ _).
Qed.

Lemma distinct_snoc (ks : list A) (x : A) :
  distinct eqb ks -> (forall k', In k' ks -> eqb k' x = false) ->
  distinct eqb (ks ++ [x]).
Proof.
  induction ks as [|k ks IH]; simpl; intros Hd Hx.
  - split; [contradiction | exact I].
  - destruct Hd as [Hk Hd]. split.
    + intros k' Hin. apply in_app_or in Hin. destruct Hin as [Hin | [<- | []]].
      * now apply Hk.
      * apply Hx. now left.
    + apply IH; [assumption|]. intros k' Hin. apply Hx. now right.
Qed.

Lemma tally_distinct (x : A) (acc : list (A * nat)) :
  distinct eqb (map fst acc) -> distinct eqb (map fst (tally eqb x acc)).
Proof.
  intros Hd. rewrite tally_keys.
  destruct (existsb (fun k' => eqb k' x) (map fst acc)) eqn:E; [assumption|].
  apply distinct_snoc; [assumption|]. intros k' Hin.
  destruct (eqb k' x) eqn:Ek; [|reflexivity].
  rewrite <- E. symmetry. apply existsb_exists. now exists k'.
Qed.

Lemma tally_keys_of (l : list A) (x : A) (acc : list (A * nat)) :
  keys_of eqb l acc -> keys_of eqb (l ++ [x]) (tally eqb x acc).
Proof.
  intros (Hd & Hsub & Hcov). repeat split.
  - now apply tally_distinct.
  - intros k. rewrite tally_keys, in_app_iff.
    destruct (existsb _ _).
    + intros H. left. now apply Hsub.
    + rewrite in_app_iff. simpl. intros [H | [<- | []]]; [left; now apply Hsub | right; now left].
  - intros y Hy. rewrite tally_keys. apply in_app_or in Hy.
    destruct (existsb (fun k' => eqb k' x) (map fst acc)) eqn:E.
    + destruct Hy as [Hy | [<- | []]]; [now apply Hcov|].
      apply existsb_exists in E. destruct E as (k & Hk & Ek). now exists k.
    + destruct Hy as [Hy | [<- | []]].
      * destruct (Hcov y Hy) as (k & Hk & Ek). exists k. split; [|assumption].
        apply in_or_app. now left.
      * exists x. split; [apply in_or_app; right; now left | apply eqb_refl].
Qed.

Lemma fold_tally_keys_of (l done : list A) (acc : list (A * nat)) :
  keys_of eqb done acc ->
  keys_of eqb (done ++ l) (fold_left (fun acc k => tally eqb k acc) l acc).
Proof.
  revert done acc. induction l as [|x l IH]; intros done acc H; simpl.
  - now rewrite app_nil_r.
  - replace (done ++ x :: l) with ((done ++ [x]) ++ l)
      by (now rewrite <- app_assoc).
    apply IH. now apply tally_keys_of.
Qed.

Lemma count_keys_keys_of (l : list A) : keys_of eqb l (count_keys eqb l).
Proof.
  apply (fold_tally_keys_of l [] []). repeat split; simpl; try contradiction.
Qed.

Lemma counter_of_entry (acc : list (A * nat)) (k : A) (n : nat) :
  distinct eqb (map fst acc) -> In (k, n) acc -> counter eqb k acc = n.
Proof.
  induction acc as [|[k' n'] acc IH]; simpl; [contradiction|].
  intros [Hk Hd] [[= -> ->] | Hin].
  - now rewrite eqb_refl.
  - rewrite (Hk k); [now apply IH|].
    change k with (fst (k, n)). now apply in_map.
Qed.

(** Every entry of [count_keys] carries the number of occurrences of its
    key, which is at least one. *)
Lemma count_keys_entry (l : list A) (k : A) (n : nat) :
  In (k, n) (count_keys eqb l) ->
  n = occurrences eqb k l /\ (1 <= n)%nat /\ In k l.
Proof.
  intros Hin. destruct (count_keys_keys_of l) as (Hd & Hsub & _).
  assert (Hn : n = occurrences eqb k l).
  { rewrite <- counter_count_keys. symmetry. now apply counter_of_entry. }
  assert (Hk : In k l).
  { apply Hsub. change k with (fst (k, n)). now apply in_map. }
  repeat split; try assumption.
  rewrite Hn. unfold occurrences.
  assert (In k (filter (eqb k) l)) by (apply filter_In; split; [assumption | apply eqb_refl]).
  destruct (filter (eqb k) l); [contradiction | simpl; lia].
Qed.

Lemma distinct_perm (l l' : list A) :
  Permutation l l' -> distinct eqb l -> distinct eqb l'.
Proof.
  induction 1 as [| x l l' Hp IH | x y l | l l' l'' _ IH1 _ IH2]; simpl.
  - trivial.
  - intros [Hx Hd]. split; [|now apply IH].
    intros k' Hin. apply Hx. apply Permutation_sym in Hp.
    now apply (Permutation_in _ Hp).
  - intros [Hx [Hy Hd]]. repeat split; try assumption.
    + intros k' [<- | Hin]; [|now apply Hy].
      rewrite eqb_sym. apply Hx. now left.
    + intros k' Hin. apply Hx. now right.
  - auto.
Qed.

Lemma distinct_firstn (n : nat) (l : list A) :
  distinct eqb l -> distinct eqb (firstn n l).
Proof.
  revert n. induction l as [|k l IH]; intros [|n]; simpl; trivial.
  intros [Hk Hd]. split; [|now apply IH].
  intros k' Hin. apply Hk. now apply (in_firstn n l).
Qed.

Lemma insert_desc_perm (x : A * nat) (l : list (A * nat)) :
  Permutation (x :: l) (insert_desc x l).
Proof.
  induction l as [|y l IH]; simpl; [reflexivity|].
  destruct (snd x <? snd y)%nat; [|reflexivity].
  rewrite perm_swap. now apply perm_skip.
Qed.

Lemma sort_desc_perm (l : list (A * nat)) : Permutation l (sort_desc l).
Proof.
  induction l as [|x l IH]; simpl; [constructor|].
  rewrite <- insert_desc_perm. now apply perm_skip.
Qed.

Lemma insert_desc_sorted (x : A * nat) (l : list (A * nat)) :
  StronglySorted ge_count l -> StronglySorted ge_count (insert_desc x l).
Proof.
  induction 1 as [|y l Hs IH Hy]; simpl.
  - repeat constructor.
  - destruct (snd x <? snd y)%nat eqn:E.
    + apply Nat.ltb_lt in E. constructor; [assumption|].
      apply (Permutation_Forall (insert_desc_perm x l)).
      constructor; [unfold ge_count; lia | assumption].
    + apply Nat.ltb_ge in E. constructor; [now constructor|].
      constructor; [exact E|].
      eapply Forall_impl; [|exact Hy]. unfold ge_count. intros a Ha. lia.
Qed.

Lemma sort_desc_sorted (l : list (A * nat)) : StronglySorted ge_count (sort_desc l).
Proof.
  induction l as [|x l IH]; simpl; [constructor | now apply insert_desc_sorted].
Qed.

Lemma sorted_firstn (n : nat) (l : list (A * nat)) :
  StronglySorted ge_count l -> StronglySorted ge_count (firstn n l).
Proof.
  revert n. induction l as [|x l IH]; intros [|n] H; simpl; try constructor.
  - apply IH. now inversion H.
  - inversion H as [|? ? _ Hx]; subst. rewrite Forall_forall in *.
    intros y Hy. apply Hx. now apply (in_firstn n l).
Qed.

Lemma sorted_descending (l : list (A * nat)) :
  StronglySorted ge_count l -> descending l.
Proof.
  induction 1 as [|x l Hs IH Hx]; intros i j e1 e2 Hij H1 H2.
  - destruct i; discriminate.
  - destruct j as [|j]; [lia|]. simpl in H2. destruct i as [|i]; simpl in H1.
    + injection H1 as <-. rewrite Forall_forall in Hx.
      apply Hx. now apply nth_error_In with j.
    + apply (IH i j); [lia | assumption | assumption].
Qed.

(** Behind the first [n] entries of a sorted list no count is higher. *)
Lemma sorted_firstn_top (n : nat) (l : list (A * nat)) (e : A * nat) :
  StronglySorted ge_count l -> In e l ->
  In e (firstn n l)
  \/ (List.length (firstn n l) = n /\ forall e', In e' (firstn n l) -> ge_count e' e).
Proof.
  revert n. induction l as [|x l IH]; intros n Hs Hin; [contradiction|].
  destruct n as [|n]; [right; split; [reflexivity | contradiction]|].
  inversion Hs as [|? ? Hs' Hx]; subst. simpl.
  destruct Hin as [-> | Hin]; [left; now left|].
  destruct (IH n Hs' Hin) as [H | [Hlen Hall]]; [left; now right|].
  right. split; [now rewrite Hlen|].
  intros e' [<- | He']; [|now apply Hall].
  rewrite Forall_forall in Hx. now apply Hx.
Qed.

End CountingFacts.


(** ** Counting the values of a column *)

Lemma cell_eqb_refl (a : cell) : cell_eqb a a = true.
Proof.
  destruct a; simpl; [apply Qeq_bool_iff, Qeq_refl | apply String.eqb_refl | reflexivity].
Qed.

Lemma cell_eqb_sym (a b : cell) : cell_eqb a b = cell_eqb b a.
Proof.
  destruct a, b; simpl; try reflexivity.
  - destruct (Qeq_bool q q0) eqn:E1, (Qeq_bool q0 q) eqn:E2; try reflexivity.
    + apply Qeq_bool_iff, Qeq_sym, Qeq_bool_iff in E1. congruence.
    + apply Qeq_bool_iff, Qeq_sym, Qeq_bool_iff in E2. congruence.
  - apply String.eqb_sym.
Qed.

Lemma cell_eqb_trans (a b c : cell) :
  cell_eqb a b = true -> cell_eqb b c = true -> cell_eqb a c = true.
Proof.
  destruct a, b, c; simpl; try discriminate; try reflexivity.
  - rewrite !Qeq_bool_iff. apply Qeq_trans.
  - rewrite !String.eqb_eq. congruence.
Qed.

Lemma cell_eqb_not_nan (g x : cell) :
  is_nan g = false -> cell_eqb g x = true -> is_nan x = false.
Proof. destruct g, x; simpl; congruence. Qed.

Lemma occurrences_dropna (g : cell) (col : list cell) :
  is_nan g = false ->
  occurrences cell_eqb g (dropna col) = occurrences cell_eqb g col.
Proof.
  intros Hg. unfold occurrences, dropna. f_equal.
  induction col as [|x col IH]; simpl; [reflexivity|].
  destruct (cell_eqb g x) eqn:E.
  - rewrite (cell_eqb_not_nan g x Hg E). simpl. now rewrite E, IH.
  - destruct (is_nan x); simpl; [assumption | now rewrite E, IH].
Qed.

Lemma value_counts_entry (col : list cell) (g : cell) (n : nat) :
  In (g, n) (value_counts col) ->
  is_nan g = false /\ n = occurrences cell_eqb g col /\ (1 <= n)%nat.
Proof.
  unfold value_counts. intros H.
  apply (Permutation_in _ (Permutation_sym (sort_desc_perm _))) in H.
  destruct (count_keys_entry cell_eqb cell_eqb_refl cell_eqb_sym cell_eqb_trans
              _ _ _ H) as (Hn & Hpos & Hin).
  assert (Hg : is_nan g = false).
  { unfold dropna in Hin. apply filter_In in Hin. now apply negb_true_iff. }
  repeat split; try assumption. now rewrite <- occurrences_dropna.
Qed.

Lemma value_counts_distinct (col : list cell) :
  distinct cell_eqb (map fst (value_counts col)).
Proof.
  unfold value_counts.
  apply (distinct_perm cell_eqb cell_eqb_sym
           (map fst (count_keys cell_eqb (dropna col)))).
  - apply Permutation_map, sort_desc_perm.
  - apply (count_keys_keys_of cell_eqb cell_eqb_refl).
Qed.

Lemma value_counts_sorted (col : list cell) :
  StronglySorted ge_count (value_counts col).
Proof. apply sort_desc_sorted. Qed.

Lemma value_counts_covers (col : list cell) (x : cell) :
  In x col -> is_nan x = false ->
  exists e, In e (value_counts col) /\ cell_eqb (fst e) x = true.
Proof.
  intros Hin Hx.
  destruct (count_keys_keys_of cell_eqb cell_eqb_refl (dropna col)) as (_ & _ & Hcov).
  destruct (Hcov x) as (k & Hk & Ek).
  { unfold dropna. apply filter_In. split; [assumption | now rewrite Hx]. }
  apply in_map_iff in Hk. destruct Hk as (e & <- & He).
  exists e. split; [|assumption].
  unfold value_counts. now apply (Permutation_in _ (sort_desc_perm _)).
Qed.

(** ** Concatenating frames *)

Lemma add_columns_In (c : string) (new acc : list string) :
  In c (add_columns acc new) <-> In c acc \/ In c new.
Proof.
  unfold add_columns. revert acc.
  induction new as [|x new IH]; intros acc; simpl; [tauto|].
  rewrite IH. destruct (str_in x acc) eqn:E.
  - apply str_in_iff in E. split; [tauto|].
    intros [H | [<- | H]]; tauto.
  - rewrite in_app_iff. simpl. tauto.
Qed.

Lemma fold_add_columns_In (c : string) (frames : list DataFrame) (acc : list string) :
  In c (fold_left (fun acc df => add_columns acc (columns df)) frames acc)
  <-> In c acc \/ exists df, In df frames /\ In c (columns df).
Proof.
  revert acc. induction frames as [|df frames IH]; intros acc; simpl.
  - split; [tauto | intros [H | (df & [] & _)]; assumption].
  - rewrite IH, add_columns_In. split.
    + intros [[H | H] | (df' & H1 & H2)]; [tauto | right; exists df; tauto |].
      right. exists df'. tauto.
    + intros [H | (df' & [<- | H1] & H2)]; [tauto | tauto |].
      right. exists df'. tauto.
Qed.

Lemma union_columns_has (c : string) (frames : list DataFrame) :
  In c (union_columns frames) <-> has_column c frames = true.
Proof.
  unfold union_columns, has_column. rewrite fold_add_columns_In, existsb_exists.
  split.
  - intros [[] | (df & H1 & H2)]. exists df. split; [assumption | now apply str_in_iff].
  - intros (df & H1 & H2). right. exists df. split; [assumption | now apply str_in_iff].
Qed.

Lemma nth_reindex (f : string -> cell) (c : string) (to : list string) (j : nat) :
  index_of c to = Some j -> nth j (map f to) CNaN = f c.
Proof.
  revert j. induction to as [|c' to IH]; simpl; intros j; [discriminate|].
  destruct (String.eqb c' c) eqn:E.
  - intros [= <-]. apply String.eqb_eq in E. now subst.
  - destruct (index_of c to) as [i|]; [|discriminate].
    intros [= <-]. now apply IH.
Qed.

Lemma column_values_flat_map {X} (j : nat) (f : X -> list (list cell)) (l : list X) :
  column_values j (flat_map f l) = flat_map (fun x => column_values j (f x)) l.
Proof.
  unfold column_values. induction l as [|x l IH]; simpl; [reflexivity|].
  now rewrite map_app, IH.
Qed.

(** The column [name] of the concatenation holds the values of that
    column over all rows; without such a column in any frame, asking for
    it raises [KeyError]. *)
Lemma pd_concat_column (name : string) (frames : list DataFrame) :
  frames <> [] ->
  exists combined,
    pd_concat frames = inr combined
    /\ getitem combined name
       = if has_column name frames then inr (column_over name frames)
         else inl (KeyError name).
Proof.
  intros Hne. destruct frames as [|df0 rest]; [congruence|].
  eexists. split; [reflexivity|].
  remember (df0 :: rest) as frames eqn:Ef. clear Hne.
  unfold getitem. simpl columns. simpl rows.
  destruct (has_column name frames) eqn:Hc.
  - apply union_columns_has in Hc.
    destruct (index_of_In _ _ Hc) as [j Hj]. rewrite Hj. f_equal.
    rewrite column_values_flat_map. unfold column_over.
    apply flat_map_ext. intros df. unfold column_values, getitem.
    rewrite map_map.
    destruct (index_of name (columns df)) as [i|] eqn:Ei.
    + apply map_ext. intros r. unfold reindex_row.
      rewrite (nth_reindex _ name _ j Hj). now rewrite Ei.
    + apply map_ext. intros r. unfold reindex_row.
      rewrite (nth_reindex _ name _ j Hj). now rewrite Ei.
  - destruct (index_of name (union_columns frames)) as [j|] eqn:Hj; [|reflexivity].
    apply index_of_Some_In, union_columns_has in Hj. congruence.
Qed.


(** ** The summaries *)

Lemma has_column_nonempty (name : string) (frames : list DataFrame) :
  has_column name frames = true -> frames <> [].
Proof. intros H ->. discriminate. Qed.

(** What the statements of [save_summary_to_excel] under the open writer
    do, case by case: the sheets they write, and when one of them raises.
    Leaving the writer is not part of it. *)
Lemma save_summary_to_excel_run (cnv_segment_means : list cell)
  (snp_data_by_sample : list (string * list DataFrame)) (w : World) :
  let tables := flat_map snd snp_data_by_sample in
  let out := OverallAnalysis.save_summary_to_excel cnv_segment_means
               snp_data_by_sample w in
  workbook (snd out)
  = cnv_sheet cnv_segment_means ++ mutation_sheets snp_data_by_sample
  /\ (fst out = inr tt <->
      snp_data_by_sample = []
      \/ (has_column "Hugo_Symbol" tables = true
          /\ has_column "Variant_Classification" tables = true)).
Proof.
  intros tables out. subst out.
  unfold OverallAnalysis.save_summary_to_excel, mutation_sheets, cnv_sheet.
  fold tables.
  set (w0 := mkWorld (console w) (failed_files_log w) []).
  set (w1 := snd ((if nonempty cnv_segment_means
                   then to_excel (StatsFrame "CNV Segment Mean Statistics"
                                    (describe cnv_segment_means)) "CNV_Segment_Stats"
                   else ret tt) w0)).
  assert (H1 : (if nonempty cnv_segment_means
                then to_excel (StatsFrame "CNV Segment Mean Statistics"
                                 (describe cnv_segment_means)) "CNV_Segment_Stats"
                else ret tt) w0 = (inr tt, w1)).
  { subst w1. destruct (nonempty cnv_segment_means); reflexivity. }
  assert (Hw1 : workbook w1
                = if nonempty cnv_segment_means
                  then [("CNV_Segment_Stats",
                         StatsFrame "CNV Segment Mean Statistics"
                           (describe cnv_segment_means))]
                  else []).
  { subst w1. destruct (nonempty cnv_segment_means); reflexivity. }
  unfold bind, excel_writer. fold w0. rewrite H1.
  destruct snp_data_by_sample as [|entry rest] eqn:Emap.
  - simpl. rewrite Hw1. split; [now rewrite app_nil_r|].
    split; [intros _; now left | reflexivity].
  - cbn [nonempty andb]. rewrite <- Emap in *. unfold lift.
    destruct tables as [|df0 more] eqn:Et.
    + simpl. rewrite Hw1, app_nil_r. split; [reflexivity|].
      split; [discriminate|]. intros [H | [H _]]; [congruence | discriminate].
    + rewrite <- Et in *.
      assert (Hne : tables <> []) by (rewrite Et; discriminate).
      destruct (pd_concat_column "Hugo_Symbol" tables Hne) as (combined & Hc & Hg).
      destruct (pd_concat_column "Variant_Classification" tables Hne)
        as (combined' & Hc' & Hv).
      assert (combined' = combined) by congruence. subst combined'.
      rewrite Hc, Hg.
      destruct (has_column "Hugo_Symbol" tables).
      * unfold to_excel at 1. cbn [fst snd]. rewrite Hv.
        destruct (has_column "Variant_Classification" tables).
        -- simpl. rewrite Hw1, <- !app_assoc. split; [reflexivity|].
           split; [auto | reflexivity].
        -- simpl. rewrite Hw1. split; [reflexivity|].
           split; [discriminate|]. intros [H | [_ H]]; [congruence | discriminate].
      * simpl. rewrite Hw1, app_nil_r. split; [reflexivity|].
        split; [discriminate|]. intros [H | [H _]]; [congruence | discriminate].
Qed.

(** C1, as the code has it. Under the open writer [save_summary_to_excel]
    writes no sheet but "CNV_Segment_Stats", "Top_Mutated_Genes" and
    "Mutation_Classification", in this order: the first exactly when there
    are segment-mean values; the second exactly when the mapping of
    mutation tables is not empty and its tables have a column
    "Hugo_Symbol"; the third exactly when, moreover, they have a column
    "Variant_Classification". So the sheets written are the three exactly
    when there are segment-mean values, the mapping is not empty and both
    columns exist. The statement is about the sheets handed to the writer;
    it says nothing on whether the function returns. *)
Theorem save_summary_to_excel_sheets (cnv_segment_means : list cell)
  (snp_data_by_sample : list (string * list DataFrame)) (w : World) :
  let tables := flat_map snd snp_data_by_sample in
  let out := OverallAnalysis.save_summary_to_excel cnv_segment_means
               snp_data_by_sample w in
  map fst (workbook (snd out))
  = (if nonempty cnv_segment_means then ["CNV_Segment_Stats"] else [])
    ++ (if nonempty snp_data_by_sample && has_column "Hugo_Symbol" tables
        then "Top_Mutated_Genes"
             :: (if has_column "Variant_Classification" tables
                 then ["Mutation_Classification"] else [])
        else [])
  /\ (map fst (workbook (snd out))
      = ["CNV_Segment_Stats"; "Top_Mutated_Genes"; "Mutation_Classification"]
      <-> cnv_segment_means <> [] /\ snp_data_by_sample <> []
          /\ has_column "Hugo_Symbol" tables = true
          /\ has_column "Variant_Classification" tables = true).
Proof.
  intros tables out.
  destruct (save_summary_to_excel_run cnv_segment_means snp_data_by_sample w)
    as [Hbook _].
  fold tables out in Hbook.
  assert (Hnames :
            map fst (workbook (snd out))
            = (if nonempty cnv_segment_means then ["CNV_Segment_Stats"] else [])
              ++ (if nonempty snp_data_by_sample && has_column "Hugo_Symbol" tables
                  then "Top_Mutated_Genes"
                       :: (if has_column "Variant_Classification" tables
                           then ["Mutation_Classification"] else [])
                  else [])).
  { rewrite Hbook, !map_app. f_equal.
    - unfold cnv_sheet. now destruct (nonempty cnv_segment_means).
    - unfold mutation_sheets. fold tables.
      destruct (nonempty snp_data_by_sample && has_column "Hugo_Symbol" tables);
        [|reflexivity].
      now destruct (has_column "Variant_Classification" tables). }
  split; [exact Hnames|]. rewrite Hnames. clear Hnames Hbook out. split.
  - intros H.
    destruct cnv_segment_means as [|x xs]; [|split; [discriminate|]].
    + simpl in H.
      destruct (nonempty snp_data_by_sample && has_column "Hugo_Symbol" tables);
        [|discriminate].
      destruct (has_column "Variant_Classification" tables); discriminate.
    + destruct snp_data_by_sample as [|entry rest]; [discriminate|].
      split; [discriminate|]. cbn [nonempty andb app] in H.
      destruct (has_column "Hugo_Symbol" tables); [|discriminate].
      destruct (has_column "Variant_Classification" tables); [|discriminate].
      split; reflexivity.
  - intros (Hc & Hs & Hg & Hv). rewrite Hg, Hv.
    destruct cnv_segment_means; [congruence|].
    destruct snp_data_by_sample; [congruence|]. reflexivity.
Qed.

(** Segment means and the mutation tables of a sample: three sheets. *)
Lemma save_summary_to_excel_sheets_witness :
  map fst (workbook (snd (OverallAnalysis.save_summary_to_excel
                            [CNum 1; CNum 2] [("S1", Fixture.tp53_tables)]
                            Fixture.fresh)))
  = ["CNV_Segment_Stats"; "Top_Mutated_Genes"; "Mutation_Classification"].
Proof.
  apply (proj2 (proj2 (save_summary_to_excel_sheets
                         [CNum 1; CNum 2] [("S1", Fixture.tp53_tables)]
                         Fixture.fresh))).
  split; [discriminate|]. split; [discriminate|]. split; reflexivity.
Defined.

(** Without segment-mean values the workbook has two sheets, not three. *)
Lemma save_summary_to_excel_two_sheets :
  map fst (workbook (snd (OverallAnalysis.save_summary_to_excel
                            [] [("S1", Fixture.tp53_tables)] Fixture.fresh)))
  = ["Top_Mutated_Genes"; "Mutation_Classification"]
  /\ map fst (workbook (snd (OverallAnalysis.save_summary_to_excel
                               [] [("S1", Fixture.tp53_tables)] Fixture.fresh)))
     <> ["CNV_Segment_Stats"; "Top_Mutated_Genes"; "Mutation_Classification"].
Proof.
  split; [vm_compute; reflexivity | vm_compute; discriminate].
Qed.

(** With segment-mean values and an empty mapping it has one sheet. *)
Example save_summary_to_excel_one_sheet :
  map fst (workbook (snd (OverallAnalysis.save_summary_to_excel
                            [CNum 1] [] Fixture.fresh)))
  = ["CNV_Segment_Stats"].
Proof. vm_compute. reflexivity. Qed.

Lemma dict_get_set_same {V} (k : string) (v : V) (d : list (string * V)) :
  dict_get k (dict_set k v d) = Some v.
Proof.
  induction d as [|[k' v'] d IH]; simpl.
  - now rewrite String.eqb_refl.
  - destruct (String.eqb k' k) eqn:E; simpl; rewrite E; [reflexivity | assumption].
Qed.

Lemma dict_get_set_other {V} (k k0 : string) (v : V) (d : list (string * V)) :
  k0 <> k -> dict_get k (dict_set k0 v d) = dict_get k d.
Proof.
  intros Hne. induction d as [|[k' v'] d IH]; simpl.
  - apply String.eqb_neq in Hne. now rewrite Hne.
  - destruct (String.eqb k' k0) eqn:E; simpl.
    + apply String.eqb_eq in E. subst k'.
      apply String.eqb_neq in Hne. now rewrite Hne.
    + now rewrite IH.
Qed.

(** The statistics of a stage stay under their key whatever is added for
    the mutation tables. *)
Lemma create_stage_summary_stats (stage : string) (sd : Excel3CNV.StageData)
  (summary : list (string * Frame)) :
  Excel3CNV.cnv_segment_means sd <> [] ->
  Excel3CNV.create_stage_summary stage sd = inr summary ->
  dict_get "CNV_Segment_Stats" summary
  = Some (StatsFrame "Value" (describe (Excel3CNV.cnv_segment_means sd))).
Proof.
  intros Hne. unfold Excel3CNV.create_stage_summary.
  destruct (Excel3CNV.cnv_segment_means sd) as [|v vs] eqn:Ev; [congruence|].
  cbn [nonempty].
  destruct (nonempty (Excel3CNV.snp_data sd)).
  - destruct (pd_concat _) as [e|combined]; [discriminate|].
    destruct (getitem combined "Hugo_Symbol") as [e|genes]; [discriminate|].
    destruct (getitem combined "Variant_Classification") as [e|classes];
      [discriminate|].
    intros [= <-]. reflexivity.
  - intros [= <-]. reflexivity.
Qed.

(** C9. For the segment means 1, 2, 3, 4, 5 the statistics read count 5,
    mean 3, minimum 1, maximum 5, median 3; [create_stage_summary] gives
    them under "CNV_Segment_Stats": alone when the stage has no mutation
    table, and in every summary it returns. *)
Theorem describe_one_to_five :
  let values := [CNum 1; CNum 2; CNum 3; CNum 4; CNum 5] in
  exists st,
    describe values = NumericDescribed st
    /\ d_count st = 5%nat
    /\ d_mean st = Some 3%Q
    /\ d_min st = Some 1%Q
    /\ d_max st = Some 5%Q
    /\ d_q50 st = Some 3%Q
    /\ (forall stage,
          Excel3CNV.create_stage_summary stage (Excel3CNV.mkStageData values [])
          = inr [("CNV_Segment_Stats", StatsFrame "Value" (NumericDescribed st))])
    /\ (forall stage snp_data summary,
          Excel3CNV.create_stage_summary stage
            (Excel3CNV.mkStageData values snp_data) = inr summary ->
          dict_get "CNV_Segment_Stats" summary
          = Some (StatsFrame "Value" (NumericDescribed st))).
Proof.
  intros values.
  exists (mkNumericStats 5 (Some 3%Q) (Some (5 # 2)%Q) (Some 1%Q)
                         (Some 2%Q) (Some 3%Q) (Some 4%Q) (Some 5%Q)).
  assert (Hd : describe values
               = NumericDescribed
                   (mkNumericStats 5 (Some 3%Q) (Some (5 # 2)%Q) (Some 1%Q)
                                   (Some 2%Q) (Some 3%Q) (Some 4%Q) (Some 5%Q)))
    by (vm_compute; reflexivity).
  split; [exact Hd|]. do 5 (split; [reflexivity|]). split.
  - intros stage. unfold Excel3CNV.create_stage_summary.
    cbn [nonempty Excel3CNV.cnv_segment_means Excel3CNV.snp_data dict_set].
    fold values. now rewrite Hd.
  - intros stage snp_data summary H.
    assert (Hne : Excel3CNV.cnv_segment_means
                    (Excel3CNV.mkStageData values snp_data) <> [])
      by (unfold values; simpl; discriminate).
    rewrite (create_stage_summary_stats _ _ _ Hne H).
    cbn [Excel3CNV.cnv_segment_means]. fold values. now rewrite Hd.
Qed.


Lemma occurrences_eqb (a b : cell) (l : list cell) :
  cell_eqb a b = true ->
  occurrences cell_eqb a l = occurrences cell_eqb b l.
Proof.
  intros H. unfold occurrences. f_equal. apply filter_ext. intros x.
  destruct (cell_eqb a x) eqn:Ea, (cell_eqb b x) eqn:Eb; try reflexivity.
  - rewrite <- Eb. symmetry. apply (cell_eqb_trans b a x); [|assumption].
    now rewrite cell_eqb_sym.
  - rewrite <- Ea. apply (cell_eqb_trans a b x); assumption.
Qed.

Lemma create_stage_summary_top_genes (stage : string) (cnv : list cell)
  (tables : list DataFrame) :
  has_column "Hugo_Symbol" tables = true ->
  has_column "Variant_Classification" tables = true ->
  exists summary,
    Excel3CNV.create_stage_summary stage (Excel3CNV.mkStageData cnv tables)
    = inr summary
    /\ dict_get "Top_Mutated_Genes" summary
       = Some (CountsFrame "Mutation_Count" (top_genes_of tables)).
Proof.
  intros Hg Hv. pose proof (has_column_nonempty _ _ Hg) as Hne.
  destruct (pd_concat_column "Hugo_Symbol" tables Hne) as (combined & Hc & Hgi).
  destruct (pd_concat_column "Variant_Classification" tables Hne)
    as (combined' & Hc' & Hvi).
  assert (combined' = combined) by congruence. subst combined'.
  rewrite Hg in Hgi. rewrite Hv in Hvi.
  unfold Excel3CNV.create_stage_summary.
  cbn [Excel3CNV.cnv_segment_means Excel3CNV.snp_data].
  assert (Hn : nonempty tables = true) by (destruct tables; [congruence | reflexivity]).
  rewrite Hn, Hc, Hgi, Hvi.
  eexists. split; [reflexivity|].
  destruct (nonempty cnv); reflexivity.
Qed.

(** C8. For a non-empty collection of mutation tables with a column
    "Hugo_Symbol", both scripts give as "Top_Mutated_Genes" the first ten
    entries of the counts of the gene symbols of the concatenated rows.
    This table has at most ten entries; its entries are different gene
    symbols, each with the number of rows that carry it; it is in
    descending order of the counts, so that of two entries the one with the
    strictly higher count comes first; no gene left out has a higher count
    than a gene of the table; and a gene with more rows than every other
    gene is its first entry, as TP53 with 5 rows before KRAS and EGFR with
    3 each. *)
Theorem top_mutated_genes (tables : list DataFrame) :
  tables <> [] ->
  has_column "Hugo_Symbol" tables = true ->
  let genes := column_over "Hugo_Symbol" tables in
  let top := head 10 (value_counts genes) in
  (exists combined,
      pd_concat tables = inr combined
      /\ getitem combined "Hugo_Symbol" = inr genes)
  /\ (forall stage cnv,
        has_column "Variant_Classification" tables = true ->
        exists summary,
          Excel3CNV.create_stage_summary stage (Excel3CNV.mkStageData cnv tables)
          = inr summary
          /\ dict_get "Top_Mutated_Genes" summary
             = Some (CountsFrame "Mutation_Count" top))
  /\ (forall cnv snp_data_by_sample w,
        flat_map snd snp_data_by_sample = tables ->
        In ("Top_Mutated_Genes", CountsFrame "Mutation_Count" top)
           (workbook (snd (OverallAnalysis.save_summary_to_excel
                             cnv snp_data_by_sample w))))
  /\ (List.length top <= 10)%nat
  /\ (forall g n, In (g, n) top ->
        is_nan g = false /\ n = occurrences cell_eqb g genes /\ (1 <= n)%nat)
  /\ distinct cell_eqb (map fst top)
  /\ descending top
  /\ (forall i j e1 e2,
        nth_error top i = Some e1 -> nth_error top j = Some e2 ->
        (snd e2 < snd e1)%nat -> (i < j)%nat)
  /\ (forall g, In g genes -> is_nan g = false ->
        (exists e, In e top /\ cell_eqb (fst e) g = true)
        \/ (List.length top = 10%nat
            /\ forall e, In e top -> (occurrences cell_eqb g genes <= snd e)%nat))
  /\ (forall g, In g genes -> is_nan g = false ->
        (forall g', In g' genes -> is_nan g' = false -> cell_eqb g g' = false ->
                    (occurrences cell_eqb g' genes < occurrences cell_eqb g genes)%nat) ->
        exists g0, List.hd_error top = Some (g0, occurrences cell_eqb g genes)
                   /\ cell_eqb g0 g = true).
Proof.
  intros Hne Hg genes top.
  pose proof (value_counts_sorted genes) as Hsorted.
  assert (Hdesc : descending top).
  { apply sorted_descending, sorted_firstn, Hsorted. }
  assert (Hentry : forall g n, In (g, n) top ->
            is_nan g = false /\ n = occurrences cell_eqb g genes /\ (1 <= n)%nat).
  { intros g n Hin. apply value_counts_entry. now apply (in_firstn 10). }
  split; [|split; [|split; [|split; [|split; [|split; [|split; [|split; [|split]]]]]]]].
  - destruct (pd_concat_column "Hugo_Symbol" tables Hne) as (combined & Hc & Hgi).
    rewrite Hg in Hgi. now exists combined.
  - intros stage cnv Hv. now apply create_stage_summary_top_genes.
  - intros cnv by_sample w Ht.
    destruct (save_summary_to_excel_run cnv by_sample w) as [Hbook _].
    rewrite Hbook. apply in_or_app. right.
    unfold mutation_sheets. rewrite Ht, Hg.
    destruct by_sample; [simpl in Ht; congruence|]. now left.
  - apply firstn_le_length.
  - exact Hentry.
  - unfold top, head. rewrite <- firstn_map.
    apply distinct_firstn, value_counts_distinct.
  - exact Hdesc.
  - intros i j e1 e2 H1 H2 Hlt.
    destruct (Nat.lt_trichotomy i j) as [H | [-> | H]]; [assumption | |].
    + assert (e1 = e2) by congruence. subst. lia.
    + pose proof (Hdesc j i e2 e1 H H2 H1). lia.
  - intros g Hin Hnan.
    destruct (value_counts_covers genes g Hin Hnan) as (e & He & Ee).
    destruct (sorted_firstn_top 10 _ e Hsorted He) as [H | [Hlen Hall]].
    + left. now exists e.
    + right. split; [exact Hlen|]. intros e' He'.
      specialize (Hall e' He'). unfold ge_count in Hall.
      destruct e as [k n]. simpl in *.
      destruct (value_counts_entry genes k n He) as (_ & -> & _).
      now rewrite <- (occurrences_eqb k g genes Ee).
  - intros g Hin Hnan Hmax.
    destruct (value_counts_covers genes g Hin Hnan) as ([k n] & He & Ee).
    simpl in Ee.
    destruct (value_counts_entry genes k n He) as (_ & Hn & _).
    rewrite (occurrences_eqb k g genes Ee) in Hn.
    unfold top, head.
    destruct (value_counts genes) as [|[g0 n0] rest] eqn:Evc; [contradiction|].
    simpl. exists g0.
    assert (H0 : In (g0, n0) (value_counts genes)) by (rewrite Evc; now left).
    destruct (value_counts_entry genes g0 n0 H0) as (Hnan0 & Hn0 & _).
    assert (Hle : (n <= n0)%nat).
    { destruct He as [[= -> ->] | He]; [lia|].
      inversion Hsorted as [|? ? _ Hall]; subst.
      rewrite Forall_forall in Hall. exact (Hall _ He). }
    assert (Hin0 : In g0 genes).
    { destruct (count_keys_keys_of cell_eqb cell_eqb_refl (dropna genes))
        as (_ & Hsub & _).
      assert (In g0 (dropna genes)).
      { apply Hsub. change g0 with (fst (g0, n0)). apply in_map.
        apply (Permutation_in _ (Permutation_sym (sort_desc_perm _))). exact H0. }
      unfold dropna in H. now apply filter_In in H. }
    destruct (cell_eqb g g0) eqn:E.
    + rewrite cell_eqb_sym in E. split; [|exact E].
      rewrite Hn0. now rewrite (occurrences_eqb g0 g genes E).
    + specialize (Hmax g0 Hin0 Hnan0 E). lia.
Qed.

(** The mutation rows of the fixtures: at most ten entries. *)
Lemma top_mutated_genes_witness :
  (List.length (head 10 (value_counts
                           (column_over "Hugo_Symbol" Fixture.tp53_tables))) <= 10)%nat.
Proof.
  refine (proj1 (proj2 (proj2 (proj2 (top_mutated_genes Fixture.tp53_tables _ eq_refl))))).
  discriminate.
Defined.

(** TP53 with five rows is the first of the genes; KRAS, seen before EGFR,
    is the second here. *)
Example top_two_of_tp53_tables :
  head 2 (value_counts (column_over "Hugo_Symbol" Fixture.tp53_tables))
  = [(CStr "TP53", 5%nat); (CStr "KRAS", 3%nat)]
  /\ Excel3CNV.create_stage_summary "I" (Excel3CNV.mkStageData [] Fixture.tp53_tables)
     = inr [("Top_Mutated_Genes",
             CountsFrame "Mutation_Count"
               [(CStr "TP53", 5%nat); (CStr "KRAS", 3%nat); (CStr "EGFR", 3%nat)]);
            ("Mutation_Classification",
             CountsFrame "Count" [(CStr "Missense_Mutation", 11%nat)])].
Proof. split; vm_compute; reflexivity. Qed.


(** ** The reader of the fixtures and blank lines

    [read_maf_file] joins lines that still end with their newline by one
    more newline, so that the parser sees a blank line after every line.
    A parser that skips blank lines, as pandas does by default and as the
    reader of the fixtures does, reads the same table from the joined lines
    as from the lines themselves. *)

Lemma split_on_line (l rest : string) :
  no_newline l ->
  Fixture.split_on newline (l ++ NL ++ rest) = l :: Fixture.split_on newline rest.
Proof.
  induction l as [|c l IH]; intros H.
  - reflexivity.
  - destruct H as [Hc Hl]. simpl.
    apply Ascii.eqb_neq in Hc. rewrite Hc.
    simpl in IH. now rewrite IH.
Qed.

Lemma string_join_cons (sep x : string) (y : string) (ys : list string) :
  String.concat sep (x :: y :: ys) = (x ++ sep ++ String.concat sep (y :: ys))%string.
Proof. reflexivity. Qed.

Lemma fixture_lines_of_joined (ls : list string) :
  lines_wf ls ->
  filter Fixture.not_blank (Fixture.split_on newline (join NL ls))
  = filter Fixture.not_blank (Fixture.split_on newline (String.concat "" ls)).
Proof.
  unfold join.
  induction 1 as [| c l H | l ls H Hls IH]; [reflexivity | reflexivity |].
  destruct ls as [|l' ls'].
  - reflexivity.
  - assert (E1 : String.concat NL ((l ++ NL)%string :: l' :: ls')
                 = (l ++ NL ++ "" ++ NL ++ String.concat NL (l' :: ls'))%string).
    { rewrite string_join_cons, string_app_assoc. reflexivity. }
    assert (E2 : String.concat "" ((l ++ NL)%string :: l' :: ls')
                 = (l ++ NL ++ String.concat "" (l' :: ls'))%string).
    { rewrite string_join_cons, string_app_assoc. reflexivity. }
    rewrite E1, E2.
    rewrite (split_on_line l _ H), (split_on_line "" _ I), (split_on_line l _ H).
    cbn [filter]. change (Fixture.not_blank "") with false. cbv iota.
    now rewrite IH.
Qed.

Lemma fixture_read_csv_joined (text : string) :
  Fixture.read_csv (join NL (filter not_comment (readlines text)))
  = Fixture.read_csv (remove_comment_lines text).
Proof.
  unfold Fixture.read_csv, remove_comment_lines.
  now rewrite fixture_lines_of_joined by apply lines_wf_filter, readlines_wf.
Qed.


(* ================================================================== *)
(** * Further properties of the two scripts *)

(** ** Sheet titles *)

(** X1. No sheet title of the per-stage exporter has more than 31
    characters: neither a title as formed from a stage and a table name,
    nor any title in the workbook the exporter leaves. *)
Theorem sheet_titles_fit (stage name timestamp : string)
  (stage_summaries : list (string * list (string * Frame))) (w : World) :
  (String.length (Excel3CNV.sheet_title stage name) <= 31)%nat
  /\ Forall (fun sheet => (String.length (fst sheet) <= 31)%nat)
            (workbook (snd (Excel3CNV.save_summaries_to_excel
                              timestamp stage_summaries w))).
Proof.
  assert (Hfit : forall s n, (String.length (Excel3CNV.sheet_title s n) <= 31)%nat).
  { intros s n. unfold Excel3CNV.sheet_title.
    destruct (31 <? String.length (s ++ "_" ++ n))%nat eqn:E.
    - apply Nat.ltb_lt in E.
      rewrite length_append, length_slice_to by lia. simpl. lia.
    - now apply Nat.ltb_ge in E. }
  split; [apply Hfit|].
  unfold Excel3CNV.save_summaries_to_excel, bind, excel_writer.
  rewrite save_stages_write. simpl.
  apply Forall_forall. intros [title df] Hin.
  apply in_flat_map in Hin. destruct Hin as ([s l] & _ & Hin).
  unfold titled in Hin. apply in_map_iff in Hin.
  destruct Hin as ([n df'] & [= <- _] & _). apply Hfit.
Qed.

Lemma slice_to_app (n : nat) (a b : string) :
  (n <= String.length a)%nat -> slice_to n (a ++ b) = slice_to n a.
Proof.
  unfold slice_to. revert a.
  induction n as [|n IH]; intros a H.
  - destruct a; simpl; [now destruct b | reflexivity].
  - destruct a as [|c a]; simpl in *; [lia|].
    rewrite IH; [reflexivity | lia].
Qed.

(** X2. Titles are cut without regard to what is cut off: for a stage
    identifier of 27 characters or more, every table name of at least 4
    characters gets the same title, the first 28 characters of the stage
    and the underscore followed by "...". The three table names of a stage
    summary are such names, so their sheets get one title. *)
Theorem sheet_titles_collide (stage name1 name2 : string) :
  (27 <= String.length stage)%nat ->
  (4 <= String.length name1)%nat ->
  (4 <= String.length name2)%nat ->
  Excel3CNV.sheet_title stage name1
  = (slice_to 28 (stage ++ "_") ++ "...")%string
  /\ Excel3CNV.sheet_title stage name1 = Excel3CNV.sheet_title stage name2.
Proof.
  assert (H : forall n, (27 <= String.length stage)%nat ->
                        (4 <= String.length n)%nat ->
                        Excel3CNV.sheet_title stage n
                        = (slice_to 28 (stage ++ "_") ++ "...")%string).
  { intros n Hs Hn. unfold Excel3CNV.sheet_title.
    assert (E : (31 <? String.length (stage ++ "_" ++ n))%nat = true).
    { apply Nat.ltb_lt. rewrite !length_append. simpl. lia. }
    rewrite E.
    replace (stage ++ "_" ++ n)%string with ((stage ++ "_") ++ n)%string
      by apply string_app_assoc.
    rewrite slice_to_app; [reflexivity|].
    rewrite length_append. simpl. lia. }
  intros Hs H1 H2. split; [now apply H|].
  now rewrite (H name1), (H name2).
Qed.

(** A stage identifier of 27 characters: the statistics and the top genes
    end up under one title. *)
Lemma sheet_titles_collide_witness :
  Excel3CNV.sheet_title "Stage_IIIA_primary_resected" "CNV_Segment_Stats"
  = "Stage_IIIA_primary_resected_..."%string
  /\ Excel3CNV.sheet_title "Stage_IIIA_primary_resected" "CNV_Segment_Stats"
     = Excel3CNV.sheet_title "Stage_IIIA_primary_resected" "Top_Mutated_Genes".
Proof.
  apply (sheet_titles_collide "Stage_IIIA_primary_resected"
           "CNV_Segment_Stats" "Top_Mutated_Genes"); simpl; lia.
Defined.

(** ** The summary of a stage *)

Lemma create_stage_summary_eq (stage : string) (sd : Excel3CNV.StageData) :
  Excel3CNV.create_stage_summary stage sd
  = if nonempty (Excel3CNV.snp_data sd) then
      if has_column "Hugo_Symbol" (Excel3CNV.snp_data sd) then
        if has_column "Variant_Classification" (Excel3CNV.snp_data sd)
        then inr (stats_entry (Excel3CNV.cnv_segment_means sd)
                  ++ mutation_entries (Excel3CNV.snp_data sd))
        else inl (KeyError "Variant_Classification")
      else inl (KeyError "Hugo_Symbol")
    else inr (stats_entry (Excel3CNV.cnv_segment_means sd)).
Proof.
  unfold Excel3CNV.create_stage_summary.
  set (cnv := Excel3CNV.cnv_segment_means sd).
  set (tables := Excel3CNV.snp_data sd).
  destruct (nonempty tables) eqn:En.
  - assert (Hne : tables <> []) by (intros E; rewrite E in En; discriminate).
    destruct (pd_concat_column "Hugo_Symbol" tables Hne) as (combined & Hc & Hg).
    destruct (pd_concat_column "Variant_Classification" tables Hne)
      as (combined' & Hc' & Hv).
    assert (combined' = combined) by congruence. subst combined'.
    rewrite Hc, Hg.
    destruct (has_column "Hugo_Symbol" tables); [|reflexivity].
    rewrite Hv.
    destruct (has_column "Variant_Classification" tables); [|reflexivity].
    unfold stats_entry, mutation_entries, top_genes_of.
    destruct (nonempty cnv); reflexivity.
  - unfold stats_entry. destruct (nonempty cnv); reflexivity.
Qed.

(** X3. [create_stage_summary] returns the statistics entry when there are
    segment means, followed by the two mutation entries when there are
    mutation tables. It raises only when there are mutation tables without
    a column it asks for: [KeyError] for "Hugo_Symbol" when no table has
    it, else for "Variant_Classification" when no table has that. Without
    mutation tables it never raises, and with neither values nor tables
    the summary is empty. *)
Theorem create_stage_summary_outcome (stage : string) (sd : Excel3CNV.StageData) :
  let cnv := Excel3CNV.cnv_segment_means sd in
  let tables := Excel3CNV.snp_data sd in
  Excel3CNV.create_stage_summary stage sd
  = (if nonempty tables then
       if has_column "Hugo_Symbol" tables then
         if has_column "Variant_Classification" tables
         then inr (stats_entry cnv ++ mutation_entries tables)
         else inl (KeyError "Variant_Classification")
       else inl (KeyError "Hugo_Symbol")
     else inr (stats_entry cnv))
  /\ (tables = [] ->
      Excel3CNV.create_stage_summary stage sd = inr (stats_entry cnv)
      /\ (cnv = [] -> Excel3CNV.create_stage_summary stage sd = inr []))
  /\ (forall e,
        Excel3CNV.create_stage_summary stage sd = inl e ->
        tables <> []
        /\ (e = KeyError "Hugo_Symbol" \/ e = KeyError "Variant_Classification")).
Proof.
  intros cnv tables.
  pose proof (create_stage_summary_eq stage sd) as E. fold cnv tables in E.
  split; [exact E|]. split.
  - intros Ht. rewrite E, Ht. split; [reflexivity|].
    intros Hc. now rewrite Hc.
  - intros e. rewrite E.
    destruct tables as [|t ts]; [discriminate|]. cbn [nonempty].
    destruct (has_column "Hugo_Symbol" (t :: ts)).
    + destruct (has_column "Variant_Classification" (t :: ts)); [discriminate|].
      intros [= <-]. split; [discriminate | now right].
    + intros [= <-]. split; [discriminate | now left].
Qed.

(** A stage with a mutation table that has no gene symbols, and a stage
    with nothing at all. *)
Example create_stage_summary_cases :
  Excel3CNV.create_stage_summary "II"
    (Excel3CNV.mkStageData [CNum 1]
       [mkDataFrame ["Gene"; "Variant_Classification"] [[CStr "A"; CStr "Silent"]]])
  = inl (KeyError "Hugo_Symbol")
  /\ Excel3CNV.create_stage_summary "III" (Excel3CNV.mkStageData [] []) = inr [].
Proof. split; vm_compute; reflexivity. Qed.

Lemma tally_total {A} (eqb : A -> A -> bool) (x : A) (acc : list (A * nat)) :
  list_sum (map snd (tally eqb x acc)) = S (list_sum (map snd acc)).
Proof.
  induction acc as [|[k n] acc IH]; simpl; [reflexivity|].
  destruct (eqb k x); simpl; [reflexivity | rewrite IH; lia].
Qed.

Lemma count_keys_total {A} (eqb : A -> A -> bool) (l : list A) :
  list_sum (map snd (count_keys eqb l)) = List.length l.
Proof.
  unfold count_keys.
  assert (H : forall acc,
             list_sum (map snd (fold_left (fun acc k => tally eqb k acc) l acc))
             = (list_sum (map snd acc) + List.length l)%nat).
  { induction l as [|x l IH]; intros acc; simpl; [lia|].
    rewrite IH, tally_total. lia. }
  now rewrite H.
Qed.

Lemma list_sum_perm (l l' : list nat) :
  Permutation l l' -> list_sum l = list_sum l'.
Proof.
  induction 1; simpl; lia.
Qed.

Lemma value_counts_total (col : list cell) :
  list_sum (map snd (value_counts col)) = List.length (dropna col).
Proof.
  unfold value_counts. rewrite <- count_keys_total with (eqb := cell_eqb).
  apply list_sum_perm, Permutation_map, Permutation_sym, sort_desc_perm.
Qed.

(** X4. The table "Mutation_Classification" of a stage summary is not cut
    short: every classification that a row of the concatenated tables
    carries has an entry; the entries are different classifications, each
    with its number of rows, in descending order of the counts; and the
    counts add up to the number of rows that carry a classification. *)
Theorem mutation_classification_is_complete (stage : string)
  (cnv : list cell) (tables : list DataFrame) :
  has_column "Hugo_Symbol" tables = true ->
  has_column "Variant_Classification" tables = true ->
  let classes := column_over "Variant_Classification" tables in
  exists summary counts,
    Excel3CNV.create_stage_summary stage (Excel3CNV.mkStageData cnv tables)
    = inr summary
    /\ dict_get "Mutation_Classification" summary = Some (CountsFrame "Count" counts)
    /\ (forall c, In c classes -> is_nan c = false ->
          exists e, In e counts /\ cell_eqb (fst e) c = true)
    /\ (forall c n, In (c, n) counts ->
          is_nan c = false /\ n = occurrences cell_eqb c classes /\ (1 <= n)%nat)
    /\ distinct cell_eqb (map fst counts)
    /\ descending counts
    /\ list_sum (map snd counts) = List.length (dropna classes).
Proof.
  intros Hg Hv classes.
  exists (stats_entry cnv ++ mutation_entries tables), (value_counts classes).
  split; [|split; [|split; [|split; [|split; [|split]]]]].
  - rewrite create_stage_summary_eq. simpl Excel3CNV.snp_data.
    simpl Excel3CNV.cnv_segment_means. rewrite Hg, Hv.
    destruct tables; [discriminate | reflexivity].
  - unfold stats_entry, mutation_entries. destruct (nonempty cnv); reflexivity.
  - intros c Hin Hnan. now apply value_counts_covers.
  - intros c n Hin. now apply value_counts_entry.
  - apply value_counts_distinct.
  - apply sorted_descending, value_counts_sorted.
  - apply value_counts_total.
Qed.

(** The mutation rows of the fixtures: eleven rows, one classification. *)
Lemma mutation_classification_is_complete_witness :
  exists summary counts,
    Excel3CNV.create_stage_summary "I" (Excel3CNV.mkStageData [] Fixture.tp53_tables)
    = inr summary
    /\ dict_get "Mutation_Classification" summary = Some (CountsFrame "Count" counts)
    /\ list_sum (map snd counts) = 11%nat.
Proof.
  destruct (mutation_classification_is_complete "I" [] Fixture.tp53_tables
              eq_refl eq_refl)
    as (summary & counts & H1 & H2 & _ & _ & _ & _ & H3).
  exists summary, counts. repeat split; assumption.
Defined.


(** ** What a run does to the console, the log and the workbook *)

Lemma steady_ret {A} (a : A) : steady (ret a).
Proof.
  exists (inr a), [], EmptyString. intros w. simpl.
  now rewrite app_nil_r, string_app_nil_r.
Qed.

Lemma steady_lift {A} (r : Exception + A) : steady (lift r).
Proof.
  exists r, [], EmptyString. intros w. simpl.
  now rewrite app_nil_r, string_app_nil_r.
Qed.

Lemma steady_print (line : string) : steady (print line).
Proof.
  exists (inr tt), [line], EmptyString. intros w. simpl.
  now rewrite string_app_nil_r.
Qed.

Lemma steady_append_log (text : string) : steady (append_log text).
Proof.
  exists (inr tt), [], text. intros w. simpl. now rewrite app_nil_r.
Qed.

Lemma steady_to_excel (frame : Frame) (name : string) : steady (to_excel frame name).
Proof.
  exists (inr tt), [], EmptyString. intros w. simpl.
  now rewrite app_nil_r, string_app_nil_r.
Qed.

Lemma steady_excel_writer : steady excel_writer.
Proof.
  exists (inr tt), [], EmptyString. intros w. simpl.
  now rewrite app_nil_r, string_app_nil_r.
Qed.

Lemma steady_bind {A B} (m : Py A) (k : A -> Py B) :
  steady m -> (forall a, steady (k a)) -> steady (bind m k).
Proof.
  intros (r & dc & dl & Hm) Hk. destruct r as [e|a].
  - exists (inl e), dc, dl. intros w. destruct (Hm w) as (H1 & H2 & H3).
    unfold bind. destruct (m w) as [[e'|a'] w']; simpl in *; [|discriminate].
    repeat split; congruence.
  - destruct (Hk a) as (r' & dc' & dl' & Hka).
    exists r', (dc ++ dc'), (dl ++ dl')%string. intros w.
    destruct (Hm w) as (H1 & H2 & H3).
    unfold bind. destruct (m w) as [[e'|a'] w']; simpl in *; [discriminate|].
    injection H1 as ->. destruct (Hka w') as (K1 & K2 & K3).
    repeat split; [assumption | |].
    + now rewrite K2, H2, app_assoc.
    + now rewrite K3, H3, string_app_assoc.
Qed.

Lemma steady_try_except {A} (body : Py A) (handler : Exception -> Py A) :
  steady body -> (forall e, steady (handler e)) -> steady (try_except body handler).
Proof.
  intros (r & dc & dl & Hm) Hh. destruct r as [e|a].
  - destruct (Hh e) as (r' & dc' & dl' & Hhe).
    exists r', (dc ++ dc'), (dl ++ dl')%string. intros w.
    destruct (Hm w) as (H1 & H2 & H3).
    unfold try_except. destruct (body w) as [[e'|a'] w']; simpl in *; [|discriminate].
    injection H1 as ->. destruct (Hhe w') as (K1 & K2 & K3).
    repeat split; [assumption | |].
    + now rewrite K2, H2, app_assoc.
    + now rewrite K3, H3, string_app_assoc.
  - exists (inr a), dc, dl. intros w. destruct (Hm w) as (H1 & H2 & H3).
    unfold try_except. destruct (body w) as [[e'|a'] w']; simpl in *; [discriminate|].
    repeat split; congruence.
Qed.

Lemma steady_for_each {X S} (body : X -> S -> Py S) (l : list X) :
  (forall x s, steady (body x s)) -> forall s, steady (for_each l body s).
Proof.
  intros Hb. induction l as [|x l IH]; intros s; simpl.
  - apply steady_ret.
  - apply steady_bind; [apply Hb | apply IH].
Qed.

Lemma keeps_workbook_bind {A B} (m : Py A) (k : A -> Py B) :
  keeps_workbook m -> (forall a, keeps_workbook (k a)) -> keeps_workbook (bind m k).
Proof.
  intros Hm Hk w. specialize (Hm w). unfold bind.
  destruct (m w) as [[e|a] w']; simpl in *; [assumption|].
  now rewrite Hk.
Qed.

Lemma keeps_workbook_try_except {A} (body : Py A) (handler : Exception -> Py A) :
  keeps_workbook body -> (forall e, keeps_workbook (handler e)) ->
  keeps_workbook (try_except body handler).
Proof.
  intros Hm Hh w. specialize (Hm w). unfold try_except.
  destruct (body w) as [[e|a] w']; simpl in *; [|assumption].
  now rewrite Hh.
Qed.

Lemma keeps_workbook_for_each {X S} (body : X -> S -> Py S) (l : list X) :
  (forall x s, keeps_workbook (body x s)) ->
  forall s, keeps_workbook (for_each l body s).
Proof.
  intros Hb. induction l as [|x l IH]; intros s; simpl.
  - intros w. reflexivity.
  - apply keeps_workbook_bind; [apply Hb | apply IH].
Qed.

Lemma keeps_log_bind {A B} (m : Py A) (k : A -> Py B) :
  keeps_log m -> (forall a, keeps_log (k a)) -> keeps_log (bind m k).
Proof.
  intros Hm Hk w. specialize (Hm w). unfold bind.
  destruct (m w) as [[e|a] w']; simpl in *; [assumption|].
  now rewrite Hk.
Qed.

Lemma keeps_log_try_except {A} (body : Py A) (handler : Exception -> Py A) :
  keeps_log body -> (forall e, keeps_log (handler e)) ->
  keeps_log (try_except body handler).
Proof.
  intros Hm Hh w. specialize (Hm w). unfold try_except.
  destruct (body w) as [[e|a] w']; simpl in *; [|assumption].
  now rewrite Hh.
Qed.

Lemma keeps_log_for_each {X S} (body : X -> S -> Py S) (l : list X) :
  (forall x s, keeps_log (body x s)) -> forall s, keeps_log (for_each l body s).
Proof.
  intros Hb. induction l as [|x l IH]; intros s; simpl.
  - intros w. reflexivity.
  - apply keeps_log_bind; [apply Hb | apply IH].
Qed.

(** The steps of a script, one rule each. *)
Ltac effects :=
  repeat first
    [ apply steady_ret | apply steady_lift | apply steady_print
    | apply steady_append_log | apply steady_to_excel | apply steady_excel_writer
    | apply steady_bind | apply steady_try_except
    | apply keeps_workbook_bind | apply keeps_workbook_try_except
    | apply keeps_log_bind | apply keeps_log_try_except
    | (intros ? ; reflexivity) | intro ].

Lemma read_cnv_file_steady fs pd_read_csv file_path :
  steady (read_cnv_file fs pd_read_csv file_path).
Proof. unfold read_cnv_file. effects. Qed.

Lemma read_maf_file_steady fs pd_read_csv file_path :
  steady (read_maf_file fs pd_read_csv file_path).
Proof. unfold read_maf_file. effects. Qed.

Lemma read_cnv_file_keeps fs pd_read_csv file_path :
  keeps_workbook (read_cnv_file fs pd_read_csv file_path)
  /\ keeps_log (read_cnv_file fs pd_read_csv file_path).
Proof.
  split; intros w; rewrite read_cnv_file_eq;
    destruct (cnv_attempt _ _ _); reflexivity.
Qed.

Lemma read_maf_file_keeps fs pd_read_csv file_path :
  keeps_workbook (read_maf_file fs pd_read_csv file_path)
  /\ keeps_log (read_maf_file fs pd_read_csv file_path).
Proof.
  split; intros w; rewrite read_maf_file_eq;
    destruct (maf_attempt _ _ _); reflexivity.
Qed.


Lemma frame_of_steady {A} (m : Py A) :
  steady m -> keeps_workbook m ->
  exists r dc dl, forall w,
      m w = (r, mkWorld (console w ++ dc) (failed_files_log w ++ dl) (workbook w)).
Proof.
  intros (r & dc & dl & H) Hk. exists r, dc, dl. intros w.
  destruct (H w) as (H1 & H2 & H3). specialize (Hk w).
  destruct (m w) as [r' [c l b]]. simpl in *. congruence.
Qed.

Section Effects.

Variable fs : FileSystem.
Variable pd_read_csv : string -> Exception + DataFrame.

Lemma per_stage_process_file_steady sample_path file sd :
  steady (Excel3CNV.process_file fs pd_read_csv sample_path file sd).
Proof.
  unfold Excel3CNV.process_file.
  destruct (contains "Copy_Number_Variation" file).
  - apply steady_bind; [apply read_cnv_file_steady|].
    intros [df|]; [destruct (truthy _)|]; effects.
  - destruct (_ || _); [|effects].
    apply steady_bind; [apply read_maf_file_steady|]. intros [df|]; effects.
Qed.

Lemma per_stage_process_file_keeps sample_path file sd :
  keeps_workbook (Excel3CNV.process_file fs pd_read_csv sample_path file sd)
  /\ keeps_log (Excel3CNV.process_file fs pd_read_csv sample_path file sd).
Proof.
  unfold Excel3CNV.process_file. split.
  - destruct (contains "Copy_Number_Variation" file).
    + apply keeps_workbook_bind; [apply read_cnv_file_keeps|].
      intros [df|]; [destruct (truthy _)|]; effects.
    + destruct (_ || _); [|effects].
      apply keeps_workbook_bind; [apply read_maf_file_keeps|]. intros [df|]; effects.
  - destruct (contains "Copy_Number_Variation" file).
    + apply keeps_log_bind; [apply read_cnv_file_keeps|].
      intros [df|]; [destruct (truthy _)|]; effects.
    + destruct (_ || _); [|effects].
      apply keeps_log_bind; [apply read_maf_file_keeps|]. intros [df|]; effects.
Qed.

Lemma overall_process_file_steady sample_folder sample_path file sd :
  steady (OverallAnalysis.process_file fs pd_read_csv sample_folder sample_path file sd).
Proof.
  unfold OverallAnalysis.process_file, OverallAnalysis.log_failed_file.
  destruct (contains "Copy_Number_Variation" file).
  - apply steady_bind; [apply read_cnv_file_steady|].
    intros [df|]; [destruct (truthy _)|]; effects.
  - destruct (_ || _); [|effects].
    apply steady_bind; [apply read_maf_file_steady|]. intros [df|]; effects.
Qed.

Lemma overall_process_file_keeps sample_folder sample_path file sd :
  keeps_workbook
    (OverallAnalysis.process_file fs pd_read_csv sample_folder sample_path file sd).
Proof.
  unfold OverallAnalysis.process_file, OverallAnalysis.log_failed_file.
  destruct (contains "Copy_Number_Variation" file).
  - apply keeps_workbook_bind; [apply read_cnv_file_keeps|].
    intros [df|]; [destruct (truthy _)|]; effects.
  - destruct (_ || _); [|effects].
    apply keeps_workbook_bind; [apply read_maf_file_keeps|]. intros [df|]; effects.
Qed.

Lemma per_stage_process_stage_steady stage stage_folder :
  steady (Excel3CNV.process_stage fs pd_read_csv stage stage_folder)
  /\ keeps_workbook (Excel3CNV.process_stage fs pd_read_csv stage stage_folder)
  /\ keeps_log (Excel3CNV.process_stage fs pd_read_csv stage stage_folder).
Proof.
  unfold Excel3CNV.process_stage, Excel3CNV.process_sample. split; [|split].
  - apply steady_bind; [apply steady_lift|]. intros samples.
    apply steady_for_each. intros s sd.
    destruct (negb _); [apply steady_ret|].
    apply steady_bind; [apply steady_lift|]. intros files.
    apply steady_for_each. intros f sd'. apply per_stage_process_file_steady.
  - apply keeps_workbook_bind; [effects|]. intros samples.
    apply keeps_workbook_for_each. intros s sd.
    destruct (negb _); [effects|].
    apply keeps_workbook_bind; [effects|]. intros files.
    apply keeps_workbook_for_each. intros f sd'. apply per_stage_process_file_keeps.
  - apply keeps_log_bind; [effects|]. intros samples.
    apply keeps_log_for_each. intros s sd.
    destruct (negb _); [effects|].
    apply keeps_log_bind; [effects|]. intros files.
    apply keeps_log_for_each. intros f sd'. apply per_stage_process_file_keeps.
Qed.

Lemma overall_process_stage_steady stage stage_folder :
  steady (OverallAnalysis.process_stage fs pd_read_csv stage stage_folder)
  /\ keeps_workbook (OverallAnalysis.process_stage fs pd_read_csv stage stage_folder).
Proof.
  unfold OverallAnalysis.process_stage, OverallAnalysis.process_sample. split.
  - apply steady_bind; [apply steady_lift|]. intros samples.
    apply steady_for_each. intros s sd.
    destruct (negb _); [apply steady_ret|].
    apply steady_bind; [apply steady_print|]. intros _.
    apply steady_bind; [apply steady_lift|]. intros files.
    apply steady_for_each. intros f sd'. apply overall_process_file_steady.
  - apply keeps_workbook_bind; [effects|]. intros samples.
    apply keeps_workbook_for_each. intros s sd.
    destruct (negb _); [effects|].
    apply keeps_workbook_bind; [effects|]. intros _.
    apply keeps_workbook_bind; [effects|]. intros files.
    apply keeps_workbook_for_each. intros f sd'. apply overall_process_file_keeps.
Qed.

End Effects.

(** X5. [process_stage] of the per-stage script changes nothing but the
    console: it leaves the failure log and the workbook as they are, and
    adds lines behind those already printed. Its outcome and the lines it
    prints are the same whatever was printed, logged or written before. *)
Theorem per_stage_process_stage_only_prints (fs : FileSystem)
  (pd_read_csv : string -> Exception + DataFrame) (stage stage_folder : string) :
  exists r printed, forall w,
      Excel3CNV.process_stage fs pd_read_csv stage stage_folder w
      = (r, mkWorld (console w ++ printed) (failed_files_log w) (workbook w)).
Proof.
  destruct (per_stage_process_stage_steady fs pd_read_csv stage stage_folder)
    as ((r & dc & dl & H) & Hw & Hl).
  exists r, dc. intros w. destruct (H w) as (H1 & H2 & _).
  specialize (Hw w). specialize (Hl w).
  destruct (Excel3CNV.process_stage fs pd_read_csv stage stage_folder w)
    as [r' [c l b]].
  simpl in *. congruence.
Qed.

(** X6. [process_stage] of the overall script only adds to the console and
    to the failure log, behind what is there, and leaves the workbook as
    it is. Its outcome, the lines it prints and the text it logs are the
    same whatever was printed, logged or written before. *)
Theorem overall_process_stage_only_appends (fs : FileSystem)
  (pd_read_csv : string -> Exception + DataFrame) (stage stage_folder : string) :
  exists r printed logged, forall w,
      OverallAnalysis.process_stage fs pd_read_csv stage stage_folder w
      = (r, mkWorld (console w ++ printed) (failed_files_log w ++ logged)
                    (workbook w)).
Proof.
  destruct (overall_process_stage_steady fs pd_read_csv stage stage_folder)
    as [Hs Hw].
  now apply frame_of_steady.
Qed.


(** ** The two main functions *)





Lemma save_summary_to_excel_steady cnv snp_data_by_sample :
  steady (OverallAnalysis.save_summary_to_excel cnv snp_data_by_sample).
Proof.
  unfold OverallAnalysis.save_summary_to_excel.
  apply steady_bind; [effects|]. intros _.
  apply steady_bind; [destruct (nonempty cnv); effects|]. intros _.
  apply steady_bind; [destruct (nonempty snp_data_by_sample); effects|].
  intros _. effects.
Qed.

Lemma overall_main_stage_steady fs pd_read_csv stage acc :
  steady (OverallAnalysis.main_stage fs pd_read_csv stage acc).
Proof.
  unfold OverallAnalysis.main_stage.
  destruct (negb _); [effects|].
  apply steady_bind; [effects|]. intros _.
  apply steady_bind; [apply overall_process_stage_steady | effects].
Qed.

(** X8. The overall script starts its failure log anew: the outcome of
    [main], the lines it prints and the failure log it leaves are the same
    whatever was logged, printed or written before; the log holds what
    this run logged and nothing else. *)
Theorem overall_main_starts_log_anew (fs : FileSystem)
  (pd_read_csv : string -> Exception + DataFrame) :
  exists r printed logged, forall w,
      fst (OverallAnalysis.main fs pd_read_csv w) = r
      /\ console (snd (OverallAnalysis.main fs pd_read_csv w)) = console w ++ printed
      /\ failed_files_log (snd (OverallAnalysis.main fs pd_read_csv w)) = logged.
Proof.
  set (rest :=
         bind (lift (listdir fs OverallAnalysis.BASE_FOLDER))
           (fun stages =>
              bind (for_each stages (OverallAnalysis.main_stage fs pd_read_csv) ([], []))
                (fun all =>
                   bind (OverallAnalysis.save_summary_to_excel (fst all) (snd all))
                     (fun _ =>
                        bind (print (NL ++ "✅ Analysis complete. Check '"
                                     ++ OverallAnalysis.OUTPUT_EXCEL_FILE
                                     ++ "' for results."))
                          (fun _ =>
                             print ("⚠️ Check '" ++ OverallAnalysis.FAILED_FILES_LOG
                                    ++ "' for any problematic files.")))))).
  assert (Hs : steady rest).
  { unfold rest. apply steady_bind; [effects|]. intros stages.
    apply steady_bind.
    - apply steady_for_each. intros s acc. apply overall_main_stage_steady.
    - intros all. apply steady_bind; [apply save_summary_to_excel_steady | effects]. }
  destruct Hs as (r & dc & dl & H).
  exists r,
    (("🔎 Starting analysis across all stages in: " ++ OverallAnalysis.BASE_FOLDER)%string
       :: dc), dl.
  intros w.
  change (OverallAnalysis.main fs pd_read_csv w)
    with (rest (mkWorld (console w ++ [("🔎 Starting analysis across all stages in: "
                                        ++ OverallAnalysis.BASE_FOLDER)%string])
                        "" (workbook w))).
  destruct (H (mkWorld (console w ++ [("🔎 Starting analysis across all stages in: "
                                       ++ OverallAnalysis.BASE_FOLDER)%string])
                       "" (workbook w))) as (H1 & H2 & H3).
  repeat split; [exact H1 | | exact H3].
  rewrite H2. simpl console. now rewrite <- app_assoc.
Qed.

(** On the base folder of the fixtures the run leaves an empty log, also
    when the log had a record before. *)
Example overall_main_on_used_world :
  failed_files_log (snd (OverallAnalysis.main Cases.base Fixture.read_csv Cases.used))
  = ""%string
  /\ map fst (workbook (snd (OverallAnalysis.main Cases.base Fixture.read_csv
                               Cases.used)))
     = ["CNV_Segment_Stats"; "Top_Mutated_Genes"; "Mutation_Classification"].
Proof. split; vm_compute; reflexivity. Qed.


(** ** Listings that fail *)

Section Listings.

Variable fs : FileSystem.
Variable pd_read_csv : string -> Exception + DataFrame.

Lemma per_stage_samples_return stage_folder (samples : list string) sd w :
  is_inr (fst (for_each samples
                 (Excel3CNV.process_sample fs pd_read_csv stage_folder) sd w))
  = forallb (sample_listable fs stage_folder) samples.
Proof.
  revert sd w. induction samples as [|s l IH]; intros sd w; simpl; [reflexivity|].
  destruct (sample_listable fs stage_folder s) eqn:E.
  - destruct (per_stage_process_sample_values fs pd_read_csv stage_folder s sd w E)
      as (sd' & w' & H & _).
    unfold bind. rewrite H. apply IH.
  - unfold bind, Excel3CNV.process_sample. unfold sample_listable in E.
    destruct (isdir fs (os_path_join stage_folder s)); [|discriminate].
    simpl in *. unfold lift.
    destruct (listdir fs (os_path_join stage_folder s)); [reflexivity | discriminate].
Qed.

Lemma overall_samples_return stage_folder (samples : list string) sd w :
  is_inr (fst (for_each samples
                 (OverallAnalysis.process_sample fs pd_read_csv stage_folder) sd w))
  = forallb (sample_listable fs stage_folder) samples.
Proof.
  revert sd w. induction samples as [|s l IH]; intros sd w; simpl; [reflexivity|].
  destruct (sample_listable fs stage_folder s) eqn:E.
  - destruct (overall_process_sample_values fs pd_read_csv stage_folder s sd w E)
      as (sd' & w' & H & _).
    unfold bind. rewrite H. apply IH.
  - unfold bind, OverallAnalysis.process_sample. unfold sample_listable in E.
    destruct (isdir fs (os_path_join stage_folder s)); [|discriminate].
    simpl in *. unfold lift.
    destruct (listdir fs (os_path_join stage_folder s)); [reflexivity | discriminate].
Qed.

End Listings.

(** X9. In the per-stage script [process_stage] returns exactly when the
    stage directory and each of its entries that is a directory can be
    listed; otherwise the exception of [os.listdir] leaves the function,
    and the values gathered so far with it. In the overall script, too, a
    listing that fails keeps [process_stage] from returning. When the
    stage directory itself cannot be listed, that exception leaves the
    function in both scripts, and nothing has been printed or logged. *)
Theorem process_stage_returns_iff_listable (fs : FileSystem)
  (pd_read_csv : string -> Exception + DataFrame) (stage stage_folder : string)
  (w : World) :
  is_inr (fst (Excel3CNV.process_stage fs pd_read_csv stage stage_folder w))
  = listable fs stage_folder
  /\ (listable fs stage_folder = false ->
      is_inr (fst (OverallAnalysis.process_stage fs pd_read_csv stage stage_folder w))
      = false)
  /\ (forall e, listdir fs stage_folder = inl e ->
        Excel3CNV.process_stage fs pd_read_csv stage stage_folder w = (inl e, w)
        /\ OverallAnalysis.process_stage fs pd_read_csv stage stage_folder w
           = (inl e, w)).
Proof.
  unfold Excel3CNV.process_stage, OverallAnalysis.process_stage, listable, bind, lift.
  destruct (listdir fs stage_folder) as [e0|samples].
  - split; [reflexivity|]. split; [reflexivity|].
    intros e [= <-]. split; reflexivity.
  - split; [apply per_stage_samples_return|].
    split; [|intros e H; discriminate].
    intros H. now rewrite overall_samples_return.
Qed.

(** A sample directory that cannot be listed keeps the overall script's
    [process_stage] from returning. *)
Lemma process_stage_returns_iff_listable_witness :
  listable Cases.stage_locked "stage" = false
  /\ is_inr (fst (OverallAnalysis.process_stage Cases.stage_locked Fixture.read_csv
                    "I" "stage" Fixture.fresh))
     = false.
Proof.
  split; [vm_compute; reflexivity|].
  apply (proj1 (proj2 (process_stage_returns_iff_listable Cases.stage_locked
                         Fixture.read_csv "I" "stage" Fixture.fresh))).
  vm_compute. reflexivity.
Defined.

(** In the per-stage script the exception is the one of the listing,
    though the sample before it was read. *)
Example process_stage_on_locked_sample :
  fst (Excel3CNV.process_stage Cases.stage_locked Fixture.read_csv "I" "stage"
         Fixture.fresh)
  = inl (OSError "Permission denied: stage/S2").
Proof. vm_compute. reflexivity. Qed.

(** ** One file, again *)

(** X11. A file that cannot be read or parsed is passed over: the step
    returns the accumulators as they were, prints the one line of the
    reader that failed, and leaves the failure log and the workbook alone,
    in both scripts, for a CNV file and for a mutation file. *)
Theorem unreadable_file_is_skipped (fs : FileSystem)
  (pd_read_csv : string -> Exception + DataFrame)
  (sample_folder sample_path file : string) (e : Exception) :
  let file_path := os_path_join sample_path file in
  let said (kind : string) (w : World) :=
    mkWorld (console w ++ [("❌ Failed to read " ++ kind ++ " file " ++ file_path
                            ++ ": " ++ str_of_exception e)%string])
            (failed_files_log w) (workbook w) in
  (contains "Copy_Number_Variation" file = true ->
   cnv_attempt fs pd_read_csv file_path = inl e ->
   forall w,
     (forall sd, Excel3CNV.process_file fs pd_read_csv sample_path file sd w
                 = (inr sd, said "CNV" w))
     /\ (forall sd, OverallAnalysis.process_file fs pd_read_csv sample_folder
                      sample_path file sd w
                    = (inr sd, said "CNV" w)))
  /\ (contains "Copy_Number_Variation" file = false ->
      contains "Simple_Nucleotide_Variation" file || endswith ".maf" file = true ->
      maf_attempt fs pd_read_csv file_path = inl e ->
      forall w,
        (forall sd, Excel3CNV.process_file fs pd_read_csv sample_path file sd w
                    = (inr sd, said "MAF" w))
        /\ (forall sd, OverallAnalysis.process_file fs pd_read_csv sample_folder
                         sample_path file sd w
                       = (inr sd, said "MAF" w))).
Proof.
  intros file_path said. split.
  - intros Hc He w. split; intros sd.
    + unfold Excel3CNV.process_file. rewrite Hc. run_reader.
      fold file_path. now rewrite He.
    + unfold OverallAnalysis.process_file. rewrite Hc. run_reader.
      fold file_path. now rewrite He.
  - intros Hc Hm He w. split; intros sd.
    + unfold Excel3CNV.process_file. rewrite Hc, Hm. run_reader.
      fold file_path. now rewrite He.
    + unfold OverallAnalysis.process_file. rewrite Hc, Hm. run_reader.
      fold file_path. now rewrite He.
Qed.

(** The CNV file of sample S2 that is gone, and a mutation file that never
    was there. *)
Lemma unreadable_file_is_skipped_witness :
  Excel3CNV.process_file Fixture.stage_I Fixture.read_csv "stage/S2"
    "gone.Copy_Number_Variation.tsv" (Excel3CNV.mkStageData [CNum 1] []) Fixture.fresh
  = (inr (Excel3CNV.mkStageData [CNum 1] []),
     mkWorld ["❌ Failed to read CNV file stage/S2/gone.Copy_Number_Variation.tsv: No such file: stage/S2/gone.Copy_Number_Variation.tsv"%string]
             "" [])
  /\ OverallAnalysis.process_file Fixture.stage_I Fixture.read_csv "S2" "stage/S2"
       "never.maf" (OverallAnalysis.mkStageData [CNum 1] [] [] []) Fixture.fresh
     = (inr (OverallAnalysis.mkStageData [CNum 1] [] [] []),
        mkWorld ["❌ Failed to read MAF file stage/S2/never.maf: No such file: stage/S2/never.maf"%string]
                "" []).
Proof.
  split.
  - exact (proj1 (proj1 (unreadable_file_is_skipped Fixture.stage_I Fixture.read_csv
                           "S2" "stage/S2" "gone.Copy_Number_Variation.tsv"
                           (OSError "No such file: stage/S2/gone.Copy_Number_Variation.tsv"))
                        eq_refl eq_refl Fixture.fresh) _).
  - exact (proj2 (proj2 (unreadable_file_is_skipped Fixture.stage_I Fixture.read_csv
                           "S2" "stage/S2" "never.maf"
                           (OSError "No such file: stage/S2/never.maf"))
                        eq_refl eq_refl eq_refl Fixture.fresh) _).
Defined.


(** ** The mutation tables of a stage *)

Section MutationWalk.

Variable fs : FileSystem.
Variable pd_read_csv : string -> Exception + DataFrame.

Lemma per_stage_process_file_tables sample_path file sd w :
  exists sd' w',
    Excel3CNV.process_file fs pd_read_csv sample_path file sd w = (inr sd', w')
    /\ Excel3CNV.snp_data sd'
       = Excel3CNV.snp_data sd ++ snp_tables_of_file fs pd_read_csv sample_path file.
Proof.
  unfold snp_tables_of_file.
  destruct (contains "Copy_Number_Variation" file) eqn:Hc.
  - destruct (per_stage_process_file_cnv fs pd_read_csv sample_path file sd w Hc)
      as [w' H].
    eexists; eexists. split; [exact H|]. simpl. now rewrite app_nil_r.
  - unfold Excel3CNV.process_file. rewrite Hc.
    destruct (_ || _).
    + run_reader. destruct (maf_attempt _ _ _); eexists; eexists;
        (split; [reflexivity|]); simpl; [now rewrite app_nil_r | reflexivity].
    + eexists; eexists. split; [reflexivity|]. now rewrite app_nil_r.
Qed.

Lemma overall_process_file_tables sample_folder sample_path file sd w :
  exists sd' w',
    OverallAnalysis.process_file fs pd_read_csv sample_folder sample_path file sd w
    = (inr sd', w')
    /\ OverallAnalysis.snp_data sd'
       = OverallAnalysis.snp_data sd
         ++ snp_tables_of_file fs pd_read_csv sample_path file.
Proof.
  unfold snp_tables_of_file.
  destruct (contains "Copy_Number_Variation" file) eqn:Hc.
  - destruct (overall_process_file_cnv fs pd_read_csv sample_folder sample_path
                file sd w Hc) as (sd' & w' & H & _ & Hs & _).
    exists sd', w'. split; [exact H|]. now rewrite app_nil_r.
  - unfold OverallAnalysis.process_file. rewrite Hc.
    destruct (_ || _).
    + run_reader. destruct (maf_attempt _ _ _); eexists; eexists;
        (split; [reflexivity|]); simpl; [now rewrite app_nil_r | reflexivity].
    + eexists; eexists. split; [reflexivity|]. now rewrite app_nil_r.
Qed.

Lemma per_stage_process_sample_tables stage_folder sample_folder sd w :
  sample_listable fs stage_folder sample_folder = true ->
  exists sd' w',
    Excel3CNV.process_sample fs pd_read_csv stage_folder sample_folder sd w
    = (inr sd', w')
    /\ Excel3CNV.snp_data sd'
       = Excel3CNV.snp_data sd
         ++ snp_tables_of_sample fs pd_read_csv stage_folder sample_folder.
Proof.
  unfold sample_listable, Excel3CNV.process_sample, snp_tables_of_sample, files_in.
  intros H. destruct (isdir fs (os_path_join stage_folder sample_folder)); simpl in *.
  - destruct (listdir fs (os_path_join stage_folder sample_folder)) as [e|files];
      [discriminate|].
    unfold bind, lift.
    apply for_each_accumulates. intros file _ s w1.
    apply per_stage_process_file_tables.
  - exists sd, w. now rewrite app_nil_r.
Qed.

Lemma overall_process_sample_tables stage_folder sample_folder sd w :
  sample_listable fs stage_folder sample_folder = true ->
  exists sd' w',
    OverallAnalysis.process_sample fs pd_read_csv stage_folder sample_folder sd w
    = (inr sd', w')
    /\ OverallAnalysis.snp_data sd'
       = OverallAnalysis.snp_data sd
         ++ snp_tables_of_sample fs pd_read_csv stage_folder sample_folder.
Proof.
  unfold sample_listable, OverallAnalysis.process_sample, snp_tables_of_sample, files_in.
  intros H. destruct (isdir fs (os_path_join stage_folder sample_folder)); simpl in *.
  - destruct (listdir fs (os_path_join stage_folder sample_folder)) as [e|files];
      [discriminate|].
    unfold bind, lift, print. simpl.
    apply for_each_accumulates. intros file _ s w1.
    apply overall_process_file_tables.
  - exists sd, w. now rewrite app_nil_r.
Qed.

Lemma per_stage_process_stage_tables stage stage_folder w :
  listable fs stage_folder = true ->
  exists sd w',
    Excel3CNV.process_stage fs pd_read_csv stage stage_folder w = (inr sd, w')
    /\ Excel3CNV.snp_data sd = snp_tables fs pd_read_csv stage_folder.
Proof.
  unfold listable, Excel3CNV.process_stage, snp_tables, files_in.
  destruct (listdir fs stage_folder) as [e|samples]; [discriminate|].
  intros H. rewrite forallb_forall in H.
  unfold bind, lift.
  apply (for_each_accumulates Excel3CNV.snp_data
           (snp_tables_of_sample fs pd_read_csv stage_folder)).
  intros s Hs sd w1. apply per_stage_process_sample_tables. now apply H.
Qed.

Lemma overall_process_stage_tables stage stage_folder w :
  listable fs stage_folder = true ->
  exists sd w',
    OverallAnalysis.process_stage fs pd_read_csv stage stage_folder w = (inr sd, w')
    /\ OverallAnalysis.snp_data sd = snp_tables fs pd_read_csv stage_folder.
Proof.
  unfold listable, OverallAnalysis.process_stage, snp_tables, files_in.
  destruct (listdir fs stage_folder) as [e|samples]; [discriminate|].
  intros H. rewrite forallb_forall in H.
  unfold bind, lift.
  apply (for_each_accumulates OverallAnalysis.snp_data
           (snp_tables_of_sample fs pd_read_csv stage_folder)).
  intros s Hs sd w1. apply overall_process_sample_tables. now apply H.
Qed.

End MutationWalk.

(** X12. On a stage whose directories can be listed, the stage-wide list
    of mutation tables holds, in the order of the walk, one table for each
    file that is read, is named as a mutation file ("Simple_Nucleotide_
    Variation" in the name, or the suffix ".maf") and is not named as a CNV
    file; entries that are no directories and files of other names give
    nothing. The two scripts gather the same stage-wide tables and the same
    stage-wide segment means. *)
Theorem mutation_tables_of_stage (fs : FileSystem)
  (pd_read_csv : string -> Exception + DataFrame) (stage stage_folder : string)
  (w w0 : World) :
  listable fs stage_folder = true ->
  exists sd sd_all w1 w2,
    Excel3CNV.process_stage fs pd_read_csv stage stage_folder w = (inr sd, w1)
    /\ OverallAnalysis.process_stage fs pd_read_csv stage stage_folder w0
       = (inr sd_all, w2)
    /\ Excel3CNV.snp_data sd = snp_tables fs pd_read_csv stage_folder
    /\ OverallAnalysis.snp_data sd_all = Excel3CNV.snp_data sd
    /\ OverallAnalysis.cnv_segment_means sd_all = Excel3CNV.cnv_segment_means sd.
Proof.
  intros Hl.
  destruct (per_stage_process_stage_tables fs pd_read_csv stage stage_folder w Hl)
    as (sd & w1 & H & Hs).
  destruct (overall_process_stage_tables fs pd_read_csv stage stage_folder w0 Hl)
    as (sd' & w2 & H' & Hs').
  destruct (per_stage_process_stage_values fs pd_read_csv stage stage_folder w Hl)
    as (sd0 & w10 & H0 & Hv).
  destruct (overall_process_stage_values fs pd_read_csv stage stage_folder w0 Hl)
    as (sd0' & w20 & H0' & Hv').
  assert (sd0 = sd) by congruence. assert (sd0' = sd') by congruence. subst.
  exists sd, sd', w1, w2. repeat split; try assumption; congruence.
Qed.

(** The stage of the fixtures has one mutation file, of two rows. *)
Lemma mutation_tables_of_stage_witness :
  exists sd sd_all w1 w2,
    Excel3CNV.process_stage Fixture.stage_I Fixture.read_csv "I" "stage" Fixture.fresh
    = (inr sd, w1)
    /\ OverallAnalysis.process_stage Fixture.stage_I Fixture.read_csv "I" "stage"
         Cases.used = (inr sd_all, w2)
    /\ Excel3CNV.snp_data sd
       = [mkDataFrame ["Hugo_Symbol"; "Variant_Classification"]
                      [[CStr "A"; CStr "Missense"]; [CStr "B"; CStr "Silent"]]]
    /\ OverallAnalysis.snp_data sd_all = Excel3CNV.snp_data sd
    /\ OverallAnalysis.cnv_segment_means sd_all = Excel3CNV.cnv_segment_means sd.
Proof.
  exact (mutation_tables_of_stage Fixture.stage_I Fixture.read_csv "I" "stage"
           Fixture.fresh Cases.used eq_refl).
Defined.


(** ** The accumulators by sample *)









(** ** The failure log *)

Lemma logged_text_app (a b : list string) :
  logged_text (a ++ b) = (logged_text a ++ logged_text b)%string.
Proof.
  unfold logged_text, missing_column_records.
  induction a as [|x a IH]; simpl map; [reflexivity|].
  rewrite !string_concat_cons, IH. now rewrite string_app_assoc.
Qed.

Lemma for_each_logs {X S} (paths_of : X -> list string) (body : X -> S -> Py S)
  (l : list X) :
  (forall x, In x l -> forall s w, exists s' w',
        body x s w = (inr s', w')
        /\ failed_files_log w'
           = (failed_files_log w ++ logged_text (paths_of x))%string) ->
  forall s w, exists s' w',
      for_each l body s w = (inr s', w')
      /\ failed_files_log w'
         = (failed_files_log w ++ logged_text (flat_map paths_of l))%string.
Proof.
  induction l as [|x l IH]; intros Hbody s w; simpl.
  - exists s, w. split; [reflexivity|]. now rewrite string_app_nil_r.
  - destruct (Hbody x (or_introl eq_refl) s w) as (s1 & w1 & Hx & Hp).
    destruct (IH (fun y Hy => Hbody y (or_intror Hy)) s1 w1)
      as (s2 & w2 & Hl & Hp2).
    exists s2, w2. unfold bind. rewrite Hx. split; [assumption|].
    now rewrite Hp2, Hp, logged_text_app, string_app_assoc.
Qed.

Lemma overall_process_file_logs fs pd_read_csv sample_folder sample_path file sd w :
  exists sd' w',
    OverallAnalysis.process_file fs pd_read_csv sample_folder sample_path file sd w
    = (inr sd', w')
    /\ failed_files_log w'
       = (failed_files_log w
          ++ logged_text (unresolved_of_file fs pd_read_csv sample_path file))%string.
Proof.
  unfold OverallAnalysis.process_file, unresolved_of_file.
  destruct (contains "Copy_Number_Variation" file).
  - run_reader.
    destruct (cnv_attempt fs pd_read_csv (os_path_join sample_path file)) as [e|df].
    + eexists; eexists. split; [reflexivity|]. simpl. now rewrite string_app_nil_r.
    + destruct (get_segment_mean_column df) as [col|] eqn:E.
      * destruct (resolved_column_is_there _ _ E) as (Ht & values & Hv & _).
        rewrite Ht. unfold lift, ret. simpl. rewrite Hv.
        eexists; eexists. split; [reflexivity|]. simpl. now rewrite string_app_nil_r.
      * simpl. eexists; eexists. split; [reflexivity|]. reflexivity.
  - destruct (_ || _).
    + run_reader. destruct (maf_attempt _ _ _); eexists; eexists;
        (split; [reflexivity|]); simpl; now rewrite string_app_nil_r.
    + eexists; eexists. split; [reflexivity|]. simpl. now rewrite string_app_nil_r.
Qed.

(** X10. The column name the resolver returns can be used: it is not
    empty (so it counts as true), it is a column of the table, and asking
    the table for it gives one value per row. So the step for one file
    never raises in the per-stage script: failures of reading are caught
    by the readers, and [cnv_df[segment_col]] has its column. In the
    overall script the same holds of every file for which
    [log_failed_file] is not called, that is of every file but a CNV file
    that was read and has no segment-mean column: the step returns and
    the failure log is as it was. *)
Theorem process_file_returns (fs : FileSystem)
  (pd_read_csv : string -> Exception + DataFrame)
  (sample_folder sample_path file : string) :
  (forall cnv_df col,
      get_segment_mean_column cnv_df = Some col ->
      col <> ""%string /\ In col (columns cnv_df)
      /\ exists values, getitem cnv_df col = inr values
                        /\ List.length values = List.length (rows cnv_df))
  /\ (forall sd w, exists sd' w',
        Excel3CNV.process_file fs pd_read_csv sample_path file sd w = (inr sd', w'))
  /\ (unresolved_of_file fs pd_read_csv sample_path file = [] ->
      forall sd w, exists sd' w',
        OverallAnalysis.process_file fs pd_read_csv sample_folder sample_path file sd w
        = (inr sd', w')
        /\ failed_files_log w' = failed_files_log w).
Proof.
  split; [|split].
  - intros df col H.
    destruct (resolved_column_is_there df col H) as (Ht & values & Hv & Hlen).
    unfold get_segment_mean_column in H.
    pose proof (find_some _ _ H) as [Hin Hname].
    split; [now apply segment_mean_name_not_empty|].
    split; [assumption|]. now exists values.
  - intros sd w.
    destruct (per_stage_process_file_values fs pd_read_csv sample_path file sd w)
      as (sd' & w' & H & _).
    now exists sd', w'.
  - intros Hnone sd w.
    destruct (overall_process_file_logs fs pd_read_csv sample_folder sample_path
                file sd w) as (sd' & w' & H & Hlog).
    exists sd', w'. split; [assumption|].
    rewrite Hlog, Hnone. apply string_app_nil_r.
Qed.

(** The CNV file of the sample [S1] that has a segment-mean column, and
    its mutation file: the step returns and logs nothing. *)
Lemma process_file_returns_witness :
  unresolved_of_file Fixture.stage_I Fixture.read_csv "stage/S1"
    "a.Copy_Number_Variation.tsv" = []
  /\ forall sd w, exists sd' w',
      OverallAnalysis.process_file Fixture.stage_I Fixture.read_csv "S1" "stage/S1"
        "a.Copy_Number_Variation.tsv" sd w
      = (inr sd', w')
      /\ failed_files_log w' = failed_files_log w.
Proof.
  split; [vm_compute; reflexivity|].
  apply (proj2 (proj2 (process_file_returns Fixture.stage_I Fixture.read_csv
                         "S1" "stage/S1" "a.Copy_Number_Variation.tsv"))).
  vm_compute. reflexivity.
Defined.

(** X14. On a stage whose directories can be listed, [process_stage] of
    the overall script adds to the failure log one record, the path and
    "Missing Segment Mean column", for each CNV file that is read and has
    no segment-mean column, in the order of the walk, and nothing else:
    files that cannot be read and mutation files are not logged. *)
Theorem failure_log_of_stage (fs : FileSystem)
  (pd_read_csv : string -> Exception + DataFrame) (stage stage_folder : string)
  (w : World) :
  listable fs stage_folder = true ->
  failed_files_log
    (snd (OverallAnalysis.process_stage fs pd_read_csv stage stage_folder w))
  = (failed_files_log w
     ++ String.concat ""
          (missing_column_records (unresolved_files fs pd_read_csv stage_folder)))%string.
Proof.
  intros Hl. unfold listable in Hl.
  unfold OverallAnalysis.process_stage, unresolved_files, files_in, bind, lift.
  destruct (listdir fs stage_folder) as [e|samples]; [discriminate|].
  rewrite forallb_forall in Hl.
  destruct (for_each_logs (unresolved_of_sample fs pd_read_csv stage_folder)
              (OverallAnalysis.process_sample fs pd_read_csv stage_folder) samples)
    with (s := OverallAnalysis.mkStageData [] [] [] []) (w := w)
    as (sd & w' & H & Hlog).
  - intros s Hs sd0 w0. specialize (Hl s Hs).
    unfold sample_listable in Hl.
    unfold OverallAnalysis.process_sample, unresolved_of_sample, files_in.
    destruct (isdir fs (os_path_join stage_folder s)); simpl in *.
    + destruct (listdir fs (os_path_join stage_folder s)) as [e|files];
        [discriminate|].
      unfold bind, lift, print. cbv beta iota.
      match goal with
      | |- exists s' w', for_each _ _ _ ?W = _ /\ _ =>
          destruct (for_each_logs
                      (unresolved_of_file fs pd_read_csv (os_path_join stage_folder s))
                      (OverallAnalysis.process_file fs pd_read_csv s
                         (os_path_join stage_folder s))
                      files
                      (fun f _ sd1 w1 =>
                         overall_process_file_logs fs pd_read_csv s
                           (os_path_join stage_folder s) f sd1 w1)
                      sd0 W) as (sd' & w' & H & Hlog)
      end.
      exists sd', w'. split; [exact H | exact Hlog].
    + exists sd0, w0. split; [reflexivity|]. now rewrite string_app_nil_r.
  - rewrite H. exact Hlog.
Qed.

(** The stage of the fixtures: one record, for the second CNV file of S1;
    the file of S2 that cannot be read is not in the log. *)
Lemma failure_log_of_stage_witness :
  failed_files_log
    (snd (OverallAnalysis.process_stage Fixture.stage_I Fixture.read_csv "I" "stage"
            Cases.used))
  = (failure_record "old/path" "an old reason"
     ++ failure_record "stage/S1/b.Copy_Number_Variation.tsv"
                       "Missing Segment Mean column")%string.
Proof.
  exact (failure_log_of_stage Fixture.stage_I Fixture.read_csv "I" "stage"
           Cases.used eq_refl).
Defined.

Lemma no_newline_app (a b : string) :
  no_newline a -> no_newline b -> no_newline (a ++ b).
Proof.
  induction a as [|c a IH]; simpl; [trivial|].
  intros [Hc Ha] Hb. split; [assumption | now apply IH].
Qed.

Lemma failure_record_line (file_path reason : string) :
  failure_record file_path reason = ((file_path ++ TAB ++ reason) ++ NL)%string.
Proof.
  unfold failure_record. now rewrite !string_app_assoc.
Qed.

Lemma log_all_text (records : list (string * string)) (w : World) :
  log_all records w
  = (inr tt,
     mkWorld (console w)
             (failed_files_log w
              ++ String.concat ""
                   (map (fun '(p, r) => failure_record p r) records))
             (workbook w)).
Proof.
  unfold log_all. revert w.
  induction records as [|[p r] l IH]; intros w.
  - simpl. rewrite string_app_nil_r. now destruct w.
  - cbn [for_each]. unfold bind.
    unfold OverallAnalysis.log_failed_file at 1. unfold append_log at 1.
    rewrite IH. cbn [console failed_files_log workbook map].
    rewrite string_concat_cons, string_app_assoc. reflexivity.
Qed.

Lemma no_line_break_no_newline (s : string) :
  no_line_break s -> no_newline s.
Proof.
  induction s as [|c s IH]; simpl; [trivial|].
  intros (Hn & _ & Hs). split; [assumption | now apply IH].
Qed.

(** X15. The failure log can be read back line by line: after a new
    start, calls of [log_failed_file] with paths and reasons that have
    neither a line feed nor a carriage return leave a log whose lines are
    the records of the calls, one line for each call, in the order of the
    calls. *)
Theorem failure_log_reads_back (records : list (string * string)) (w : World) :
  failed_files_log w = ""%string ->
  Forall (fun '(file_path, reason) =>
            no_line_break file_path /\ no_line_break reason)
         records ->
  readlines (failed_files_log (snd (log_all records w)))
  = map (fun '(file_path, reason) => failure_record file_path reason) records.
Proof.
  intros Hw Hr. rewrite log_all_text. cbn [snd failed_files_log]. rewrite Hw.
  cbn [append]. apply readlines_concat.
  induction Hr as [|[p r] l [Hp Hrs] _ IH]; simpl; [constructor|].
  rewrite failure_record_line. apply lines_wf_cons; [|exact IH].
  apply no_newline_app; [now apply no_line_break_no_newline|].
  apply no_newline_app; [|now apply no_line_break_no_newline].
  split; [discriminate | exact I].
Qed.

(** Two records read back as two lines. *)
Lemma failure_log_reads_back_witness :
  readlines (failed_files_log
               (snd (log_all [("stage/S1/b.tsv", "Missing Segment Mean column");
                              ("stage/S2/d.tsv", "Missing Segment Mean column")]
                             Fixture.fresh)))
  = [failure_record "stage/S1/b.tsv" "Missing Segment Mean column";
     failure_record "stage/S2/d.tsv" "Missing Segment Mean column"].
Proof.
  apply (failure_log_reads_back
           [("stage/S1/b.tsv", "Missing Segment Mean column");
            ("stage/S2/d.tsv", "Missing Segment Mean column")] Fixture.fresh).
  - reflexivity.
  - repeat constructor; discriminate.
Defined.


(** ** The text the mutation reader hands to the parser *)

Lemma readlines_joined (ls : list string) :
  lines_wf ls -> readlines (join NL ls) = intersperse NL ls.
Proof.
  unfold join.
  induction 1 as [| c l H | l ls H Hls IH]; [reflexivity | |].
  - simpl String.concat. simpl intersperse. now apply readlines_no_newline.
  - destruct ls as [|l' ls'].
    + exact (readlines_line l "" H).
    + rewrite string_join_cons.
      change (intersperse NL ((l ++ NL)%string :: l' :: ls'))
        with ((l ++ NL)%string :: NL :: intersperse NL (l' :: ls')).
      rewrite string_app_assoc, (readlines_line l _ H). f_equal.
      change (NL ++ String.concat NL (l' :: ls'))%string
        with ("" ++ NL ++ String.concat NL (l' :: ls'))%string.
      rewrite (readlines_line "" _ I). now rewrite IH.
Qed.


Lemma filter_intersperse_blank (ls : list string) :
  filter not_blank_line (intersperse NL ls) = filter not_blank_line ls.
Proof.
  induction ls as [|l ls IH]; [reflexivity|].
  destruct ls as [|l' ls']; [reflexivity|].
  change (intersperse NL (l :: l' :: ls'))
    with (l :: NL :: intersperse NL (l' :: ls')).
  cbn [filter]. change (not_blank_line NL) with false. cbv iota.
  now rewrite IH.
Qed.

(** X16. The text [read_maf_file] hands to the parser is not the text of
    the kept lines: the lines still end with their newline and are joined
    by one more, so the parser gets a blank line between each two kept
    lines. Blank lines left aside, it gets exactly the kept lines in their
    order. *)
Theorem parser_gets_kept_lines_and_blanks (fs : FileSystem)
  (pd_read_csv : string -> Exception + DataFrame) (file_path f : string)
  (w : World) :
  read_text fs file_path = inr f ->
  let kept := filter not_comment (readlines f) in
  exists text,
    fst (read_maf_file fs pd_read_csv file_path w)
    = inr (match pd_read_csv text with
           | inr df => Some df
           | inl _ => None
           end)
    /\ readlines text = intersperse NL kept
    /\ filter not_blank_line (readlines text) = filter not_blank_line kept.
Proof.
  intros Hf kept. exists (join NL kept).
  assert (Hl : readlines (join NL kept) = intersperse NL kept)
    by apply readlines_joined, lines_wf_filter, readlines_wf.
  split; [|split].
  - rewrite read_maf_file_eq. unfold maf_attempt. rewrite Hf. fold kept.
    destruct (pd_read_csv (join NL kept)); reflexivity.
  - exact Hl.
  - rewrite Hl. apply filter_intersperse_blank.
Qed.

(** The mutation file of the fixtures: five lines, two of them comments;
    the parser gets the three other lines and two blank lines. *)
Lemma parser_gets_kept_lines_and_blanks_witness :
  exists text,
    fst (read_maf_file Fixture.stage_I Fixture.read_csv
           "stage/S1/a.Simple_Nucleotide_Variation.maf" Fixture.fresh)
    = inr (match Fixture.read_csv text with
           | inr df => Some df
           | inl _ => None
           end)
    /\ readlines text
       = [("Hugo_Symbol" ++ TAB ++ "Variant_Classification" ++ NL)%string; NL;
          ("A" ++ TAB ++ "Missense" ++ NL)%string; NL;
          ("B" ++ TAB ++ "Silent" ++ NL)%string]
    /\ filter not_blank_line (readlines text)
       = [("Hugo_Symbol" ++ TAB ++ "Variant_Classification" ++ NL)%string;
          ("A" ++ TAB ++ "Missense" ++ NL)%string;
          ("B" ++ TAB ++ "Silent" ++ NL)%string].
Proof.
  exact (parser_gets_kept_lines_and_blanks Fixture.stage_I Fixture.read_csv
           "stage/S1/a.Simple_Nucleotide_Variation.maf" Fixture.maf_a
           Fixture.fresh eq_refl).
Defined.

(** ** Counts and the order of the tables *)

Lemma occurrences_perm (k : cell) (l l' : list cell) :
  Permutation l l' -> occurrences cell_eqb k l = occurrences cell_eqb k l'.
Proof.
  unfold occurrences.
  induction 1 as [| x l l' _ IH | x y l | l l' l'' _ IH1 _ IH2]; simpl.
  - reflexivity.
  - destruct (cell_eqb k x); simpl; congruence.
  - destruct (cell_eqb k x), (cell_eqb k y); reflexivity.
  - congruence.
Qed.

Lemma value_counts_key_in (col : list cell) (g : cell) (n : nat) :
  In (g, n) (value_counts col) -> In g col.
Proof.
  unfold value_counts. intros H.
  apply (Permutation_in _ (Permutation_sym (sort_desc_perm _))) in H.
  destruct (count_keys_entry cell_eqb cell_eqb_refl cell_eqb_sym cell_eqb_trans
              _ _ _ H) as (_ & _ & Hin).
  unfold dropna in Hin. now apply filter_In in Hin.
Qed.

Lemma value_counts_perm (col col' : list cell) (g : cell) (n : nat) :
  Permutation col col' ->
  In (g, n) (value_counts col) ->
  exists g', In (g', n) (value_counts col') /\ cell_eqb g' g = true.
Proof.
  intros Hp Hin.
  destruct (value_counts_entry col g n Hin) as (Hnan & Hn & _).
  pose proof (value_counts_key_in col g n Hin) as Hg.
  apply (Permutation_in _ Hp) in Hg.
  destruct (value_counts_covers col' g Hg Hnan) as ([g' n'] & He & Ee).
  simpl in Ee. exists g'. split; [|assumption].
  destruct (value_counts_entry col' g' n' He) as (_ & Hn' & _).
  rewrite (occurrences_eqb g' g col' Ee), <- (occurrences_perm g col col' Hp) in Hn'.
  now rewrite Hn, <- Hn'.
Qed.

Lemma has_column_perm (name : string) (tables tables' : list DataFrame) :
  Permutation tables tables' -> has_column name tables = has_column name tables'.
Proof.
  intros H. unfold has_column.
  destruct (existsb _ tables) eqn:E1, (existsb _ tables') eqn:E2; try reflexivity.
  - apply existsb_exists in E1. destruct E1 as (df & Hin & Hc).
    rewrite <- E2. symmetry. apply existsb_exists. exists df.
    split; [now apply (Permutation_in _ H) | assumption].
  - apply existsb_exists in E2. destruct E2 as (df & Hin & Hc).
    rewrite <- E1. apply existsb_exists. exists df.
    split; [now apply (Permutation_in _ (Permutation_sym H)) | assumption].
Qed.

(** X19. The counts of the classifications do not depend on the order in
    which the mutation tables were gathered: for the same tables in two
    orders, the two "Mutation_Classification" tables of a stage summary
    have the same classifications with the same counts. (The order of
    classifications of equal count may differ.) *)
Theorem classification_counts_ignore_table_order (stage : string)
  (cnv : list cell) (tables tables' : list DataFrame) :
  Permutation tables tables' ->
  has_column "Hugo_Symbol" tables = true ->
  has_column "Variant_Classification" tables = true ->
  exists summary summary' counts counts',
    Excel3CNV.create_stage_summary stage (Excel3CNV.mkStageData cnv tables)
    = inr summary
    /\ Excel3CNV.create_stage_summary stage (Excel3CNV.mkStageData cnv tables')
       = inr summary'
    /\ dict_get "Mutation_Classification" summary = Some (CountsFrame "Count" counts)
    /\ dict_get "Mutation_Classification" summary' = Some (CountsFrame "Count" counts')
    /\ (forall c n, In (c, n) counts ->
          exists c', In (c', n) counts' /\ cell_eqb c' c = true)
    /\ (forall c n, In (c, n) counts' ->
          exists c', In (c', n) counts /\ cell_eqb c' c = true).
Proof.
  intros Hp Hg Hv.
  assert (Hg' : has_column "Hugo_Symbol" tables' = true)
    by now rewrite <- (has_column_perm _ _ _ Hp).
  assert (Hv' : has_column "Variant_Classification" tables' = true)
    by now rewrite <- (has_column_perm _ _ _ Hp).
  assert (Hcol : Permutation (column_over "Variant_Classification" tables)
                             (column_over "Variant_Classification" tables')).
  { unfold column_over. now apply Permutation_flat_map. }
  exists (stats_entry cnv ++ mutation_entries tables),
         (stats_entry cnv ++ mutation_entries tables'),
         (value_counts (column_over "Variant_Classification" tables)),
         (value_counts (column_over "Variant_Classification" tables')).
  split; [|split; [|split; [|split; [|split]]]].
  - rewrite create_stage_summary_eq. simpl Excel3CNV.snp_data.
    simpl Excel3CNV.cnv_segment_means. rewrite Hg, Hv.
    destruct tables; [discriminate | reflexivity].
  - rewrite create_stage_summary_eq. simpl Excel3CNV.snp_data.
    simpl Excel3CNV.cnv_segment_means. rewrite Hg', Hv'.
    destruct tables'; [discriminate | reflexivity].
  - unfold stats_entry, mutation_entries. destruct (nonempty cnv); reflexivity.
  - unfold stats_entry, mutation_entries. destruct (nonempty cnv); reflexivity.
  - intros c n. now apply value_counts_perm.
  - intros c n. apply value_counts_perm. now apply Permutation_sym.
Qed.

(** The two tables of the fixtures in both orders. *)
Lemma classification_counts_ignore_table_order_witness :
  exists summary summary' counts counts',
    Excel3CNV.create_stage_summary "I"
      (Excel3CNV.mkStageData [] Fixture.tp53_tables) = inr summary
    /\ Excel3CNV.create_stage_summary "I"
         (Excel3CNV.mkStageData [] (rev Fixture.tp53_tables)) = inr summary'
    /\ dict_get "Mutation_Classification" summary = Some (CountsFrame "Count" counts)
    /\ dict_get "Mutation_Classification" summary' = Some (CountsFrame "Count" counts')
    /\ (forall c n, In (c, n) counts ->
          exists c', In (c', n) counts' /\ cell_eqb c' c = true)
    /\ (forall c n, In (c, n) counts' ->
          exists c', In (c', n) counts /\ cell_eqb c' c = true).
Proof.
  apply (classification_counts_ignore_table_order "I" [] Fixture.tp53_tables
           (rev Fixture.tp53_tables)).
  - apply Permutation_rev.
  - reflexivity.
  - reflexivity.
Defined.
